(** * Gene-editing spreadsheet transforms: grid model, colour classifier,
      group simplifier, mutation highlighter and group renumberer.

    Shallow embedding of
      python_service/report_generator/gene_editing_processor.py
      python_service/report_generator/mutation_highlighter.py

    Modelling conventions.
    - Python [str] values are ASCII strings ([string]); [upper], [islower],
      [strip] and [find] are written out for ASCII, where [upper] keeps the
      length of its argument.
    - A worksheet is a list of rows, a row a list of cells; a cell carries
      its value, the aRGB string of its fill's start colour, the aRGB string
      of its font colour (openpyxl validates both as 6 or 8 hex digits when
      they are strings) and its number format.
    - The ingestor is given the worksheet as [load_workbook] with
      [rich_text=True] returns it, the highlighter the worksheet as its
      own [load_workbook] call returns it, which it edits in place. The
      renumberer writes a new workbook: it is given the content of the
      file, rich texts included, and reads it without [rich_text], which
      turns every rich text into its plain text.
    - A cell value is [None], a [str], an [int], a [float] (a binary64
      number, with [repr] and the fixed-point format written out exactly)
      or a rich text; booleans and dates are outside the model.
    - Python sets are [gset string]; the order in which [list(a & b)]
      enumerates a set is a parameter of the highlighter. *)

From Stdlib Require Import ZArith Ascii String List Lia DecimalString DecimalNat.
From Stdlib Require Import PrimFloat FloatOps SpecFloat.
From stdpp Require Import gmap strings list.
Import ListNotations.

(** ** Python string primitives (ASCII) *)

Module PyStr.

Definition code (c : ascii) : nat := nat_of_ascii c.

(** [c.islower()] for a one-character string. *)
Definition islower (c : ascii) : bool :=
  (97 <=? code c)%nat && (code c <=? 122)%nat.

Definition upper_char (c : ascii) : ascii :=
  if islower c then ascii_of_nat (code c - 32) else c.

Definition isupper (c : ascii) : bool :=
  (65 <=? code c)%nat && (code c <=? 90)%nat.

Definition lower_char (c : ascii) : ascii :=
  if isupper c then ascii_of_nat (code c + 32) else c.

(** [s.upper()] *)
Fixpoint upper (s : string) : string :=
  match s with
  | EmptyString => EmptyString
  | String c r => String (upper_char c) (upper r)
  end.

(** Whitespace of [str.strip()] and of the regular expression class [\s]. *)
Definition isspace (c : ascii) : bool :=
  ((9 <=? code c)%nat && (code c <=? 13)%nat)
  || ((28 <=? code c)%nat && (code c <=? 32)%nat).

Fixpoint lstrip (s : string) : string :=
  match s with
  | EmptyString => EmptyString
  | String c r => if isspace c then lstrip r else s
  end.

(** Drops trailing whitespace: a character is kept when it is not a space
    or when something is kept after it. *)
Fixpoint rstrip (s : string) : string :=
  match s with
  | EmptyString => EmptyString
  | String c r =>
      match rstrip r with
      | EmptyString => if isspace c then EmptyString else String c EmptyString
      | r' => String c r'
      end
  end.

(** [s.strip()] *)
Definition strip (s : string) : string := rstrip (lstrip s).

Definition len (s : string) : Z := Z.of_nat (String.length s).

(** [sub in s] *)
Fixpoint contains (sub s : string) : bool :=
  if String.prefix sub s then true
  else match s with
       | EmptyString => false
       | String _ r => contains sub r
       end.

(** [s.find(sub)]: the least index at which [sub] occurs, [-1] if none. *)
Fixpoint find_from (sub s : string) (i : Z) : Z :=
  if String.prefix sub s then i
  else match s with
       | EmptyString => (-1)%Z
       | String _ r => find_from sub r (i + 1)%Z
       end.

Definition find (s sub : string) : Z := find_from sub s 0%Z.

(** Slice bounds as Python normalises them: a negative index counts from
    the end, and both ends are clipped to the string. *)
Definition norm_index (n i : Z) : Z :=
  if (i <? 0)%Z then Z.max 0 (n + i) else Z.min i n.

(** [s[a:b]] *)
Definition slice (s : string) (a b : Z) : string :=
  let a' := norm_index (len s) a in
  let b' := norm_index (len s) b in
  String.substring (Z.to_nat a') (Z.to_nat (b' - a')) s.

(** [s[a:]] and [s[:b]] *)
Definition slice_from (s : string) (a : Z) : string := slice s a (len s).
Definition slice_to (s : string) (b : Z) : string := slice s 0%Z b.

Definition chars (s : string) : list ascii := list_ascii_of_string s.

(** [c in s] for a one-character [c] *)
Definition char_in (c : ascii) (s : string) : bool :=
  existsb (Ascii.eqb c) (chars s).

(** [''.join(c for c in s if p c)] *)
Fixpoint filter_chars (p : ascii -> bool) (s : string) : string :=
  match s with
  | EmptyString => EmptyString
  | String c r => if p c then String c (filter_chars p r) else filter_chars p r
  end.

(** [''.join(parts)] *)
Definition join (parts : list string) : string :=
  fold_right String.append EmptyString parts.

(** [s.count(c)] for a one-character [c] *)
Definition count_char (c : ascii) (s : string) : nat :=
  length (List.filter (Ascii.eqb c) (chars s)).

Definition is_digit (c : ascii) : bool :=
  (48 <=? code c)%nat && (code c <=? 57)%nat.

(** The class [\w] on ASCII. *)
Definition is_word (c : ascii) : bool :=
  is_digit c || isupper c || islower c || Ascii.eqb c "_"%char.

Definition hex_digit (c : ascii) : option Z :=
  if is_digit c then Some (Z.of_nat (code c - 48))
  else if (65 <=? code c)%nat && (code c <=? 70)%nat
       then Some (Z.of_nat (code c - 55))
  else if (97 <=? code c)%nat && (code c <=? 102)%nat
       then Some (Z.of_nat (code c - 87))
  else None.

(** [int(s, 16)] on a two-character slice of a colour string; [None] stands
    for the [ValueError] of a slice that is not two hexadecimal digits.
    (Python also reads a sign or a blank next to one digit; openpyxl admits
    hexadecimal digits only in an rgb string, so such slices do not occur.) *)
Definition int16 (s : string) : option Z :=
  match s with
  | String h (String l EmptyString) =>
      match hex_digit h, hex_digit l with
      | Some a, Some b => Some (16 * a + b)%Z
      | _, _ => None
      end
  | _ => None
  end.

End PyStr.

(** ** Python floats *)

Module PyFloat.

(** A Python [float] is a binary64 number. The two conversions to text the
    transforms use are computed from its exact value [m * 2^e]. *)

(** The decimal numeral of a natural number given as [Z]. *)
Definition digits (n : Z) : string :=
  NilZero.string_of_uint (N.to_uint (Z.to_N n)).

Fixpoint zeros (k : nat) : string :=
  match k with
  | O => EmptyString
  | S k' => String "0" (zeros k')
  end.

Definition sign (s : bool) : string := if s then "-" else "".

(** The integer nearest to [num / den], ties to the even one ([0 < den]). *)
Definition round_half_even (num den : Z) : Z :=
  let q := (num / den)%Z in
  let r := (num mod den)%Z in
  match (2 * r ?= den)%Z with
  | Lt => q
  | Gt => (q + 1)%Z
  | Eq => if Z.even q then q else (q + 1)%Z
  end.

(** The numeral of [n / 10^d] with [d] digits after the point. *)
Definition fixed_point (n : Z) (d : nat) : string :=
  let s := digits n in
  let s := zeros (S d - String.length s) +:+ s in
  match d with
  | O => s
  | _ =>
      substring 0 (String.length s - d) s +:+ "."
        +:+ substring (String.length s - d) d s
  end.

(** [f"{x:.{d}f}"]: the exact binary value, correctly rounded to [d]
    decimals. *)
Definition format_fixed (x : float) (d : nat) : string :=
  match Prim2SF x with
  | S754_nan => "nan"
  | S754_infinity s => sign s +:+ "inf"
  | S754_zero s => sign s +:+ fixed_point 0 d
  | S754_finite s m e =>
      let num :=
        if (0 <=? e)%Z then (Zpos m * 2 ^ e * 10 ^ Z.of_nat d)%Z
        else (Zpos m * 10 ^ Z.of_nat d)%Z in
      let den := if (0 <=? e)%Z then 1%Z else (2 ^ (- e))%Z in
      sign s +:+ fixed_point (round_half_even num den) d
  end.

(** [floor(log10(num / den))] for positive [num], [den]. *)
Definition pow10_le (p num den : Z) : bool :=
  if (0 <=? p)%Z then (10 ^ p * den <=? num)%Z
  else (den <=? num * 10 ^ (- p))%Z.

Definition log10_floor (num den : Z) : Z :=
  let p0 := ((Z.log2 num - Z.log2 den) * 30103 / 100000)%Z in
  if pow10_le (p0 + 2) num den then (p0 + 2)%Z
  else if pow10_le (p0 + 1) num den then (p0 + 1)%Z
  else if pow10_le p0 num den then p0
  else if pow10_le (p0 - 1) num den then (p0 - 1)%Z
  else (p0 - 2)%Z.

(** The decimal [d * 10^q] with the fewest digits that reads back as the
    float [m * 2^e], the nearest one if there are several: the digits that
    [repr] prints. *)
Section Shortest.
Variables (m : positive) (e : Z).

Definition shift : Z := Z.max 0 (2 - e).
Definition den : Z := (2 ^ shift)%Z.
Definition mid : Z := (Zpos m * 2 ^ (e + shift))%Z.
Definition high : Z := (mid + 2 ^ (e + shift - 1))%Z.
Definition low : Z :=
  if (Zpos m =? 2 ^ 52)%Z && (-1074 <? e)%Z
  then (mid - 2 ^ (e + shift - 2))%Z
  else (mid - 2 ^ (e + shift - 1))%Z.
Definition closed : bool := Z.even (Zpos m).

Definition candidate (q : Z) : option Z :=
  let a := if (0 <=? q)%Z then (10 ^ q * den)%Z else den in
  let b := if (0 <=? q)%Z then 1%Z else (10 ^ (- q))%Z in
  let d_lo := (mid * b / a)%Z in
  let d_hi := (d_lo + 1)%Z in
  let lo_in :=
    if closed then (low * b <=? d_lo * a)%Z else (low * b <? d_lo * a)%Z in
  let hi_in :=
    if closed then (d_hi * a <=? high * b)%Z else (d_hi * a <? high * b)%Z in
  match lo_in, hi_in with
  | false, false => None
  | true, false => Some d_lo
  | false, true => Some d_hi
  | true, true =>
      match (mid * b - d_lo * a ?= d_hi * a - mid * b)%Z with
      | Lt => Some d_lo
      | Gt => Some d_hi
      | Eq => if Z.even d_lo then Some d_lo else Some d_hi
      end
  end.

Fixpoint search (fuel : nat) (q : Z) : Z * Z :=
  match fuel with
  | O => (round_half_even
            (if (0 <=? q)%Z then mid else mid * 10 ^ (- q))%Z
            (if (0 <=? q)%Z then 10 ^ q * den else den)%Z, q)
  | S fuel' =>
      match candidate q with
      | Some d => (d, q)
      | None => search fuel' (q - 1)%Z
      end
  end.

Fixpoint strip_zeros (fuel : nat) (d : Z) : Z :=
  match fuel with
  | O => d
  | S fuel' =>
      if (0 <? d)%Z && (d mod 10 =? 0)%Z then strip_zeros fuel' (d / 10)%Z
      else d
  end.

(** The digits and the position of the decimal point after their first
    [decpt] digits. *)
Definition shortest : string * Z :=
  let '(d, q) := search 17 (log10_floor mid den) in
  (digits (strip_zeros 18 d), (q + Z.of_nat (String.length (digits d)))%Z).

End Shortest.

(** [repr(x)], which is also [str(x)]. *)
Definition repr (x : float) : string :=
  match Prim2SF x with
  | S754_nan => "nan"
  | S754_infinity s => sign s +:+ "inf"
  | S754_zero s => sign s +:+ "0.0"
  | S754_finite s m e =>
      let '(ds, decpt) := shortest m e in
      let n := String.length ds in
      sign s +:+
      (if (decpt <=? -4)%Z || (16 <? decpt)%Z then
         let ex := (decpt - 1)%Z in
         let exs := digits (Z.abs ex) in
         substring 0 1 ds
           +:+ (if (1 <? n)%nat then "." +:+ substring 1 (n - 1) ds else "")
           +:+ "e" +:+ (if (ex <? 0)%Z then "-" else "+")
           +:+ (if (String.length exs <? 2)%nat then "0" +:+ exs else exs)
       else if (decpt <=? 0)%Z then "0." +:+ zeros (Z.to_nat (- decpt)) +:+ ds
       else if (Z.of_nat n <=? decpt)%Z then
         ds +:+ zeros (Z.to_nat decpt - n) +:+ ".0"
       else substring 0 (Z.to_nat decpt) ds +:+ "."
              +:+ substring (Z.to_nat decpt) (n - Z.to_nat decpt) ds)
  end.

(** [bool(x)] *)
Definition nonzero (x : float) : bool := negb (PrimFloat.eqb x 0).

(** [int(x)] raises [OverflowError] on an infinity. *)
Definition is_infinite (x : float) : bool :=
  match Prim2SF x with S754_infinity _ => true | _ => false end.

(** [float(z)] raises [OverflowError] when [z], rounded to 53 bits, needs
    an exponent above 1023. *)
Definition int_overflows (z : Z) : bool :=
  (2 ^ 1024 - 2 ^ 970 <=? Z.abs z)%Z.

End PyFloat.

(** ** Worksheet cells *)

(** One part of a [CellRichText]: a [TextBlock] with the rgb of its inline
    font colour (when the block has a font with a colour), or a bare string. *)
Inductive rich_part :=
  | TextBlock (font_rgb : option string) (text : string)
  | PlainPart (text : string).

Inductive cell_value :=
  | VNone
  | VStr (s : string)
  | VInt (z : Z)
  | VFloat (x : float)
  | VRich (parts : list rich_part).

Record cell := mkCell {
  value : cell_value;
  fill_rgb : option string;   (* cell.fill.start_color.rgb, when a string *)
  font_rgb : option string;   (* cell.font.color.rgb, when present *)
  number_format : string      (* cell.number_format *)
}.

Definition row := list cell.
Definition sheet := list row.

Definition part_text (p : rich_part) : string :=
  match p with
  | TextBlock _ t => t
  | PlainPart t => t
  end.

(** Python truthiness of a cell value. *)
Definition truthy (v : cell_value) : bool :=
  match v with
  | VNone => false
  | VStr s => negb (String.eqb s "")
  | VInt z => negb (z =? 0)%Z
  | VFloat x => PyFloat.nonzero x
  | VRich parts => match parts with [] => false | _ => true end
  end.

Definition is_none (v : cell_value) : bool :=
  match v with VNone => true | _ => false end.

(** [str(v)] for the cell values of the model. *)
Definition py_str (v : cell_value) : string :=
  match v with
  | VNone => "None"
  | VStr s => s
  | VInt z => NilZero.string_of_int (Z.to_int z)
  | VFloat x => PyFloat.repr x
  | VRich parts => PyStr.join (map part_text parts)
  end.

(** [str(row_data[i]).strip() if len(row_data) > i and row_data[i] else ""] *)
Definition stripped_if_truthy (row_data : list cell_value) (i : nat) : string :=
  match nth_error row_data i with
  | Some v => if truthy v then PyStr.strip (py_str v) else ""
  | None => ""
  end.

(** [str(row_data[i]).strip()] when the cell exists and is not [None]. *)
Definition stripped_if_present (row_data : list cell_value) (i : nat) : option string :=
  match nth_error row_data i with
  | Some v => if is_none v then None else Some (PyStr.strip (py_str v))
  | None => None
  end.

(** [all(v is None or str(v).strip() == '' for v in row_data)] *)
Definition all_empty (row_data : list cell_value) : bool :=
  forallb (fun v => is_none v || String.eqb (PyStr.strip (py_str v)) "") row_data.

(** The value of a cell in a workbook loaded without [rich_text=True]: a
    rich text is read as its plain text, the runs and their fonts are
    dropped. *)
Definition plain_value (v : cell_value) : cell_value :=
  match v with
  | VRich parts => VStr (py_str (VRich parts))
  | _ => v
  end.

Definition plain_cell (c : cell) : cell :=
  mkCell (plain_value (value c)) (fill_rgb c) (font_rgb c) (number_format c).

(** [load_workbook(path, data_only=False)], without [rich_text]. *)
Definition load_workbook_plain (file : sheet) : sheet :=
  map (map plain_cell) file.

(** Longest prefix of [s] whose characters satisfy [p], and the rest. *)
Fixpoint span (p : ascii -> bool) (s : string) : string * string :=
  match s with
  | EmptyString => (EmptyString, EmptyString)
  | String c r =>
      if p c then let '(a, b) := span p r in (String c a, b)
      else (EmptyString, s)
  end.

Definition newline : string := String (ascii_of_nat 10) EmptyString.

(** [re.compile(r'^(\d+)-ref(\w+)$').match(s)]: the two captured groups.
    Both repetitions are greedy and are followed by a character outside
    their class, so no backtracking is possible; [$] also accepts one final
    newline. *)
Definition match_sequence_pattern (s : string) : option (string * string) :=
  let '(digits, rest) := span PyStr.is_digit s in
  if String.eqb digits "" then None
  else if String.prefix "-ref" rest then
    let '(name, tail) := span PyStr.is_word (PyStr.slice_from rest 4) in
    if String.eqb name "" then None
    else if String.eqb tail "" || String.eqb tail newline
         then Some (digits, name)
         else None
  else None.

Definition is_base_upper (c : ascii) : bool :=
  PyStr.char_in c "ATCG".

(** [c.upper() in 'ATCG'] *)
Definition is_base (c : ascii) : bool := is_base_upper (PyStr.upper_char c).

(** ** gene_editing_processor.py *)

Module GeneEditingProcessor.

Inductive bucket := Yellow | Green | Blue | Pink | Other.

Definition bucket_name (b : bucket) : string :=
  match b with
  | Yellow => "yellow"
  | Green => "green"
  | Blue => "blue"
  | Pink => "pink"
  | Other => "other"
  end.

(** The three [int(color[..], 16)] of [_is_row_highlighted]; [None] is the
    exception swallowed by the bare [except]. *)
Definition channels (color : string) : option (Z * Z * Z) :=
  match PyStr.int16 (PyStr.slice color (-6) (-4)),
        PyStr.int16 (PyStr.slice color (-4) (-2)),
        PyStr.int16 (PyStr.slice_from color (-2)) with
  | Some r, Some g, Some b => Some (r, g, b)
  | _, _, _ => None
  end.

(** The conditional chain of [_is_row_highlighted] for one fill colour:
    [Some bk] is [return True, bk]; [None] moves on to the next cell. *)
Definition classify_rgb (color : string) (r g b : Z) : option bucket :=
  if (r >? 240)%Z && (g >? 240)%Z && (b >? 240)%Z then None
  else if (r =? 0)%Z && (g =? 0)%Z && (b =? 0)%Z
          && String.eqb (PyStr.upper color) "00000000" then None
  else if (r >? 200)%Z && (g >? 200)%Z && (b <? 100)%Z then Some Yellow
  else if (g >? 180)%Z && (g >? r)%Z && (g >? b)%Z && (b <? 120)%Z then Some Green
  else if (b >? 150)%Z && (b >? r)%Z && (b >? g)%Z then Some Blue
  else if (r >? 200)%Z && (b >? 150)%Z && (g <? 180)%Z then Some Pink
  else if negb ((r <? 50)%Z && (g <? 50)%Z && (b <? 50)%Z) then
    if (r >? 80)%Z || (g >? 80)%Z || (b >? 80)%Z then Some Other else None
  else None.

Definition cell_bucket (c : cell) : option bucket :=
  match fill_rgb c with
  | Some color =>
      if negb (String.eqb color "") && (6 <=? PyStr.len color)%Z then
        match channels color with
        | Some (r, g, b) => classify_rgb color r g b
        | None => None
        end
      else None
  | None => None
  end.

Fixpoint _is_row_highlighted (r : row) : bool * string :=
  match r with
  | [] => (false, "")
  | c :: rest =>
      match cell_bucket c with
      | Some bk => (true, bucket_name bk)
      | None => _is_row_highlighted rest
      end
  end.

(** *** The ordered rule table of the colour classifier, as the
    specification words it: seven rules, the first whose condition holds
    decides. *)

Inductive outcome := NoHighlight | Bucket (bk : bucket).

Record rule := mkRule {
  applies : string -> Z -> Z -> Z -> bool;
  gives : outcome
}.

Definition near_white (_ : string) (r g b : Z) : bool :=
  (r >? 240)%Z && (g >? 240)%Z && (b >? 240)%Z.

Definition transparent_zero (color : string) (r g b : Z) : bool :=
  (r =? 0)%Z && (g =? 0)%Z && (b =? 0)%Z
  && String.eqb (PyStr.upper color) "00000000".

Definition yellow_rule (_ : string) (r g b : Z) : bool :=
  (r >? 200)%Z && (g >? 200)%Z && (b <? 100)%Z.

Definition green_rule (_ : string) (r g b : Z) : bool :=
  (g >? 180)%Z && (g >? r)%Z && (g >? b)%Z && (b <? 120)%Z.

Definition blue_rule (_ : string) (r g b : Z) : bool :=
  (b >? 150)%Z && (b >? r)%Z && (b >? g)%Z.

Definition pink_rule (_ : string) (r g b : Z) : bool :=
  (r >? 200)%Z && (b >? 150)%Z && (g <? 180)%Z.

(** Near-black: no channel above 80. *)
Definition near_black (r g b : Z) : bool :=
  (r <=? 80)%Z && (g <=? 80)%Z && (b <=? 80)%Z.

Definition other_rule (_ : string) (r g b : Z) : bool :=
  negb (near_black r g b).

Definition spec_rules : list rule :=
  [ mkRule near_white NoHighlight;
    mkRule transparent_zero NoHighlight;
    mkRule yellow_rule (Bucket Yellow);
    mkRule green_rule (Bucket Green);
    mkRule blue_rule (Bucket Blue);
    mkRule pink_rule (Bucket Pink);
    mkRule other_rule (Bucket Other) ].

(** Number (from [k]) and outcome of the first rule that applies. *)
Fixpoint first_match (rules : list rule) (k : nat)
    (color : string) (r g b : Z) : option (nat * outcome) :=
  match rules with
  | [] => None
  | rl :: rest =>
      if applies rl color r g b then Some (k, gives rl)
      else first_match rest (S k) color r g b
  end.

Definition outcome_bucket (o : option (nat * outcome)) : option bucket :=
  match o with
  | Some (_, Bucket bk) => Some bk
  | _ => None
  end.

(** The cell's fill is decided by rule [k] of the table. *)
Definition cell_matches_rule (c : cell) (k : nat) : Prop :=
  exists color r g b o,
    fill_rgb c = Some color /\ (6 <= PyStr.len color)%Z /\
    channels color = Some (r, g, b) /\
    first_match spec_rules 1 color r g b = Some (k, o).

(** *** Rich-text extraction *)

Definition rgb_channels_at (rgb : string) (off : Z) : option (Z * Z * Z) :=
  match PyStr.int16 (PyStr.slice rgb off (off + 2)),
        PyStr.int16 (PyStr.slice rgb (off + 2) (off + 4)),
        PyStr.int16 (PyStr.slice rgb (off + 4) (off + 6)) with
  | Some r, Some g, Some b => Some (r, g, b)
  | _, _, _ => None
  end.

Definition _is_red_color (rgb_str : string) : bool :=
  if String.eqb rgb_str "" then false
  else
    let rgb := PyStr.upper rgb_str in
    let parsed :=
      if (PyStr.len rgb =? 8)%Z then rgb_channels_at rgb 2
      else if (PyStr.len rgb =? 6)%Z then rgb_channels_at rgb 0
      else None in
    match parsed with
    | Some (r, g, b) => (r >? 180)%Z && (g <? 100)%Z && (b <? 100)%Z
    | None => false
    end.

(** Loop state of the walk over the parts of a [CellRichText]. *)
Record red_scan := mkScan {
  current_pos : Z;
  red_start : Z;
  red_text_parts : list string
}.

Definition part_is_red (p : rich_part) : bool :=
  match p with
  | TextBlock (Some rgb) _ => negb (String.eqb rgb "") && _is_red_color rgb
  | _ => false
  end.

Definition scan_part (st : red_scan) (p : rich_part) : red_scan :=
  let part_text := part_text p in
  let nonempty := negb (String.eqb part_text "") in
  let st' :=
    if part_is_red p && nonempty then
      mkScan (current_pos st)
             (if (red_start st =? -1)%Z then current_pos st else red_start st)
             (red_text_parts st ++ [part_text])
    else st in
  mkScan (current_pos st' + (if nonempty then PyStr.len part_text else 0))%Z
         (red_start st') (red_text_parts st').

Definition _extract_red_from_cell_with_position (c : cell) : string * Z :=
  match value c with
  | VRich parts =>
      let st := fold_left scan_part parts (mkScan 0 (-1) []) in
      match red_text_parts st with
      | [] => ("", (-1)%Z)
      | _ => (PyStr.join (red_text_parts st), red_start st)
      end
  | v =>
      match font_rgb c with
      | Some rgb =>
          if negb (String.eqb rgb "") && _is_red_color rgb
          then ((if truthy v then py_str v else ""), 0%Z)
          else ("", (-1)%Z)
      | None => ("", (-1)%Z)
      end
  end.

(** One of the two attempts of method 1 of
    [_extract_red_bases_from_sequence]: the cell of column [i], when the
    row has it and its value is truthy, and red text is found in it. *)
Definition red_of_column (original_row : list cell) (i : nat)
  : option (string * Z * Z) :=
  match nth_error original_row i with
  | Some c =>
      if truthy (value c) then
        let '(red_text, start) := _extract_red_from_cell_with_position c in
        if negb (String.eqb red_text "")
        then Some (red_text, start, (start + PyStr.len red_text)%Z)
        else None
      else None
  | None => None
  end.

Fixpoint lowercase_positions_from (s : string) (i : Z) : list Z :=
  match s with
  | EmptyString => []
  | String c r =>
      if PyStr.islower c && is_base c
      then i :: lowercase_positions_from r (i + 1)%Z
      else lowercase_positions_from r (i + 1)%Z
  end.

(** [[i for i, c in enumerate(sequence) if c.islower() and c.upper() in 'ATCG']] *)
Definition lowercase_positions (s : string) : list Z :=
  lowercase_positions_from s 0.

(** Method 2 of [_extract_red_bases_from_sequence]. *)
Definition lowercase_window (sequence : string) : string * Z * Z :=
  if String.eqb sequence "" then ("", (-1)%Z, (-1)%Z)
  else
    match lowercase_positions sequence with
    | mutation_pos :: _ =>
        let start := Z.max 0 (mutation_pos - 10) in
        let end_ := (start + 20)%Z in
        let '(start, end_) :=
          if (end_ >? PyStr.len sequence)%Z
          then (Z.max 0 (PyStr.len sequence - 20), PyStr.len sequence)
          else (start, end_) in
        (PyStr.slice sequence start end_, start, end_)
    | [] => ("", (-1)%Z, (-1)%Z)
    end.

Definition _extract_red_bases_from_sequence
    (sequence : string) (original_row : list cell) : string * Z * Z :=
  match red_of_column original_row 7 with
  | Some res => res
  | None =>
      match red_of_column original_row 8 with
      | Some res => res
      | None => lowercase_window sequence
      end
  end.

(** *** Row classifier *)

Module SequenceEntry.
(** The fields [depth], [percentage_raw] and [has_valid_data] of the
    dataclass are left out: no function below reads them. What is kept of
    their computation is whether it raises ([depth_raises],
    [percentage_raises]). *)
Record t := mk {
  sequence_id : string;
  reference_name : string;
  row_number : nat;
  data_type : string;
  snp_type : string;
  full_sequence : string;
  left_sequence : string;
  right_sequence : string;
  is_wt : bool;
  is_highlighted : bool;
  highlight_color : string;
  original_row : list cell_value;
  original_row_cells : list cell;
  original_sequence_value : cell_value
}.
End SequenceEntry.

(** [re.compile(r'([ATCG])->([ATCG])', re.IGNORECASE).search(s)] as a test. *)
Fixpoint mutation_pattern_search (s : string) : bool :=
  match s with
  | EmptyString => false
  | String c r =>
      match s with
      | String a (String "-" (String ">" (String b _))) =>
          (is_base a && is_base b) || mutation_pattern_search r
      | _ => mutation_pattern_search r
      end
  end.

(** A sequence column of [_parse_data_row]: kept only with more than 20
    bases in it. *)
Definition sequence_field (row_data : list cell_value) (i : nat) : string :=
  match stripped_if_present row_data i with
  | Some s =>
      let cleaned := PyStr.filter_chars is_base s in
      if (PyStr.len cleaned >? 20)%Z then s else ""
  | None => ""
  end.

Definition has_lower_base (s : string) : bool :=
  existsb (fun c => PyStr.islower c && is_base c) (PyStr.chars s).

Definition nth_value (row_data : list cell_value) (i : nat) : cell_value :=
  match nth_error row_data i with Some v => v | None => VNone end.

(** [depth = int(row_data[1])] catches [ValueError] and [TypeError] only:
    the [OverflowError] of an infinite float leaves the function. *)
Definition depth_raises (row_data : list cell_value) : bool :=
  match nth_error row_data 1 with
  | Some (VFloat x) => PyFloat.is_infinite x
  | _ => false
  end.

(** [float(val)] in the last branch for column C, reached by every [int]:
    it raises [OverflowError] on an integer too large for a float. *)
Definition percentage_raises (row_data : list cell_value) : bool :=
  match nth_error row_data 2 with
  | Some (VInt z) => PyFloat.int_overflows z
  | _ => false
  end.

(** The [SequenceEntry] built by the body of [_parse_data_row]. *)
Definition parsed_entry (row_data : list cell_value) (row_idx : nat)
    (seq_id ref_name : string) (is_highlighted : bool)
    (highlight_color : string) (row_cells : row) : SequenceEntry.t :=
  let opt_upper o := match o with Some s => PyStr.upper s | None => "" end in
  let opt_str o := match o with Some s => s | None => "" end in
  let left_type := opt_upper (stripped_if_present row_data 3) in
  let right_type := opt_upper (stripped_if_present row_data 4) in
  let left_var := opt_str (stripped_if_present row_data 5) in
  let right_var := opt_str (stripped_if_present row_data 6) in
  let left_has_mutation := mutation_pattern_search left_var in
  let right_has_mutation := mutation_pattern_search right_var in
  let snp_type :=
    if left_has_mutation && right_has_mutation then left_var
    else if left_has_mutation then left_var
    else if right_has_mutation then right_var
    else "" in
  let data_type :=
    if String.eqb left_type "WT" && String.eqb right_type "WT" then "WT"
    else if String.eqb left_type "SNP" || String.eqb right_type "SNP" then "SNP"
    else if negb (String.eqb left_type "WT") then left_type else right_type in
  let left_seq := sequence_field row_data 7 in
  let right_seq := sequence_field row_data 8 in
  let has_lower_left := has_lower_base left_seq in
  let has_lower_right := has_lower_base right_seq in
  let '(full_sequence, orig_seq_val) :=
    if is_highlighted && negb (String.eqb left_seq "") then
      (left_seq, nth_value row_data 7)
    else if has_lower_left then (left_seq, nth_value row_data 7)
    else if has_lower_right then (right_seq, nth_value row_data 8)
    else ((if negb (String.eqb left_seq "") then left_seq else right_seq),
          (if negb (String.eqb left_seq "") && (7 <? length row_data)%nat
           then nth_value row_data 7 else nth_value row_data 8)) in
  let is_wt := String.eqb left_type "WT" && String.eqb right_type "WT" in
  SequenceEntry.mk seq_id ref_name row_idx data_type snp_type full_sequence
    left_seq right_seq is_wt is_highlighted highlight_color
    row_data row_cells orig_seq_val.

(** [_parse_data_row]: the entry, or [None] when the body raises (the
    outer [except Exception] prints the error and returns [None]). *)
Definition _parse_data_row (row_data : list cell_value) (row_idx : nat)
    (seq_id ref_name : string) (is_highlighted : bool)
    (highlight_color : string) (row_cells : row) : option SequenceEntry.t :=
  if depth_raises row_data || percentage_raises row_data then None
  else Some (parsed_entry row_data row_idx seq_id ref_name is_highlighted
                          highlight_color row_cells).

(** *** Grid ingestor *)

Record group := mkGroup {
  seq_id : string;
  ref_name : string;
  all_entries : list SequenceEntry.t
}.

(** State of the walk of [parse_source_file]. In the source
    [current_group] is the dictionary last appended to [sequence_groups],
    and appending an entry to it changes that element of the list in place;
    here the groups before it are [closed] and the list the function
    returns is [closed ++ current]. *)
Record ingest := mkIngest {
  closed : list group;
  current_group : option group
}.

Definition sequence_groups (st : ingest) : list group :=
  closed st ++ match current_group st with Some g => [g] | None => [] end.

(** [str(row_data[0]).strip() if row_data[0] else ""] *)
Definition first_cell (row_data : list cell_value) : string :=
  stripped_if_truthy row_data 0.

(** [decimal_places = cell.number_format.count('0') - 1], and 2 when that
    is negative. *)
Definition decimal_places (number_format : string) : nat :=
  match PyStr.count_char "0" number_format with
  | O => 2
  | S k => k
  end.

(** One element of [row_data]: the value of the cell, and for a float in
    a cell with a percent sign in its number format the text of the
    percentage. *)
Definition row_value (c : cell) : cell_value :=
  match value c with
  | VFloat val =>
      if negb (String.eqb (number_format c) "")
         && PyStr.contains "%" (number_format c)
      then
        let pct_val := PrimFloat.mul val 100%float in
        VStr (PyFloat.format_fixed pct_val (decimal_places (number_format c))
              +:+ "%")
      else VFloat val
  | val => val
  end.

Definition parse_row (st : ingest) (row_idx : nat) (r : row) : ingest :=
  let row_data := map row_value r in
  if all_empty row_data then st
  else
    match match_sequence_pattern (first_cell row_data) with
    | Some (_, name) =>
        mkIngest (sequence_groups st)
                 (Some (mkGroup (first_cell row_data) name []))
    | None =>
        match current_group st with
        | Some g =>
            let '(is_highlighted, highlight_color) := _is_row_highlighted r in
            match _parse_data_row row_data row_idx (seq_id g) (ref_name g)
                                  is_highlighted highlight_color r with
            | Some entry =>
                mkIngest (closed st)
                         (Some (mkGroup (seq_id g) (ref_name g)
                                        (all_entries g ++ [entry])))
            | None => st
            end
        | None => st
        end
    end.

(** [for row_idx, row in enumerate(ws.iter_rows(min_row=1), 1)] *)
Fixpoint parse_rows (rows : sheet) (row_idx : nat) (st : ingest) : ingest :=
  match rows with
  | [] => st
  | r :: rest => parse_rows rest (S row_idx) (parse_row st row_idx r)
  end.

(** [ws] is the active worksheet loaded with [rich_text=True]; the second
    attempt without it, made when the first raises, is not modelled. *)
Definition parse_source_file (ws : sheet) : list group :=
  sequence_groups (parse_rows ws 1 (mkIngest [] None)).

(** *** Group simplifier *)

Module SimplifiedRow.
Record t := mk {
  sequence_id : string;
  reference_name : string;
  row_type : string;
  red_20_bases : string;
  original_row_values : list cell_value;
  is_highlighted : bool;
  highlight_color : string;
  original_row_num : nat;
  is_simplified : bool
}.
End SimplifiedRow.

Definition wt_row (g : group) (simplified : bool) (wt_entry : SequenceEntry.t)
  : SimplifiedRow.t :=
  SimplifiedRow.mk (seq_id g) (ref_name g) "WT" "-"
    (SequenceEntry.original_row wt_entry) false ""
    (SequenceEntry.row_number wt_entry) simplified.

Definition hl_red_bases (hl_entry : SequenceEntry.t) : string :=
  match SequenceEntry.original_row_cells hl_entry with
  | [] => ""
  | cells =>
      let '(red_bases, _, _) :=
        _extract_red_bases_from_sequence
          (SequenceEntry.full_sequence hl_entry) cells in
      red_bases
  end.

Definition snp_row (g : group) (hl_entry : SequenceEntry.t) : SimplifiedRow.t :=
  let red_bases := hl_red_bases hl_entry in
  SimplifiedRow.mk (seq_id g) (ref_name g) "SNP"
    (if negb (String.eqb red_bases "") then red_bases else "-")
    (SequenceEntry.original_row hl_entry) true
    (SequenceEntry.highlight_color hl_entry)
    (SequenceEntry.row_number hl_entry) false.

(** Body of the loop over the groups in [simplify_data]; [results] is the
    list the rows are appended to. *)
Definition simplify_group (results : list SimplifiedRow.t) (g : group)
  : list SimplifiedRow.t :=
  let highlighted_entries :=
    List.filter SequenceEntry.is_highlighted (all_entries g) in
  let has_highlights := (0 <? length highlighted_entries)%nat in
  let wt_entries := List.filter SequenceEntry.is_wt (all_entries g) in
  if has_highlights then
    let results :=
      fold_left (fun res wt_entry => res ++ [wt_row g false wt_entry])
                wt_entries results in
    fold_left (fun res hl_entry => res ++ [snp_row g hl_entry])
              highlighted_entries results
  else
    fold_left (fun res wt_entry => res ++ [wt_row g true wt_entry])
              wt_entries results.

Definition simplify_data (groups : list group) : list SimplifiedRow.t :=
  fold_left simplify_group groups [].

(** The data rows written by [generate_simplified_excel] (values only):
    identifier, red bases, row kind, colour, then the original columns
    from the second one on. *)
Definition written_values (r : SimplifiedRow.t) : list cell_value :=
  let hl_color := SimplifiedRow.highlight_color r in
  [ VStr (SimplifiedRow.sequence_id r);
    VStr (SimplifiedRow.red_20_bases r);
    VStr (SimplifiedRow.row_type r);
    VStr (if negb (String.eqb hl_color "") then hl_color else "-") ]
  ++ skipn 1 (SimplifiedRow.original_row_values r).

Definition generate_simplified_excel (results : list SimplifiedRow.t)
  : list (list cell_value) :=
  map written_values results.

(** [process_file]: ingest, simplify, write. *)
Definition process_file (ws : sheet) : list SimplifiedRow.t * list (list cell_value) :=
  let simplified_results := simplify_data (parse_source_file ws) in
  (simplified_results, generate_simplified_excel simplified_results).

End GeneEditingProcessor.

(** ** sort_gene_editing_file (group renumberer) *)

Module Renumberer.

(** [f"{n:03d}"]: decimal digits, padded with zeros on the left to three. *)
Definition format_03d (n : nat) : string :=
  let s := NilZero.string_of_uint (Nat.to_uint n) in
  match String.length s with
  | 1%nat => String "0" (String "0" s)
  | 2%nat => String "0" s
  | _ => s
  end.

(** [sequence_id_rows]: row index, original number and reference name of
    every row whose first cell matches the identifier pattern. *)
Fixpoint collect_sequence_id_rows (rows : sheet) (row_idx : nat)
  : list (nat * string * string) :=
  match rows with
  | [] => []
  | r :: rest =>
      match match_sequence_pattern (stripped_if_truthy (map value r) 0) with
      | Some (orig_num, ref_name) =>
          (row_idx, orig_num, ref_name)
            :: collect_sequence_id_rows rest (S row_idx)
      | None => collect_sequence_id_rows rest (S row_idx)
      end
  end.

Record numbering := mkNumbering {
  row_to_new_seq : gmap nat string;
  new_seq_counter : nat;
  prev_orig_num : option string
}.

Definition assign (st : numbering) (h : nat * string * string) : numbering :=
  let '(row_idx, orig_num, ref_name) := h in
  let '(counter, prev) :=
    if decide (Some orig_num = prev_orig_num st)
    then (new_seq_counter st, prev_orig_num st)
    else (S (new_seq_counter st), Some orig_num) in
  mkNumbering
    (<[row_idx := (format_03d counter +:+ "-ref" +:+ ref_name)]>
       (row_to_new_seq st))
    counter prev.

Definition assign_all (ids : list (nat * string * string)) : numbering :=
  fold_left assign ids (mkNumbering ∅ 0 None).

(** One destination cell, a cell of a new workbook: the value is the new
    identifier in the first column of a numbered row and the source value
    elsewhere; the font and the fill are copies of the source cell's (as
    are the border and the alignment, which the cell model does not
    carry), and the number format is the source cell's unless that is
    empty. Nothing else of the source cell is copied. *)
Definition copy_cell (m : gmap nat string) (src_row_idx col_idx : nat)
    (src_cell : cell) : cell :=
  let v :=
    match m !! src_row_idx with
    | Some new_id => if (col_idx =? 1)%nat then VStr new_id else value src_cell
    | None => value src_cell
    end in
  mkCell v (fill_rgb src_cell) (font_rgb src_cell)
         (if negb (String.eqb (number_format src_cell) "")
          then number_format src_cell else "General").

Fixpoint copy_cells (m : gmap nat string) (src_row_idx col_idx : nat)
    (src_row : row) : row :=
  match src_row with
  | [] => []
  | c :: rest =>
      copy_cell m src_row_idx col_idx c
        :: copy_cells m src_row_idx (S col_idx) rest
  end.

Fixpoint copy_rows (m : gmap nat string) (src_row_idx : nat) (rows : sheet)
  : sheet :=
  match rows with
  | [] => []
  | r :: rest => copy_cells m src_row_idx 1 r :: copy_rows m (S src_row_idx) rest
  end.

Record renumbered := mkRenumbered {
  ws_dst : sheet;
  total_groups : nat;
  total_rows : nat
}.

(** [file] is the content of the input file; the function loads it
    without [rich_text]. *)
Definition sort_gene_editing_file (file : sheet) : renumbered :=
  let ws_src := load_workbook_plain file in
  let sequence_id_rows := collect_sequence_id_rows ws_src 1 in
  let st := assign_all sequence_id_rows in
  mkRenumbered (copy_rows (row_to_new_seq st) 1 ws_src)
               (new_seq_counter st) (length sequence_id_rows).

End Renumberer.

(** ** mutation_highlighter.py *)

Module MutationHighlighter.

(** Fill start colours of [HIGHLIGHT_COLORS], by colour name. *)
Definition HIGHLIGHT_COLORS : list (string * string) :=
  [ ("yellow", "FFFF00"); ("green", "92D050"); ("orange", "FFC000") ].

Definition MUTATION_COLOR_MAP : list (string * string) :=
  [ ("C->T", "yellow"); ("A->G", "green");
    ("G->A", "orange"); ("T->C", "orange") ].

Fixpoint assoc (k : string) (l : list (string * string)) : option string :=
  match l with
  | [] => None
  | (k', v) :: rest => if String.eqb k k' then Some v else assoc k rest
  end.

(** The messages of the verifier, by their shape (the source formats them
    into Chinese text). *)
Inductive detail :=
  | NoWtSequence
  | OutOfRange
  | Unparsable (claimed : string)
  | NoLowercaseInWindow
  | Verified (claimed_from claimed_to : ascii)
  | WrongWtBase (claimed actual : string) (position : nat)
                (wt_base claimed_from : ascii)
  | OtherDetected (claimed all_actual : string)
  | NoDetail.

Module HighlightResult.
Record t := mk {
  row_index : nat;
  sequence_id : string;
  mutation_type : string;
  highlight_color : string;
  f_value : string;
  g_value : string;
  verification_status : string;
  actual_mutation : string;
  verification_detail : detail
}.
End HighlightResult.

(** [re.compile(r'^(\d+)-').match(val).group(1)] *)
Definition _get_sequence_id (val : string) : option string :=
  let '(digits, rest) := span PyStr.is_digit (PyStr.strip val) in
  if negb (String.eqb digits "") && String.prefix "-" rest
  then Some digits else None.

(** [re.match(r'^\d+-ref', val)] *)
Definition header_prefix (val : string) : bool :=
  let '(digits, rest) := span PyStr.is_digit val in
  negb (String.eqb digits "") && String.prefix "-ref" rest.

Definition _is_sequence_header (row_data : list cell_value)
  : bool * option string :=
  match row_data with
  | [] => (false, None)
  | first_cell :: _ =>
      if is_none first_cell then (false, None)
      else
        let val := PyStr.strip (py_str first_cell) in
        if header_prefix val then (true, _get_sequence_id val)
        else (false, None)
  end.

Definition is_upper_base (c : ascii) : bool := PyStr.char_in c "ATCG".

(** [re.match(r'([ATCG])->([ATCG])', s)]: the two captured bases. *)
Definition match_mutation (s : string) : option (ascii * ascii) :=
  match s with
  | String a (String "-" (String ">" (String b _))) =>
      if is_upper_base a && is_upper_base b then Some (a, b) else None
  | _ => None
  end.

Definition mutation_code (a b : ascii) : string :=
  String a (String "-" (String ">" (String b EmptyString))).

Definition is_sep (c : ascii) : bool :=
  Ascii.eqb c "," || Ascii.eqb c ";" || PyStr.isspace c.

(** [re.split(r'[,;\s]+', value)]: [cur] is the piece being read and
    [skipping] says that the previous character was a separator. *)
Fixpoint re_split_aux (s cur : string) (skipping : bool) : list string :=
  match s with
  | EmptyString => [cur]
  | String c r =>
      if is_sep c then
        if skipping then re_split_aux r cur true
        else cur :: re_split_aux r EmptyString true
      else re_split_aux r (cur +:+ String c EmptyString) false
  end.

Definition re_split (value : string) : list string :=
  re_split_aux value EmptyString false.

Definition is_arrow_char (c : ascii) : bool :=
  Ascii.eqb c "-" || Ascii.eqb c ">".

(** [re.match(r'([ATCG])[-–>]+([ATCG])', part)] on ASCII text (the en dash
    of the class is not an ASCII character). *)
Definition match_loose_mutation (part : string) : option (ascii * ascii) :=
  match part with
  | String a rest =>
      let '(arrows, tail) := span is_arrow_char rest in
      match tail with
      | String b _ =>
          if is_upper_base a && negb (String.eqb arrows "") && is_upper_base b
          then Some (a, b) else None
      | EmptyString => None
      end
  | EmptyString => None
  end.

Definition parse_part (mutations : list string) (part : string) : list string :=
  let part := PyStr.upper (PyStr.strip part) in
  if String.eqb part "" || String.eqb part "-" then mutations
  else
    match match_loose_mutation part with
    | Some (a, b) => mutations ++ [mutation_code a b]
    | None => mutations
    end.

Definition _parse_mutations_from_column (value : string) : list string :=
  if String.eqb value "" || String.eqb (PyStr.strip value) "-" then []
  else fold_left parse_part (re_split value) [].

(** [mutation_type.upper().replace(' ', '')] *)
Definition normalize_code (mutation_type : string) : string :=
  PyStr.filter_chars (fun c => negb (Ascii.eqb c " ")) (PyStr.upper mutation_type).

Definition _get_highlight_color (mutation_type : string) : option string :=
  if String.eqb mutation_type "" then None
  else
    let normalized := normalize_code mutation_type in
    match List.find (fun kv => String.eqb (PyStr.upper (fst kv)) normalized)
                    MUTATION_COLOR_MAP with
    | Some (_, color) => Some color
    | None => None
    end.

Definition _check_mutation_in_position (sequence mutation_type : string)
    (target_pos : Z * Z) : bool :=
  if String.eqb sequence "" || String.eqb mutation_type "" then false
  else
    let '(start, end_) := target_pos in
    if (start <? 0)%Z || (end_ >? PyStr.len sequence)%Z then false
    else
      match match_mutation (PyStr.upper mutation_type) with
      | None => false
      | Some (_, to) =>
          let mutated_base := PyStr.lower_char to in
          let target_region := PyStr.slice sequence start end_ in
          PyStr.char_in mutated_base target_region
      end.

(** The parts written by [_apply_red_font_to_20bp]; [None] when the
    function returns without touching the cell. *)
Definition _apply_red_font_to_20bp (sequence : string) (target_pos : Z * Z)
  : option (list rich_part) :=
  if String.eqb sequence "" then None
  else
    let '(start, end_) := target_pos in
    if (start <? 0)%Z || (end_ >? PyStr.len sequence)%Z then None
    else
      let red_font := Some "FF0000" in
      let black_font := Some "000000" in
      let parts := [] in
      let parts :=
        if (start >? 0)%Z
        then parts ++ [TextBlock black_font (PyStr.slice_to sequence start)]
        else parts in
      let parts := parts ++ [TextBlock red_font (PyStr.slice sequence start end_)] in
      let parts :=
        if (end_ <? PyStr.len sequence)%Z
        then parts ++ [TextBlock black_font (PyStr.slice_from sequence end_)]
        else parts in
      Some parts.

(** One element of [actual_mutations_found]. *)
Record observed := mkObserved {
  position : nat;
  wt_base : ascii;
  mut_base : ascii
}.

Definition actual (o : observed) : string :=
  mutation_code (wt_base o) (mut_base o).

(** [for i, (wt_char, mut_char) in enumerate(zip(wt_region, mut_region))] *)
Fixpoint scan_window (wt_region mut_region : list ascii) (i : nat)
  : list observed :=
  match wt_region, mut_region with
  | wt_char :: wt_rest, mut_char :: mut_rest =>
      if PyStr.islower mut_char
      then mkObserved i (PyStr.upper_char wt_char) (PyStr.upper_char mut_char)
             :: scan_window wt_rest mut_rest (S i)
      else scan_window wt_rest mut_rest (S i)
  | _, _ => []
  end.

(** [", ".join(parts)] *)
Fixpoint join_comma (parts : list string) : string :=
  match parts with
  | [] => ""
  | [p] => p
  | p :: rest => p +:+ ", " +:+ join_comma rest
  end.

Definition _verify_mutation_with_wt (current_wt_sequence : string)
    (mutated_sequence claimed_mutation : string) (target_pos : Z * Z)
  : string * string * detail :=
  if String.eqb current_wt_sequence "" || String.eqb mutated_sequence ""
  then ("unknown", "", NoWtSequence)
  else
    let '(start, end_) := target_pos in
    if (start <? 0)%Z || (end_ >? PyStr.len current_wt_sequence)%Z
       || (end_ >? PyStr.len mutated_sequence)%Z
    then ("unknown", "", OutOfRange)
    else
      match match_mutation (PyStr.upper claimed_mutation) with
      | None => ("unknown", "", Unparsable claimed_mutation)
      | Some (claimed_from, claimed_to) =>
          let wt_region := PyStr.slice current_wt_sequence start end_ in
          let mut_region := PyStr.slice mutated_sequence start end_ in
          let actual_mutations_found :=
            scan_window (PyStr.chars wt_region) (PyStr.chars mut_region) 0 in
          match actual_mutations_found with
          | [] => ("unknown", "", NoLowercaseInWindow)
          | first_error :: _ =>
              if existsb (fun m => Ascii.eqb (wt_base m) claimed_from
                                   && Ascii.eqb (mut_base m) claimed_to)
                         actual_mutations_found
              then ("correct", mutation_code claimed_from claimed_to,
                    Verified claimed_from claimed_to)
              else
                let error_details :=
                  map (fun m => WrongWtBase claimed_mutation (actual m)
                                  (position m) (wt_base m) claimed_from)
                      (List.filter (fun m => Ascii.eqb (mut_base m) claimed_to)
                                   actual_mutations_found) in
                match error_details with
                | d :: _ => ("error", actual first_error, d)
                | [] =>
                    let all_actual :=
                      join_comma (map actual actual_mutations_found) in
                    ("error", all_actual,
                     OtherDetected claimed_mutation all_actual)
                end
          end
      end.

Section Highlighter.

(** [self.target_sequence], upper-cased by the constructor. *)
Variable target_sequence : string.

(** The order in which [list(f_set & g_set)] enumerates the set: fixed by
    the Python run time and unknown here. *)
Variable set_iter : gset string -> list string.

Definition _contains_target_sequence (sequence : string) : bool :=
  if String.eqb sequence "" then false
  else PyStr.contains target_sequence (PyStr.upper sequence).

Definition _find_target_sequence_position (sequence : string) : Z * Z :=
  if String.eqb sequence "" then ((-1)%Z, (-1)%Z)
  else
    let upper_seq := PyStr.upper sequence in
    let pos := PyStr.find upper_seq target_sequence in
    if (pos =? -1)%Z then ((-1)%Z, (-1)%Z)
    else (pos, (pos + PyStr.len target_sequence)%Z).

Definition _get_mutation_intersection (f_mutations g_mutations : list string)
  : list string :=
  let f_set : gset string := list_to_set f_mutations in
  let g_set : gset string := list_to_set g_mutations in
  set_iter (f_set ∩ g_set).

(** The loop of [process_file] over [common_mutations] that picks the first
    code not yet used in the group, with a colour, whose target base occurs
    in lower case in the window. *)
Fixpoint pick_mutation (common_mutations : list string)
    (current_highlighted_mutations : gset string) (h_value : string)
    (current_target_pos : Z * Z) : option (string * string) :=
  match common_mutations with
  | [] => None
  | mutation :: rest =>
      if decide (mutation ∈ current_highlighted_mutations)
      then pick_mutation rest current_highlighted_mutations h_value
                         current_target_pos
      else
        match _get_highlight_color mutation with
        | Some color =>
            if negb (String.eqb color "")
               && _check_mutation_in_position h_value mutation current_target_pos
            then Some (mutation, color)
            else pick_mutation rest current_highlighted_mutations h_value
                               current_target_pos
        | None => pick_mutation rest current_highlighted_mutations h_value
                                current_target_pos
        end
  end.

(** The variables of [process_file] that live across rows, the attribute
    [self.current_wt_sequence], the rows of the worksheet as written so
    far, and the lines printed for skipped rows. *)
Record state := mkState {
  current_seq_id : option string;
  current_has_target : bool;
  current_target_pos : Z * Z;
  current_highlighted_mutations : gset string;
  current_wt_sequence : string;
  highlight_results : list HighlightResult.t;
  ws : sheet;
  skipped : list (nat * detail)
}.

Definition initial_state : state :=
  mkState None false ((-1)%Z, (-1)%Z) ∅ "" [] [] [].

Definition keep_row (st : state) (r : row) : state :=
  mkState (current_seq_id st) (current_has_target st) (current_target_pos st)
          (current_highlighted_mutations st) (current_wt_sequence st)
          (highlight_results st) (ws st ++ [r]) (skipped st).

(** [cell.fill = fill] on every cell of the row, then the H cell (column 8)
    rewritten as rich text. *)
Definition highlight_row (r : row) (fill : string) (h_value : string)
    (target_pos : Z * Z) : row :=
  let filled :=
    map (fun c => mkCell (value c) (Some fill) (font_rgb c) (number_format c))
        r in
  match _apply_red_font_to_20bp h_value target_pos with
  | Some parts =>
      match nth_error filled 7 with
      | Some c =>
          <[7%nat := mkCell (VRich parts) (fill_rgb c) (font_rgb c)
                            (number_format c)]> filled
      | None => filled
      end
  | None => filled
  end.

Definition process_row (st : state) (row_idx : nat) (r : row) : state :=
  let row_data := map value r in
  let '(is_header, seq_id) := _is_sequence_header row_data in
  if is_header then
    mkState seq_id false ((-1)%Z, (-1)%Z) ∅ (current_wt_sequence st)
            (highlight_results st) (ws st ++ [r]) (skipped st)
  else if all_empty row_data then keep_row st r
  else
    let d_value := stripped_if_truthy row_data 3 in
    let e_value := stripped_if_truthy row_data 4 in
    let f_value := stripped_if_truthy row_data 5 in
    let g_value := stripped_if_truthy row_data 6 in
    let h_value := stripped_if_truthy row_data 7 in
    if String.eqb d_value "WT" && String.eqb e_value "WT" then
      let pos := _find_target_sequence_position h_value in
      if (fst pos >=? 0)%Z then
        mkState (current_seq_id st) true pos
                (current_highlighted_mutations st) h_value
                (highlight_results st) (ws st ++ [r]) (skipped st)
      else keep_row st r
    else if negb (current_has_target st) then keep_row st r
    else if (String.eqb f_value "-" || String.eqb f_value "")
            && (String.eqb g_value "-" || String.eqb g_value "")
    then keep_row st r
    else
      let f_mutations := _parse_mutations_from_column f_value in
      let g_mutations := _parse_mutations_from_column g_value in
      match f_mutations, g_mutations with
      | [], [] => keep_row st r
      | _, _ =>
          let common_mutations :=
            _get_mutation_intersection f_mutations g_mutations in
          match pick_mutation common_mutations
                  (current_highlighted_mutations st) h_value
                  (current_target_pos st) with
          | None => keep_row st r
          | Some (matched_mutation, highlight_color) =>
              let '(verify_status, actual_mut, verify_detail) :=
                _verify_mutation_with_wt (current_wt_sequence st) h_value
                  matched_mutation (current_target_pos st) in
              if String.eqb verify_status "error" then
                mkState (current_seq_id st) (current_has_target st)
                        (current_target_pos st)
                        (current_highlighted_mutations st)
                        (current_wt_sequence st) (highlight_results st)
                        (ws st ++ [r])
                        (skipped st ++ [(row_idx, verify_detail)])
              else
                match assoc highlight_color HIGHLIGHT_COLORS with
                | Some fill =>
                    mkState (current_seq_id st) (current_has_target st)
                      (current_target_pos st)
                      ({[matched_mutation]} ∪ current_highlighted_mutations st)
                      (current_wt_sequence st)
                      (highlight_results st ++
                         [HighlightResult.mk row_idx
                            (match current_seq_id st with
                             | Some s => s
                             | None => ""
                             end)
                            matched_mutation highlight_color f_value g_value
                            verify_status actual_mut verify_detail])
                      (ws st ++ [highlight_row r fill h_value
                                               (current_target_pos st)])
                      (skipped st)
                | None => keep_row st r
                end
          end
      end.

Fixpoint process_rows (rows : sheet) (row_idx : nat) (st : state) : state :=
  match rows with
  | [] => st
  | r :: rest => process_rows rest (S row_idx) (process_row st row_idx r)
  end.

(** One element of [error_mutations] in the returned dictionary. *)
Record error_row := mkErrorRow {
  err_row : nat;
  err_sequence_id : string;
  claimed_mutation : string;
  err_actual_mutation : string;
  err_detail : detail
}.

(** Accumulators of the statistics loop at the end of [process_file]. *)
Record stats := mkStats {
  color_stats : gmap string nat;
  mutation_stats : gmap string nat;
  verification_stats : gmap string nat;
  error_rows : list error_row
}.

Definition bump (k : string) (m : gmap string nat) : gmap string nat :=
  <[k := (default 0%nat (m !! k) + 1)%nat]> m.

Definition count_result (acc : stats) (result : HighlightResult.t) : stats :=
  let status := HighlightResult.verification_status result in
  mkStats
    (bump (HighlightResult.highlight_color result) (color_stats acc))
    (bump (HighlightResult.mutation_type result) (mutation_stats acc))
    (match verification_stats acc !! status with
     | Some n => <[status := S n]> (verification_stats acc)
     | None => verification_stats acc
     end)
    (if String.eqb status "error" then
       error_rows acc ++
         [mkErrorRow (HighlightResult.row_index result)
                     (HighlightResult.sequence_id result)
                     (HighlightResult.mutation_type result)
                     (HighlightResult.actual_mutation result)
                     (HighlightResult.verification_detail result)]
     else error_rows acc).

Definition initial_stats : stats :=
  mkStats ∅ ∅
    (<["correct" := 0%nat]> (<["error" := 0%nat]> (<["unknown" := 0%nat]> ∅)))
    [].

(** What [process_file] returns and writes: the report and the worksheet
    saved to the output path. *)
Record report := mkReport {
  total_highlighted : nat;
  color_statistics : gmap string nat;
  mutation_statistics : gmap string nat;
  verification_statistics : gmap string nat;
  error_mutations : list error_row;
  highlighted_rows : list HighlightResult.t;
  output_sheet : sheet;
  printed : list (nat * detail)
}.

(** [input] is the active worksheet as [load_workbook(input_path)]
    returns it; its rows are edited in place and saved. *)
Definition process_file (input : sheet) : report :=
  let st := process_rows input 1 initial_state in
  let acc := fold_left count_result (highlight_results st) initial_stats in
  mkReport (length (highlight_results st))
           (color_stats acc) (mutation_stats acc) (verification_stats acc)
           (error_rows acc) (highlight_results st) (ws st) (skipped st).

End Highlighter.

(** [highlight_mutations]: the constructor upper-cases the target. *)
Definition highlight_mutations (set_iter : gset string -> list string)
    (input : sheet) (target_sequence : string) : report :=
  process_file (PyStr.upper target_sequence) set_iter input.

Definition default_target : string := "TGGAGACACTAGAGGGATGG".

End MutationHighlighter.

(** ** Example worksheets *)

Module Examples.

Definition plain (v : cell_value) : cell := mkCell v None None "General".
Definition txt (s : string) : cell := plain (VStr s).
Definition filled (rgb : string) (c : cell) : cell :=
  mkCell (value c) (Some rgb) (font_rgb c) (number_format c).

(** A header row: the identifier in column A, eight empty cells. *)
Definition header (id : string) : row :=
  txt id :: repeat (plain VNone) 8.

(** A data row: columns B to I. *)
Definition data (d e f g : string) (h i : cell) : row :=
  [ plain VNone; plain (VInt 10); txt "50%"; txt d; txt e; txt f; txt g; h; i ].

Definition window : string := "TGGAGACACTAGAGGGATGG".
Definition wt_sequence : string := "AAAA" +:+ window +:+ "CCCC".

(** The wild type with [c] in place of the base at window index 6. *)
Definition variant_at_6 (c : string) : string :=
  "AAAA" +:+ "TGGAGA" +:+ c +:+ "ACTAGAGGGATGG" +:+ "CCCC".

(** The wild type with a lower-case [t] at window index 1, where the wild
    type has [G]. *)
Definition variant_at_1 : string :=
  "AAAA" +:+ "TtGAGACACTAGAGGGATGG" +:+ "CCCC".

Definition wt_data : row :=
  data "WT" "WT" "-" "-" (txt wt_sequence) (txt wt_sequence).

Definition snp_data (code seq : string) : row :=
  data "SNP" "SNP" code code (txt seq) (txt seq).

(** Header, wild type, and one candidate claiming [C->T]. *)
Definition sheet_correct : sheet :=
  [ header "001-refGmACC1HiTom"; wt_data; snp_data "C->T" (variant_at_6 "t") ].

Definition sheet_wrong_base : sheet :=
  [ header "001-refGmACC1HiTom"; wt_data; snp_data "C->T" (variant_at_6 "a") ].

Definition sheet_wrong_origin : sheet :=
  [ header "001-refGmACC1HiTom"; wt_data; snp_data "C->T" variant_at_1 ].

End Examples.

Module SimplifierExamples.
Import Examples GeneEditingProcessor.

(** A group without highlighted rows whose wild-type row has a tenth
    column after the two sequence columns. *)
Definition sheet_plain_group : sheet :=
  [ header "002-refGmALS3HiTom"; wt_data ++ [txt "note"] ].

(** A group whose wild-type row carries a yellow fill. *)
Definition sheet_yellow_wt : sheet :=
  [ header "003-refGmALS3HiTom"; map (filled "FFFFFF00") wt_data ].

Definition default_group : group := mkGroup "" "" [].

Definition group_yellow_wt : group :=
  nth 0 (parse_source_file sheet_yellow_wt) default_group.

Definition entry_yellow_wt : SequenceEntry.t :=
  parsed_entry (map row_value (map (filled "FFFFFF00") wt_data)) 2
    "003-refGmALS3HiTom" "GmALS3HiTom" true "yellow"
    (map (filled "FFFFFF00") wt_data).

(** A highlighted row whose H cell has a red run of three characters. *)
Definition short_red_cell : cell :=
  plain (VRich [ PlainPart "AAAATGGAGA";
                 TextBlock (Some "FFFF0000") "tAC";
                 PlainPart "TAGAGGGATGGCCCC" ]).

Definition sheet_short_red : sheet :=
  [ header "004-refGmALS3HiTom";
    map (filled "FFFFFF00")
        (data "SNP" "SNP" "C->T" "C->T" short_red_cell
              (txt (variant_at_6 "t"))) ].

End SimplifierExamples.

Module IngestExamples.
Import Examples GeneEditingProcessor.

(** Three header rows, the first and the last with the same identifier,
    each followed by one data row. *)
Definition sheet_repeated_id : sheet :=
  [ header "007-refGmACC3HiTom"; wt_data;
    header "008-refGmACC3HiTom"; wt_data;
    header "007-refGmACC3HiTom"; snp_data "C->T" (variant_at_6 "t") ].

(** A wild-type row, a plain variant row, and a variant row with a yellow
    fill whose H cell has a red run. *)
Definition sheet_mixed : sheet :=
  [ header "005-refGmALS3HiTom";
    wt_data;
    snp_data "A->G" (variant_at_6 "g");
    map (filled "FFFFFF00")
        (data "SNP" "SNP" "C->T" "C->T"
              (plain (VRich [ PlainPart "AAAA";
                              TextBlock (Some "FFFF0000") "TGGAGAtACTAGAGGGATGG";
                              PlainPart "CCCC" ]))
              (txt (variant_at_6 "t"))) ].

Definition group_mixed : group :=
  nth 0 (parse_source_file sheet_mixed) SimplifierExamples.default_group.



End IngestExamples.

Module RenumberExamples.
Import Examples.



(** A header row and a data row whose second cell is a rich text with a
    run in red. *)
Definition sheet_rich_text : sheet :=
  [ [ txt "007-refGmACC3HiTom" ];
    [ plain VNone;
      plain (VRich [ PlainPart "AAAA";
                     TextBlock (Some "FFFF0000") "tAC";
                     PlainPart "CCC" ]) ] ].

End RenumberExamples.

Module ExtractionExamples.
Import Examples.

(** A highlighted variant row without any red run: the lower-case base is
    at index 10 of both sequence cells. *)
Definition cells_without_red : row :=
  map (filled "FFFFFF00") (snp_data "C->T" (variant_at_6 "t")).

End ExtractionExamples.

Module HighlightExamples.
Import Examples.

(** Two groups, each with a wild-type row and a candidate claiming [C->T];
    the first group has a second candidate with the same code. *)
Definition sheet_two_groups : sheet :=
  [ header "001-refGmACC1HiTom"; wt_data;
    snp_data "C->T" (variant_at_6 "t"); snp_data "C->T" (variant_at_6 "t");
    header "002-refGmACC1HiTom"; wt_data;
    snp_data "C->T" (variant_at_6 "t") ].

(** A group whose only data row is a candidate: there is no wild type. *)
Definition sheet_no_wild_type : sheet :=
  [ header "001-refGmACC1HiTom"; snp_data "C->T" (variant_at_6 "t") ].

End HighlightExamples.

(** ** gene_editing_processor.py: validation and summary of the result *)

Module GeneEditingReports.
Import GeneEditingProcessor.

(** The two warnings of [validate_results], by their shape (the source
    formats them into text): an SNP row without red bases, and an SNP row
    with fewer than ten of them. *)
Inductive warning :=
  | MissingRedBases (sequence_id : string)
  | ShortRedBases (sequence_id : string) (length : nat).

Module Validation.
Record t := mk {
  valid : bool;
  issues : list string;
  warnings : list warning;
  total_rows : nat;
  total_sequence_groups : nat;
  wt_rows : nat;
  snp_rows : nat;
  simplified_groups : nat;
  full_groups : nat
}.
End Validation.

(** Body of the loop over [snp_rows] in [validate_results]. *)
Definition row_warnings (row : SimplifiedRow.t) : list warning :=
  let red := SimplifiedRow.red_20_bases row in
  if String.eqb red "-" || String.eqb red "" then
    [MissingRedBases (SimplifiedRow.sequence_id row)]
  else if (String.length red <? 10)%nat then
    [ShortRedBases (SimplifiedRow.sequence_id row) (String.length red)]
  else [].

Definition validate_results (results : list SimplifiedRow.t) : Validation.t :=
  let issues : list string := [] in
  let snp_rows :=
    List.filter (fun r => String.eqb (SimplifiedRow.row_type r) "SNP") results in
  let wt_rows :=
    List.filter (fun r => String.eqb (SimplifiedRow.row_type r) "WT") results in
  let simplified_rows := List.filter SimplifiedRow.is_simplified results in
  let full_rows :=
    List.filter (fun r => negb (SimplifiedRow.is_simplified r)) results in
  let warnings := flat_map row_warnings snp_rows in
  let seq_ids : gset string :=
    list_to_set (map SimplifiedRow.sequence_id results) in
  Validation.mk (length issues =? 0)%nat issues warnings
    (length results) (size seq_ids) (length wt_rows) (length snp_rows)
    (length simplified_rows)
    (size (list_to_set (map SimplifiedRow.sequence_id full_rows) : gset string)).

Module Summary.
Record t := mk {
  total_rows : nat;
  total_sequence_groups : nat;
  groups_with_highlights : Z;
  groups_without_highlights : nat;
  wt_rows : nat;
  snp_rows : nat;
  snp_with_red_bases : nat;
  highlight_color_distribution : gmap string nat;
  reference_distribution : gmap string nat
}.
End Summary.

(** [d[k] = d.get(k, 0) + 1] *)
Definition tally (k : string) (d : gmap string nat) : gmap string nat :=
  <[k := S (default 0%nat (d !! k))]> d.

Definition get_summary (results : list SimplifiedRow.t) : Summary.t :=
  let snp_rows :=
    List.filter (fun r => String.eqb (SimplifiedRow.row_type r) "SNP") results in
  let wt_rows :=
    List.filter (fun r => String.eqb (SimplifiedRow.row_type r) "WT") results in
  let simplified_rows := List.filter SimplifiedRow.is_simplified results in
  let seq_ids : gset string :=
    list_to_set (map SimplifiedRow.sequence_id results) in
  let color_count :=
    fold_left (fun d r =>
                 if negb (String.eqb (SimplifiedRow.highlight_color r) "")
                 then tally (SimplifiedRow.highlight_color r) d else d)
              snp_rows ∅ in
  let ref_count :=
    fold_left (fun d r => tally (SimplifiedRow.reference_name r) d) results ∅ in
  Summary.mk (length results) (size seq_ids)
    (Z.of_nat (size seq_ids) - Z.of_nat (length simplified_rows))%Z
    (length simplified_rows) (length wt_rows) (length snp_rows)
    (length (List.filter
               (fun r => negb (String.eqb (SimplifiedRow.red_20_bases r) "")
                         && negb (String.eqb (SimplifiedRow.red_20_bases r) "-"))
               snp_rows))
    color_count ref_count.

End GeneEditingReports.

(** * Properties *)

(** ** Strings *)

Module PyStrProps.
Import PyStr.

Lemma length_chars (s : string) : length (chars s) = String.length s.
Proof. induction s; cbn; auto. Qed.

Lemma len_nonneg (s : string) : (0 <= len s)%Z.
Proof. unfold len. lia. Qed.

Lemma len_empty (s : string) : len s = 0%Z -> s = "".
Proof. unfold len. destruct s; cbn; [auto|lia]. Qed.

Lemma chars_substring (n m : nat) (s : string) :
  chars (String.substring n m s) = take m (drop n (chars s)).
Proof.
  revert n m. induction s as [|c s IH]; intros n m.
  - destruct n, m; reflexivity.
  - destruct n as [|n].
    + destruct m as [|m]; [reflexivity|]. cbn. f_equal. apply (IH 0%nat m).
    + cbn. apply IH.
Qed.

Lemma chars_slice (s : string) (a b : Z) :
  (0 <= a)%Z -> (a <= b)%Z -> (b <= len s)%Z ->
  chars (slice s a b)
  = take (Z.to_nat (b - a)) (drop (Z.to_nat a) (chars s)).
Proof.
  intros Ha Hab Hb. unfold slice, norm_index.
  destruct (Z.ltb_spec a 0); [lia|].
  destruct (Z.ltb_spec b 0); [lia|].
  rewrite !Z.min_l by lia. apply chars_substring.
Qed.

Lemma string_length_chars (s : string) : String.length s = length (chars s).
Proof. symmetry. apply length_chars. Qed.

Lemma length_slice (s : string) (a b : Z) :
  (0 <= a)%Z -> (a <= b)%Z -> (b <= len s)%Z ->
  String.length (slice s a b) = Z.to_nat (b - a).
Proof.
  intros Ha Hab Hb. rewrite string_length_chars, chars_slice by assumption.
  rewrite length_take, length_drop, length_chars. unfold len in Hb. lia.
Qed.

Lemma length_upper (s : string) : String.length (upper s) = String.length s.
Proof. induction s; cbn; auto. Qed.

Lemma len_upper (s : string) : len (upper s) = len s.
Proof. unfold len. now rewrite length_upper. Qed.

Lemma length_filter_chars (p : ascii -> bool) (s : string) :
  (String.length (filter_chars p s) <= String.length s)%nat.
Proof. induction s as [|c s IH]; cbn; [lia|]. destruct (p c); cbn; lia. Qed.

Lemma prefix_length (sub s : string) :
  String.prefix sub s = true -> (String.length sub <= String.length s)%nat.
Proof.
  revert sub. induction s as [|c s IH]; intros [|a sub]; cbn; try lia.
  destruct (ascii_dec a c); [|discriminate]. intros H. apply IH in H. lia.
Qed.

Lemma find_from_bounds (sub s : string) (i : Z) :
  (0 <= i)%Z ->
  find_from sub s i = (-1)%Z
  \/ (i <= find_from sub s i
      /\ find_from sub s i + len sub <= i + len s)%Z.
Proof.
  revert i. induction s as [|c s IH]; intros i Hi.
  - cbn. destruct sub; cbn; [right; unfold len; cbn; lia|left; reflexivity].
  - unfold find_from; fold find_from.
    destruct (String.prefix sub (String c s)) eqn:Hp.
    + right. apply prefix_length in Hp. unfold len. cbn in *. lia.
    + destruct (IH (i + 1)%Z ltac:(lia)) as [->|[H1 H2]]; [left; reflexivity|].
      right. unfold len in *. cbn [String.length]. lia.
Qed.

End PyStrProps.

(** ** Colour classifier *)

Module ColorClassifierProps.
Import GeneEditingProcessor.

Lemma other_rule_code (r g b : Z) :
  (if negb ((r <? 50)%Z && (g <? 50)%Z && (b <? 50)%Z)
   then if (r >? 80)%Z || (g >? 80)%Z || (b >? 80)%Z then Some Other else None
   else None)
  = if negb (near_black r g b) then Some Other else None.
Proof.
  unfold near_black.
  destruct (Z.ltb_spec r 50), (Z.ltb_spec g 50), (Z.ltb_spec b 50);
    destruct (Z.gtb_spec r 80), (Z.gtb_spec g 80), (Z.gtb_spec b 80);
    destruct (Z.leb_spec r 80), (Z.leb_spec g 80), (Z.leb_spec b 80);
    simpl; try reflexivity; lia.
Qed.

Lemma classify_rgb_first_match (color : string) (r g b : Z) :
  classify_rgb color r g b
  = outcome_bucket (first_match spec_rules 1 color r g b).
Proof.
  unfold classify_rgb. rewrite other_rule_code.
  cbn [spec_rules first_match applies gives].
  unfold near_white, transparent_zero, yellow_rule, green_rule, blue_rule,
    pink_rule, other_rule.
  repeat match goal with
         | |- context [if ?c then _ else _] => destruct c; cbn; try reflexivity
         end.
Qed.

Lemma first_match_numbers (color : string) (r g b : Z) (k : nat) (o : outcome) :
  first_match spec_rules 1 color r g b = Some (k, o) ->
  (1 <= k <= 7)%nat /\
  (o = NoHighlight <-> (k = 1 \/ k = 2)%nat) /\
  ((exists bk, o = Bucket bk) <-> (3 <= k <= 7)%nat).
Proof.
  cbn [spec_rules first_match applies gives].
  repeat match goal with
         | |- context [if ?c then _ else _] => destruct c
         end;
    intros H; inversion H; subst;
    (split; [lia|split; split; intros; try lia; try discriminate; eauto]);
    try (destruct H0 as [? ?]; discriminate);
    try (destruct H0; discriminate).
Qed.

Lemma cell_bucket_matches (c : cell) (bk : bucket) :
  cell_bucket c = Some bk <->
  exists k, (3 <= k <= 7)%nat /\ exists color r g b,
    fill_rgb c = Some color /\ (6 <= PyStr.len color)%Z /\
    channels color = Some (r, g, b) /\
    first_match spec_rules 1 color r g b = Some (k, Bucket bk).
Proof.
  unfold cell_bucket. split.
  - destruct (fill_rgb c) as [color|]; [|discriminate].
    destruct (negb (String.eqb color "")) eqn:Hne; [|discriminate]. cbn.
    destruct (Z.leb_spec 6 (PyStr.len color)); [|discriminate].
    destruct (channels color) as [[[r g] b]|] eqn:Hch; [|discriminate].
    rewrite classify_rgb_first_match.
    destruct (first_match spec_rules 1 color r g b) as [[k o]|] eqn:Hfm;
      [|discriminate].
    destruct o as [|bk']; [discriminate|]. cbn. intros [= ->].
    exists k. split.
    + apply first_match_numbers in Hfm. apply Hfm. eauto.
    + exists color, r, g, b. auto.
  - intros (k & _ & color & r & g & b & -> & Hlen & -> & Hfm).
    assert (Hne : String.eqb color "" = false).
    { destruct color; [unfold PyStr.len in Hlen; cbn in Hlen; lia | reflexivity]. }
    rewrite Hne. cbn.
    destruct (Z.leb_spec 6 (PyStr.len color)); [|lia].
    rewrite classify_rgb_first_match, Hfm. reflexivity.
Qed.

Lemma row_highlighted_iff (r : row) :
  fst (_is_row_highlighted r) = true <->
  exists c bk, In c r /\ cell_bucket c = Some bk.
Proof.
  induction r as [|c rest IH]; cbn.
  - split; [discriminate|]. intros (c & bk & [] & _).
  - destruct (cell_bucket c) as [bk|] eqn:Hc; cbn.
    + split; [|reflexivity]. intros _. exists c, bk. auto.
    + rewrite IH. split.
      * intros (c' & bk & Hin & H). exists c', bk. auto.
      * intros (c' & bk & [<-|Hin] & H); [congruence|]. exists c', bk. auto.
Qed.

(** The bucket reported for a row is that of its first cell with one. *)
Lemma row_highlight_first (pre : row) (c : cell) (post : row) (bk : bucket) :
  Forall (fun c' => cell_bucket c' = None) pre ->
  cell_bucket c = Some bk ->
  _is_row_highlighted (pre ++ c :: post) = (true, bucket_name bk).
Proof.
  intros Hpre Hc. induction Hpre as [|c' pre' Hc' _ IH]; cbn.
  - rewrite Hc. reflexivity.
  - rewrite Hc'. exact IH.
Qed.

Lemma row_highlighted_rules (r : row) :
  fst (_is_row_highlighted r) = true <->
  exists c k, In c r /\ (3 <= k <= 7)%nat /\ cell_matches_rule c k.
Proof.
  rewrite row_highlighted_iff. split.
  - intros (c & bk & Hin & Hb). apply cell_bucket_matches in Hb.
    destruct Hb as (k & Hk & color & r0 & g & b & H1 & H2 & H3 & H4).
    exists c, k. repeat split; try lia; auto.
    exists color, r0, g, b, (Bucket bk). auto.
  - intros (c & k & Hin & Hk & color & r0 & g & b & o & H1 & H2 & H3 & H4).
    destruct (first_match_numbers _ _ _ _ _ _ H4) as (_ & _ & Hb).
    destruct (proj2 Hb Hk) as (bk & ->).
    exists c, bk. split; [exact Hin|]. apply cell_bucket_matches.
    exists k. split; [exact Hk|]. exists color, r0, g, b. auto.
Qed.

(** C9: the conditional chain of the classifier is the table of seven
    rules read in order, the first rule that applies deciding: near-white
    and the all-zero colour give no highlight, then yellow, green, blue and
    pink by their thresholds, and every colour left with a channel above 80
    is [other]. A row is highlighted exactly when one of its cells is
    decided by one of the rules 3 to 7, and it takes the bucket of the
    first such cell. *)
Theorem C9_fill_classifier_ordered_rules :
  (forall color r g b,
      classify_rgb color r g b
      = outcome_bucket (first_match spec_rules 1 color r g b))
  /\ map gives spec_rules
     = [ NoHighlight; NoHighlight; Bucket Yellow; Bucket Green; Bucket Blue;
         Bucket Pink; Bucket Other ]
  /\ (forall color r g b,
         (240 < r /\ 240 < g /\ 240 < b)%Z -> classify_rgb color r g b = None)
  /\ (forall color r g b,
         near_white color r g b = false ->
         transparent_zero color r g b = false ->
         yellow_rule color r g b = false ->
         green_rule color r g b = false ->
         blue_rule color r g b = false ->
         pink_rule color r g b = false ->
         classify_rgb color r g b
         = if near_black r g b then None else Some Other)
  /\ (forall c bk,
         cell_bucket c = Some bk <->
         exists k, (3 <= k <= 7)%nat /\ exists color r g b,
           fill_rgb c = Some color /\ (6 <= PyStr.len color)%Z /\
           channels color = Some (r, g, b) /\
           first_match spec_rules 1 color r g b = Some (k, Bucket bk))
  /\ (forall r : row,
         fst (_is_row_highlighted r) = true <->
         exists c k, In c r /\ (3 <= k <= 7)%nat /\ cell_matches_rule c k)
  /\ (forall (pre : row) c (post : row) bk,
         Forall (fun c' => cell_bucket c' = None) pre ->
         cell_bucket c = Some bk ->
         _is_row_highlighted (pre ++ c :: post) = (true, bucket_name bk))
  /\ map (fun rgb => cell_bucket (mkCell VNone (Some rgb) None "General"))
         [ "FFFFFFFF"; "00000000"; "FFFFFF00"; "FF92D050"; "FFADD8E6";
           "FFFF50C8"; "FFFFC000"; "FF000000"; "FF3C3C3C" ]
     = [ None; None; Some Yellow; Some Green; Some Blue;
         Some Pink; Some Other; None; None ].
Proof.
  split; [exact classify_rgb_first_match|].
  split; [reflexivity|].
  split.
  { intros color r g b (Hr & Hg & Hb). unfold classify_rgb.
    destruct (Z.gtb_spec r 240), (Z.gtb_spec g 240), (Z.gtb_spec b 240);
      try lia. reflexivity. }
  split.
  { intros color r g b H1 H2 H3 H4 H5 H6. rewrite classify_rgb_first_match.
    cbn [spec_rules first_match applies gives].
    rewrite H1, H2, H3, H4, H5, H6. unfold other_rule.
    destruct (near_black r g b); reflexivity. }
  split; [exact cell_bucket_matches|].
  split; [exact row_highlighted_rules|].
  split; [exact row_highlight_first|].
  vm_compute. reflexivity.
Qed.

End ColorClassifierProps.

(** ** Group simplifier *)

Module SimplifierProps.
Import GeneEditingProcessor.

Lemma fold_left_snoc {A B : Type} (f : A -> B) (l : list A) (init : list B) :
  fold_left (fun res x => res ++ [f x]) l init = init ++ map f l.
Proof.
  revert init. induction l as [|x l IH]; intros init; cbn.
  - now rewrite app_nil_r.
  - rewrite IH, <- app_assoc. reflexivity.
Qed.

Definition wt_entries (g : group) : list SequenceEntry.t :=
  List.filter SequenceEntry.is_wt (all_entries g).

Definition highlighted_entries (g : group) : list SequenceEntry.t :=
  List.filter SequenceEntry.is_highlighted (all_entries g).

Lemma simplify_group_plain (results : list SimplifiedRow.t) (g : group) :
  highlighted_entries g = [] ->
  simplify_group results g = results ++ map (wt_row g true) (wt_entries g).
Proof.
  unfold simplify_group, highlighted_entries, wt_entries. intros ->.
  cbn. apply fold_left_snoc.
Qed.

Lemma simplify_group_highlighted (results : list SimplifiedRow.t) (g : group) :
  highlighted_entries g <> [] ->
  simplify_group results g
  = results ++ map (wt_row g false) (wt_entries g)
            ++ map (snp_row g) (highlighted_entries g).
Proof.
  unfold simplify_group, highlighted_entries, wt_entries. intros Hne.
  destruct (List.filter SequenceEntry.is_highlighted (all_entries g))
    as [|h hs] eqn:Hhl; [congruence|].
  cbn [length Nat.ltb Nat.leb].
  rewrite !fold_left_snoc, <- app_assoc. reflexivity.
Qed.

Lemma simplify_group_app (results : list SimplifiedRow.t) (g : group) :
  simplify_group results g = results ++ simplify_group [] g.
Proof.
  destruct (highlighted_entries g) as [|h hs] eqn:Hhl.
  - rewrite !simplify_group_plain by assumption. reflexivity.
  - rewrite !simplify_group_highlighted by congruence. reflexivity.
Qed.

Lemma simplify_data_from (groups : list group) (init : list SimplifiedRow.t) :
  fold_left simplify_group groups init
  = init ++ concat (map (simplify_group []) groups).
Proof.
  revert init. induction groups as [|g gs IH]; intros init; cbn.
  - now rewrite app_nil_r.
  - rewrite IH, (simplify_group_app init g), <- app_assoc. reflexivity.
Qed.

Lemma simplify_data_concat (groups : list group) :
  simplify_data groups = concat (map (simplify_group []) groups).
Proof. unfold simplify_data. now rewrite simplify_data_from. Qed.

Lemma simplify_group_rows (g : group) :
  simplify_group [] g
  = map (wt_row g (match highlighted_entries g with [] => true | _ => false end))
        (wt_entries g)
    ++ map (snp_row g) (highlighted_entries g).
Proof.
  destruct (highlighted_entries g) as [|h hs] eqn:Hhl.
  - rewrite simplify_group_plain by assumption. cbn. now rewrite app_nil_r.
  - rewrite simplify_group_highlighted by congruence. rewrite Hhl. reflexivity.
Qed.

Lemma in_filter_split {A : Type} (f : A -> bool) (x : A) (l : list A) :
  In x l -> f x = true ->
  exists l1 l2, List.filter f l = l1 ++ x :: l2.
Proof.
  intros Hin Hfx. apply in_split. apply filter_In. auto.
Qed.

(** C4: a group with no highlighted row yields exactly its wild-type rows,
    in order, each of kind WT with red bases "-" and marked simplified.
    The passthrough values are the complete original row: nothing is
    truncated, neither in the simplified row nor in the row written by
    [generate_simplified_excel], as the worksheet with a tenth column
    shows. *)
Theorem C4_plain_group_rows_not_truncated :
  (forall (results : list SimplifiedRow.t) (g : group),
      highlighted_entries g = [] ->
      simplify_group results g
      = results ++ map (wt_row g true) (wt_entries g))
  /\ (forall (g : group) (e : SequenceEntry.t),
         SimplifiedRow.row_type (wt_row g true e) = "WT"
         /\ SimplifiedRow.red_20_bases (wt_row g true e) = "-"
         /\ SimplifiedRow.is_simplified (wt_row g true e) = true
         /\ SimplifiedRow.original_row_values (wt_row g true e)
            = SequenceEntry.original_row e)
  /\ map SimplifiedRow.is_simplified
         (fst (process_file SimplifierExamples.sheet_plain_group)) = [true]
  /\ map (fun r => length (SimplifiedRow.original_row_values r))
         (fst (process_file SimplifierExamples.sheet_plain_group)) = [10%nat]
  /\ snd (process_file SimplifierExamples.sheet_plain_group)
     = [ [ VStr "002-refGmALS3HiTom"; VStr "-"; VStr "WT"; VStr "-";
           VInt 10; VStr "50%"; VStr "WT"; VStr "WT"; VStr "-"; VStr "-";
           VStr Examples.wt_sequence; VStr Examples.wt_sequence;
           VStr "note" ] ].
Proof.
  split; [exact simplify_group_plain|].
  split; [intros g e; cbn; auto|].
  split; [vm_compute; reflexivity|].
  split; vm_compute; reflexivity.
Qed.

(** C5: a group with at least one highlighted row yields all its
    wild-type rows (kind WT, red bases "-") followed by all its highlighted
    rows (kind SNP, red bases from the extraction or "-", not simplified);
    the count is the sum of the two selections, each selection keeps the
    order of the entries, every emitted row comes from a wild-type or a
    highlighted entry, and the groups are emitted in the order given. *)
Theorem C5_highlighted_group_rows (g : group)
    (Hhl : highlighted_entries g <> []) :
  simplify_group [] g
  = map (wt_row g false) (wt_entries g)
    ++ map (snp_row g) (highlighted_entries g)
  /\ length (simplify_group [] g)
     = (length (wt_entries g) + length (highlighted_entries g))%nat
  /\ map SimplifiedRow.original_row_num (simplify_group [] g)
     = map SequenceEntry.row_number
           (List.filter SequenceEntry.is_wt (all_entries g))
       ++ map SequenceEntry.row_number
              (List.filter SequenceEntry.is_highlighted (all_entries g))
  /\ (forall e : SequenceEntry.t,
         SimplifiedRow.row_type (wt_row g false e) = "WT"
         /\ SimplifiedRow.red_20_bases (wt_row g false e) = "-"
         /\ SimplifiedRow.is_simplified (wt_row g false e) = false)
  /\ (forall e : SequenceEntry.t,
         SimplifiedRow.row_type (snp_row g e) = "SNP"
         /\ SimplifiedRow.red_20_bases (snp_row g e)
            = (if String.eqb (hl_red_bases e) "" then "-" else hl_red_bases e)
         /\ SimplifiedRow.is_simplified (snp_row g e) = false)
  /\ (forall r : SimplifiedRow.t,
         In r (simplify_group [] g) ->
         exists e, In e (all_entries g)
                   /\ ((SequenceEntry.is_wt e = true /\ r = wt_row g false e)
                       \/ (SequenceEntry.is_highlighted e = true
                           /\ r = snp_row g e)))
  /\ (forall groups : list group,
         simplify_data groups = concat (map (simplify_group []) groups)).
Proof.
  pose proof (simplify_group_highlighted [] g Hhl) as Heq. cbn [app] in Heq.
  split; [exact Heq|].
  split; [rewrite Heq, length_app, !length_map; reflexivity|].
  split.
  { rewrite Heq, map_app, !map_map. reflexivity. }
  split; [intros e; cbn; auto|].
  split.
  { intros e. cbn. destruct (String.eqb (hl_red_bases e) ""); auto. }
  split; [|exact simplify_data_concat].
  intros r Hr. rewrite Heq in Hr. apply in_app_or in Hr.
  destruct Hr as [Hr|Hr]; apply in_map_iff in Hr;
    destruct Hr as (e & <- & He); apply filter_In in He;
    destruct He as [Hin Hf]; exists e; auto.
Qed.

(** C10: the wild-type and the highlighted selections of a group overlap
    freely: an entry that is both is emitted once as a WT row with red
    bases "-" and, later in the same group, once as an SNP row with its
    highlight colour; the SNP label does not depend on the entry's
    variation type. *)
Theorem C10_wt_and_highlighted_emitted_twice (g : group) (e : SequenceEntry.t)
    (Hin : In e (all_entries g))
    (Hwt : SequenceEntry.is_wt e = true)
    (Hhl : SequenceEntry.is_highlighted e = true) :
  (exists l1 l2 l3,
      simplify_group [] g = l1 ++ wt_row g false e :: l2 ++ snp_row g e :: l3)
  /\ SimplifiedRow.row_type (wt_row g false e) = "WT"
  /\ SimplifiedRow.red_20_bases (wt_row g false e) = "-"
  /\ SimplifiedRow.row_type (snp_row g e) = "SNP"
  /\ SimplifiedRow.highlight_color (snp_row g e)
     = SequenceEntry.highlight_color e
  /\ (forall e' : SequenceEntry.t,
         SequenceEntry.is_highlighted e' = true ->
         SimplifiedRow.row_type (snp_row g e') = "SNP").
Proof.
  split; [|cbn; auto 6].
  assert (Hne : highlighted_entries g <> []).
  { unfold highlighted_entries. intros Hnil.
    assert (Hx : In e (List.filter SequenceEntry.is_highlighted (all_entries g)))
      by (apply filter_In; auto).
    rewrite Hnil in Hx. exact Hx. }
  rewrite (simplify_group_highlighted [] g Hne). cbn [app].
  destruct (in_filter_split SequenceEntry.is_wt e _ Hin Hwt) as (a1 & a2 & Ha).
  destruct (in_filter_split SequenceEntry.is_highlighted e _ Hin Hhl)
    as (b1 & b2 & Hb).
  unfold wt_entries, highlighted_entries. rewrite Ha, Hb.
  exists (map (wt_row g false) a1),
         (map (wt_row g false) a2 ++ map (snp_row g) b1),
         (map (snp_row g) b2).
  rewrite !map_app. cbn [map]. rewrite <- !app_assoc. cbn [app].
  reflexivity.
Qed.

End SimplifierProps.

(** ** Grid ingestor *)

Module IngestProps.
Import GeneEditingProcessor.

(** A row that opens a group: not all empty, first cell matching the
    identifier pattern. *)
Definition is_header_row (r : row) : bool :=
  negb (all_empty (map row_value r))
  && match match_sequence_pattern (first_cell (map row_value r)) with
     | Some _ => true
     | None => false
     end.

Definition header_token (r : row) : string := first_cell (map row_value r).

(** The identifiers of the header rows, in file order. *)
Definition header_tokens (ws : sheet) : list string :=
  map header_token (List.filter is_header_row ws).

Lemma sequence_groups_prefix (pre c : list group) (cur : option group) :
  sequence_groups (mkIngest (pre ++ c) cur)
  = pre ++ sequence_groups (mkIngest c cur).
Proof. unfold sequence_groups. cbn. now rewrite app_assoc. Qed.

Definition header_name (r : row) : string :=
  match match_sequence_pattern (first_cell (map row_value r)) with
  | Some (_, name) => name
  | None => ""
  end.

Lemma parse_row_header (st : ingest) (i : nat) (r : row) :
  is_header_row r = true ->
  parse_row st i r
  = mkIngest (sequence_groups st)
             (Some (mkGroup (header_token r) (header_name r) [])).
Proof.
  unfold is_header_row, parse_row, header_token, header_name. intros H.
  apply andb_prop in H. destruct H as [Hne Hm].
  apply negb_true_iff in Hne. rewrite Hne.
  destruct (match_sequence_pattern (first_cell (map row_value r))) as [[d name]|];
    [reflexivity|discriminate].
Qed.

Lemma parse_row_data (st : ingest) (i : nat) (r : row) :
  is_header_row r = false ->
  closed (parse_row st i r) = closed st
  /\ map seq_id (sequence_groups (parse_row st i r))
     = map seq_id (sequence_groups st).
Proof.
  unfold is_header_row, parse_row. intros H.
  destruct (all_empty (map row_value r)); [auto|]. cbn in H.
  destruct (match_sequence_pattern (first_cell (map row_value r))) as [[d name]|];
    [discriminate|].
  destruct (current_group st) as [g|] eqn:Hcur; [|auto].
  destruct (_is_row_highlighted r) as [hl color].
  destruct (_parse_data_row _ _ _ _ _ _ _); [|auto].
  cbn. split; [reflexivity|].
  unfold sequence_groups. cbn. rewrite Hcur, !map_app. reflexivity.
Qed.

Lemma parse_rows_ids (rows : sheet) (i : nat) (st : ingest) :
  map seq_id (sequence_groups (parse_rows rows i st))
  = map seq_id (sequence_groups st) ++ header_tokens rows.
Proof.
  revert i st. induction rows as [|r rest IH]; intros i st; cbn.
  - now rewrite app_nil_r.
  - rewrite IH. unfold header_tokens. cbn [List.filter].
    destruct (is_header_row r) eqn:Hh.
    + rewrite (parse_row_header st i r Hh).
      unfold sequence_groups at 1. cbn. rewrite map_app. cbn.
      rewrite <- app_assoc. reflexivity.
    + destruct (parse_row_data st i r Hh) as [_ ->]. reflexivity.
Qed.

Lemma parse_row_prefix (pre c : list group) (cur : option group)
    (i : nat) (r : row) :
  parse_row (mkIngest (pre ++ c) cur) i r
  = mkIngest (pre ++ closed (parse_row (mkIngest c cur) i r))
             (current_group (parse_row (mkIngest c cur) i r)).
Proof.
  unfold parse_row.
  destruct (all_empty (map row_value r)); [reflexivity|].
  destruct (match_sequence_pattern (first_cell (map row_value r))) as [[d name]|].
  - cbn [closed current_group]. now rewrite sequence_groups_prefix.
  - cbn [current_group closed]. destruct cur as [g|]; [|reflexivity].
    destruct (_is_row_highlighted r) as [hl color].
    destruct (_parse_data_row _ _ _ _ _ _ _); reflexivity.
Qed.

Lemma parse_rows_prefix (rows : sheet) (pre c : list group)
    (cur : option group) (i : nat) :
  parse_rows rows i (mkIngest (pre ++ c) cur)
  = mkIngest (pre ++ closed (parse_rows rows i (mkIngest c cur)))
             (current_group (parse_rows rows i (mkIngest c cur))).
Proof.
  revert c cur i. induction rows as [|r rest IH]; intros c cur i; cbn.
  - reflexivity.
  - rewrite parse_row_prefix, IH.
    destruct (parse_row (mkIngest c cur) i r) as [c' cur']. reflexivity.
Qed.

Lemma parse_rows_app (s1 s2 : sheet) (i : nat) (st : ingest) :
  parse_rows (s1 ++ s2) i st
  = parse_rows s2 (i + length s1) (parse_rows s1 i st).
Proof.
  revert i st. induction s1 as [|r s1 IH]; intros i st; cbn.
  - now rewrite Nat.add_0_r.
  - rewrite IH. f_equal. lia.
Qed.

(** The groups opened before a header row are final when it is read, and
    the groups from that row on are those of the rest of the file read on
    its own (with its row numbers). *)
Lemma parse_rows_cut (s1 : sheet) (h : row) (s2 : sheet) :
  is_header_row h = true ->
  parse_source_file (s1 ++ h :: s2)
  = parse_source_file s1
    ++ sequence_groups
         (parse_rows (h :: s2) (S (length s1)) (mkIngest [] None)).
Proof.
  intros Hh. unfold parse_source_file. rewrite parse_rows_app.
  set (st1 := parse_rows s1 1 (mkIngest [] None)).
  cbn [parse_rows Nat.add].
  rewrite !(parse_row_header _ _ h Hh).
  cbn [closed current_group app].
  rewrite <- (app_nil_r (sequence_groups st1)) at 1.
  rewrite parse_rows_prefix. unfold sequence_groups at 1.
  cbn [closed current_group]. rewrite <- app_assoc. reflexivity.
Qed.

(** C7: every non-empty row whose first cell matches the identifier
    pattern opens a group of its own, so the identifiers of the groups are
    those of the header rows in file order, repeated ones included; the
    groups read before a header row are never changed by what follows, and
    what follows is grouped as if read alone; a file whose first and third
    headers carry the same identifier yields three groups; the simplifier
    keeps the order of the groups. *)
Theorem C7_one_group_per_header_row :
  (forall ws : sheet, map seq_id (parse_source_file ws) = header_tokens ws)
  /\ (forall ws : sheet,
         length (parse_source_file ws)
         = length (List.filter is_header_row ws))
  /\ (forall (s1 : sheet) (h : row) (s2 : sheet),
         is_header_row h = true ->
         parse_source_file (s1 ++ h :: s2)
         = parse_source_file s1
           ++ sequence_groups
                (parse_rows (h :: s2) (S (length s1)) (mkIngest [] None)))
  /\ map (fun g => (seq_id g, map SequenceEntry.row_number (all_entries g)))
         (parse_source_file IngestExamples.sheet_repeated_id)
     = [ ("007-refGmACC3HiTom", [2%nat]);
         ("008-refGmACC3HiTom", [4%nat]);
         ("007-refGmACC3HiTom", [6%nat]) ]
  /\ (forall ws : sheet,
         simplify_data (parse_source_file ws)
         = concat (map (simplify_group []) (parse_source_file ws))).
Proof.
  assert (Hids : forall ws, map seq_id (parse_source_file ws) = header_tokens ws).
  { intros ws. unfold parse_source_file. rewrite parse_rows_ids. reflexivity. }
  split; [exact Hids|].
  split.
  { intros ws. rewrite <- (length_map seq_id), Hids.
    unfold header_tokens. now rewrite length_map. }
  split; [exact parse_rows_cut|].
  split; [vm_compute; reflexivity|].
  intros ws. apply SimplifierProps.simplify_data_concat.
Qed.

End IngestProps.

(** ** Red-base extraction *)

Module ExtractionProps.
Import GeneEditingProcessor PyStrProps.

Definition lower_base (c : ascii) : bool := PyStr.islower c && is_base c.

(** Character [k] of [s] is the first lower-case base of [s]. *)
Definition first_lower_base_at (s : string) (k : nat) : Prop :=
  (exists c, nth_error (PyStr.chars s) k = Some c /\ lower_base c = true)
  /\ forall j c, (j < k)%nat -> nth_error (PyStr.chars s) j = Some c ->
                 lower_base c = false.

Lemma lowercase_positions_from_head (s : string) (i p : Z) (rest : list Z) :
  lowercase_positions_from s i = p :: rest ->
  (i <= p < i + PyStr.len s)%Z /\ first_lower_base_at s (Z.to_nat (p - i)).
Proof.
  revert i. induction s as [|c s IH]; intros i;
    cbn [lowercase_positions_from]; [discriminate|].
  fold (lower_base c). destruct (lower_base c) eqn:Hc.
  - intros [= <- _]. unfold PyStr.len. cbn [String.length].
    split; [lia|]. rewrite Z.sub_diag. cbn. split.
    + exists c. auto.
    + intros j c' Hj. lia.
  - intros H. apply IH in H. destruct H as [Hr [(c' & Hn & Hc') Hbefore]].
    unfold PyStr.len in *. cbn [String.length]. split; [lia|].
    replace (Z.to_nat (p - i)) with (S (Z.to_nat (p - (i + 1)))) by lia.
    split.
    + exists c'. auto.
    + intros [|j] c2 Hj; cbn.
      * intros [= <-]. exact Hc.
      * intros Hn2. apply (Hbefore j c2); [lia|exact Hn2].
Qed.

Lemma sequence_field_long (rd : list cell_value) (i : nat) :
  sequence_field rd i = "" \/ (20 < PyStr.len (sequence_field rd i))%Z.
Proof.
  unfold sequence_field. destruct (stripped_if_present rd i) as [s|]; [|auto].
  destruct (Z.gtb_spec (PyStr.len (PyStr.filter_chars is_base s)) 20); [|auto].
  right. pose proof (length_filter_chars is_base s). unfold PyStr.len in *. lia.
Qed.

Lemma full_sequence_long (rd : list cell_value) (idx : nat) (sid ref : string)
    (hl : bool) (color : string) (cells : row) :
  let seq := SequenceEntry.full_sequence
               (parsed_entry rd idx sid ref hl color cells) in
  seq = "" \/ (20 < PyStr.len seq)%Z.
Proof.
  cbv zeta. unfold parsed_entry.
  pose proof (sequence_field_long rd 7) as H7.
  pose proof (sequence_field_long rd 8) as H8.
  repeat match goal with
         | |- context [if ?c then _ else _] => destruct c
         end; cbn; auto.
Qed.

(** The window of method 2 around the first lower-case base [p]. *)
Definition window_start (sequence : string) (p : Z) : Z :=
  Z.min (Z.max 0 (p - 10)) (PyStr.len sequence - 20).

Lemma lowercase_window_long (sequence : string) (p : Z) (rest : list Z) :
  (20 < PyStr.len sequence)%Z ->
  lowercase_positions sequence = p :: rest ->
  let start := window_start sequence p in
  lowercase_window sequence
  = (PyStr.slice sequence start (start + 20), start, (start + 20)%Z)
  /\ String.length (PyStr.slice sequence start (start + 20)) = 20%nat
  /\ (0 <= start /\ start <= p < start + 20
      /\ start + 20 <= PyStr.len sequence)%Z
  /\ first_lower_base_at sequence (Z.to_nat p).
Proof.
  intros Hlen Hpos. cbv zeta. unfold lowercase_positions in Hpos.
  pose proof (lowercase_positions_from_head _ _ _ _ Hpos) as [Hp Hfirst].
  rewrite Z.sub_0_r in Hfirst.
  assert (Hrange : (0 <= window_start sequence p
                    /\ window_start sequence p <= p < window_start sequence p + 20
                    /\ window_start sequence p + 20 <= PyStr.len sequence)%Z)
    by (unfold window_start; lia).
  split; [|split; [|split; [exact Hrange|exact Hfirst]]].
  - unfold lowercase_window, lowercase_positions. rewrite Hpos.
    destruct (String.eqb_spec sequence "") as [->|_];
      [unfold PyStr.len in Hlen; cbn in Hlen; lia|].
    unfold window_start.
    destruct (Z.gtb_spec (Z.max 0 (p - 10) + 20) (PyStr.len sequence)).
    + rewrite (Z.max_r 0 (PyStr.len sequence - 20)) by lia.
      rewrite (Z.min_r _ (PyStr.len sequence - 20)) by lia.
      replace (PyStr.len sequence - 20 + 20)%Z with (PyStr.len sequence) by lia.
      reflexivity.
    + rewrite Z.min_l by lia. reflexivity.
  - rewrite length_slice by lia. lia.
Qed.

Definition red_nonempty (p : rich_part) : bool :=
  part_is_red p && negb (String.eqb (part_text p) "").

Lemma scan_parts_text (parts : list rich_part) (st : red_scan) :
  red_text_parts (fold_left scan_part parts st)
  = red_text_parts st ++ map part_text (List.filter red_nonempty parts).
Proof.
  revert st. induction parts as [|p parts IH]; intros st;
    cbn [fold_left List.filter map].
  - now rewrite app_nil_r.
  - rewrite IH. unfold scan_part. fold (red_nonempty p).
    destruct (red_nonempty p); cbn [red_text_parts map].
    + now rewrite <- app_assoc.
    + reflexivity.
Qed.

(** The red text of a rich-text cell is the concatenation of its non-empty
    red parts, in order. *)
Lemma rich_cell_red_text (c : cell) (parts : list rich_part) :
  value c = VRich parts ->
  fst (_extract_red_from_cell_with_position c)
  = PyStr.join (map part_text (List.filter red_nonempty parts)).
Proof.
  intros Hv. unfold _extract_red_from_cell_with_position. rewrite Hv.
  pose proof (scan_parts_text parts (mkScan 0 (-1) [])) as H. cbn in H.
  destruct (red_text_parts (fold_left scan_part parts (mkScan 0 (-1) [])))
    as [|t ts] eqn:Hr; cbn [fst]; rewrite <- H; reflexivity.
Qed.

Lemma red_of_column_text (cells : row) (i : nat) (res : string * Z * Z) :
  red_of_column cells i = Some res ->
  exists c, nth_error cells i = Some c
            /\ fst (fst res) = fst (_extract_red_from_cell_with_position c)
            /\ fst (fst res) <> "".
Proof.
  unfold red_of_column. destruct (nth_error cells i) as [c|]; [|discriminate].
  destruct (truthy (value c)); [|discriminate].
  destruct (_extract_red_from_cell_with_position c) as [red start] eqn:He.
  destruct (String.eqb_spec red ""); cbn; [discriminate|].
  intros [= <-]. exists c. rewrite He. cbn. auto.
Qed.

(** C6 (as stated): in the worksheet whose highlighted row has a red run
    of three characters, the red bases of the simplified row are that run;
    they are not the sentinel and not 20 characters long. *)
Lemma C6_red_run_keeps_its_length :
  ~ (forall r : SimplifiedRow.t,
        In r (fst (process_file SimplifierExamples.sheet_short_red)) ->
        SimplifiedRow.red_20_bases r <> "-" ->
        String.length (SimplifiedRow.red_20_bases r) = 20%nat).
Proof.
  intros H.
  specialize (H (snp_row
                   (nth 0 (parse_source_file SimplifierExamples.sheet_short_red)
                        SimplifierExamples.default_group)
                   (nth 0 (all_entries
                             (nth 0 (parse_source_file
                                       SimplifierExamples.sheet_short_red)
                                  SimplifierExamples.default_group))
                        SimplifierExamples.entry_yellow_wt))).
  vm_compute in H.
  assert (H20 : 3%nat = 20%nat); [|discriminate H20].
  apply H; [left; reflexivity|discriminate].
Qed.

(** C6 (amended): for a parsed row (the entry [_parse_data_row] returns
    whenever it returns one), red text found in the H cell, else in
    the I cell, is returned as it is, whatever its length: for a rich-text
    cell it is the concatenation of the non-empty red parts. Only when
    neither cell yields red text is the resolved sequence used: without a
    lower-case base the result is empty, and otherwise it is the 20
    characters from [window_start], that is 10 characters before the first
    lower-case base, clipped to the sequence. *)
Theorem C6_red_text_else_lowercase_window
    (rd : list cell_value) (idx : nat) (sid ref : string) (hl : bool)
    (color : string) (cells : row) :
  let entry := parsed_entry rd idx sid ref hl color cells in
  let seq := SequenceEntry.full_sequence entry in
  (forall e, _parse_data_row rd idx sid ref hl color cells = Some e ->
             e = entry)
  /\ (forall res, red_of_column cells 7 = Some res ->
               _extract_red_bases_from_sequence seq cells = res)
  /\ (forall res, red_of_column cells 7 = None ->
                  red_of_column cells 8 = Some res ->
                  _extract_red_bases_from_sequence seq cells = res)
  /\ (forall i res, red_of_column cells i = Some res ->
        exists c, nth_error cells i = Some c
                  /\ fst (fst res) = fst (_extract_red_from_cell_with_position c)
                  /\ fst (fst res) <> ""
                  /\ forall parts, value c = VRich parts ->
                       fst (fst res)
                       = PyStr.join (map part_text
                                         (List.filter red_nonempty parts)))
  /\ (red_of_column cells 7 = None -> red_of_column cells 8 = None ->
      _extract_red_bases_from_sequence seq cells = lowercase_window seq
      /\ match lowercase_positions seq with
         | [] => lowercase_window seq = ("", (-1)%Z, (-1)%Z)
         | p :: _ =>
             let start := window_start seq p in
             lowercase_window seq
             = (PyStr.slice seq start (start + 20), start, (start + 20)%Z)
             /\ String.length (PyStr.slice seq start (start + 20)) = 20%nat
             /\ (0 <= start /\ start <= p < start + 20
                 /\ start + 20 <= PyStr.len seq)%Z
             /\ first_lower_base_at seq (Z.to_nat p)
         end).
Proof.
  cbv zeta.
  pose proof (full_sequence_long rd idx sid ref hl color cells) as Hlong.
  cbv zeta in Hlong.
  set (seq := SequenceEntry.full_sequence _) in *.
  split; [|split; [|split; [|split]]].
  - intros e. unfold _parse_data_row.
    destruct (_ || _); [discriminate|]. now intros [= <-].
  - intros res H. unfold _extract_red_bases_from_sequence. now rewrite H.
  - intros res H7 H8. unfold _extract_red_bases_from_sequence.
    now rewrite H7, H8.
  - intros i res H. destruct (red_of_column_text _ _ _ H) as (c & Hc & Heq & Hne).
    exists c. repeat split; auto.
    intros parts Hv. rewrite Heq. now apply rich_cell_red_text.
  - intros H7 H8. split.
    { unfold _extract_red_bases_from_sequence. now rewrite H7, H8. }
    destruct (lowercase_positions seq) as [|p rest] eqn:Hpos.
    + unfold lowercase_window. rewrite Hpos.
      destruct (String.eqb seq ""); reflexivity.
    + destruct Hlong as [Hempty|Hlong].
      * rewrite Hempty in Hpos. discriminate.
      * exact (lowercase_window_long seq p rest Hlong Hpos).
Qed.

End ExtractionProps.

(** ** Group renumberer *)

Module RenumberProps.
Import Renumberer.

(** The identifier pattern on the first cell of a row, as the renumberer
    tests it. *)
Definition header_of (r : row) : option (string * string) :=
  match_sequence_pattern (stripped_if_truthy (map value r) 0).

(** One number per run of equal tokens: the count grows by one exactly
    when a token differs from the one before it. *)
Fixpoint run_numbers (prev : option string) (n : nat) (tokens : list string)
  : list nat :=
  match tokens with
  | [] => []
  | t :: rest =>
      let n' := if decide (Some t = prev) then n else S n in
      n' :: run_numbers (Some t) n' rest
  end.

Definition set_first_value (v : cell_value) (r : row) : row :=
  match r with
  | [] => []
  | c :: rest => mkCell v (fill_rgb c) (font_rgb c) (number_format c) :: rest
  end.

(** The worksheet with the first cell of its header rows rewritten from the
    numbers [nums], one per header row, and nothing else changed. *)
Fixpoint relabel (rows : sheet) (nums : list nat) : sheet :=
  match rows with
  | [] => []
  | r :: rest =>
      match header_of r, nums with
      | Some (_, ref_name), n :: nums' =>
          set_first_value (VStr (format_03d n +:+ "-ref" +:+ ref_name)) r
            :: relabel rest nums'
      | _, _ => r :: relabel rest nums
      end
  end.

(** The digits before [-ref] of the header rows, in file order. *)
Definition header_digits (ws : sheet) : list string :=
  map (fun h => snd (fst h)) (collect_sequence_id_rows ws 1).


Lemma collect_keys_ge (rows : sheet) (j : nat) (h : nat * string * string) :
  In h (collect_sequence_id_rows rows j) -> (j <= fst (fst h))%nat.
Proof.
  revert j. induction rows as [|r rest IH]; intros j; cbn; [tauto|].
  destruct (match_sequence_pattern _) as [[d name]|].
  - intros [<-|Hin]; [cbn; lia|]. apply IH in Hin. lia.
  - intros Hin. apply IH in Hin. lia.
Qed.

Lemma assign_lookup_other (st : numbering) (h : nat * string * string) (k : nat) :
  fst (fst h) <> k ->
  row_to_new_seq (assign st h) !! k = row_to_new_seq st !! k.
Proof.
  destruct h as [[idx d] name]. cbn. intros Hne. unfold assign.
  destruct (decide (Some d = prev_orig_num st)); cbn;
    now rewrite lookup_insert_ne.
Qed.

Lemma fold_assign_lookup (ids : list (nat * string * string))
    (st : numbering) (k : nat) :
  (forall h, In h ids -> fst (fst h) <> k) ->
  row_to_new_seq (fold_left assign ids st) !! k = row_to_new_seq st !! k.
Proof.
  revert st. induction ids as [|h ids IH]; intros st Hk; cbn; [reflexivity|].
  rewrite IH by (intros h' Hin; apply Hk; now right).
  apply assign_lookup_other. apply Hk. now left.
Qed.

(** The number format of a destination cell: the source's, and the
    default of a new cell when the source's is empty. *)
Definition copied_format (c : cell) : string :=
  if negb (String.eqb (number_format c) "") then number_format c
  else "General".

(** A cell of the loaded workbook as the copy loop writes it when it does
    not relabel it. *)
Definition normal_format (c : cell) : cell :=
  mkCell (value c) (fill_rgb c) (font_rgb c) (copied_format c).

(** A cell of the file as it reaches the output when it is not relabelled:
    read without rich text, then copied. *)
Definition copied_cell (c : cell) : cell := normal_format (plain_cell c).

Definition copied (file : sheet) : sheet := map (map copied_cell) file.


Lemma copy_cell_id (m : gmap nat string) (j col : nat) (c : cell) :
  m !! j = None \/ col <> 1%nat -> copy_cell m j col c = normal_format c.
Proof.
  unfold copy_cell. intros [->|Hcol]; [reflexivity|].
  destruct (m !! j); [|reflexivity].
  destruct (Nat.eqb_spec col 1); [contradiction|reflexivity].
Qed.

Lemma copy_cells_id (m : gmap nat string) (j col : nat) (r : row) :
  m !! j = None \/ (2 <= col)%nat ->
  copy_cells m j col r = map normal_format r.
Proof.
  revert col. induction r as [|c r IH]; intros col H; cbn; [reflexivity|].
  rewrite copy_cell_id by (destruct H; [now left|right; lia]).
  rewrite IH by (destruct H; [now left|right; lia]). reflexivity.
Qed.

Lemma copy_cells_header (m : gmap nat string) (j : nat) (r : row) (v : string) :
  m !! j = Some v ->
  copy_cells m j 1 r = set_first_value (VStr v) (map normal_format r).
Proof.
  intros Hm. destruct r as [|c r]; cbn; [reflexivity|].
  rewrite copy_cells_id by (right; lia).
  unfold copy_cell. rewrite Hm. reflexivity.
Qed.

Lemma values_normal_format (r : row) :
  map value (map normal_format r) = map value r.
Proof. rewrite map_map. reflexivity. Qed.

Lemma header_of_normal_format (r : row) :
  header_of (map normal_format r) = header_of r.
Proof. unfold header_of. now rewrite values_normal_format. Qed.

(** Reading a worksheet without rich text does not change what [str] and
    the truth test see of a cell. *)
Lemma stripped_plain_value (v : cell_value) :
  (if truthy (plain_value v) then PyStr.strip (py_str (plain_value v)) else "")
  = (if truthy v then PyStr.strip (py_str v) else "").
Proof.
  destruct v as [|s|z|x|parts]; try reflexivity.
  cbn [plain_value truthy py_str].
  destruct (String.eqb_spec (PyStr.join (map part_text parts)) "") as [E|E].
  - rewrite E. cbn [negb]. now destruct parts.
  - cbn [negb]. destruct parts as [|p parts]; [|reflexivity].
    now contradiction E.
Qed.

Lemma stripped_plain (r : row) (i : nat) :
  stripped_if_truthy (map value (map plain_cell r)) i
  = stripped_if_truthy (map value r) i.
Proof.
  unfold stripped_if_truthy. rewrite map_map, !nth_error_map.
  destruct (nth_error r i) as [c|]; [|reflexivity].
  cbn [option_map plain_cell value]. apply stripped_plain_value.
Qed.

Lemma header_of_plain (r : row) : header_of (map plain_cell r) = header_of r.
Proof. unfold header_of. now rewrite stripped_plain. Qed.

Lemma header_of_copied (r : row) : header_of (map copied_cell r) = header_of r.
Proof.
  unfold copied_cell. rewrite <- map_map.
  now rewrite header_of_normal_format, header_of_plain.
Qed.

Lemma collect_plain (ws : sheet) (j : nat) :
  collect_sequence_id_rows (load_workbook_plain ws) j
  = collect_sequence_id_rows ws j.
Proof.
  revert j. induction ws as [|r rest IH]; intros j; [reflexivity|].
  cbn [load_workbook_plain map collect_sequence_id_rows].
  rewrite stripped_plain. fold (load_workbook_plain rest).
  rewrite IH. reflexivity.
Qed.

Lemma copied_as_loaded (ws : sheet) :
  map (map normal_format) (load_workbook_plain ws) = copied ws.
Proof.
  unfold load_workbook_plain, copied. rewrite map_map.
  apply List.map_ext. intros r. now rewrite map_map.
Qed.

Lemma copy_rows_relabel (rows : sheet) (j : nat) (st : numbering) :
  (forall k, (j <= k)%nat -> row_to_new_seq st !! k = None) ->
  copy_rows
    (row_to_new_seq (fold_left assign (collect_sequence_id_rows rows j) st))
    j rows
  = relabel (map (map normal_format) rows)
      (run_numbers (prev_orig_num st) (new_seq_counter st)
         (map (fun h => snd (fst h)) (collect_sequence_id_rows rows j))).
Proof.
  revert j st. induction rows as [|r rest IH]; intros j st Hfree;
    cbn [collect_sequence_id_rows copy_rows relabel map]; [reflexivity|].
  rewrite header_of_normal_format. unfold header_of.
  destruct (match_sequence_pattern (stripped_if_truthy (map value r) 0))
    as [[d name]|] eqn:Hm.
  - cbn [fold_left map run_numbers fst snd].
    set (st' := assign st (j, d, name)).
    assert (Hst' : forall k, (S j <= k)%nat -> row_to_new_seq st' !! k = None).
    { intros k Hk. unfold st'. rewrite assign_lookup_other by (cbn; lia).
      apply Hfree. lia. }
    rewrite (IH (S j) st' Hst').
    assert (Hj : row_to_new_seq
                   (fold_left assign (collect_sequence_id_rows rest (S j)) st')
                 !! j
                 = Some (format_03d (new_seq_counter st') +:+ "-ref" +:+ name)).
    { rewrite fold_assign_lookup.
      - unfold st', assign.
        destruct (decide (Some d = prev_orig_num st)); cbn;
          apply lookup_insert_eq.
      - intros h Hin. apply collect_keys_ge in Hin. lia. }
    rewrite (copy_cells_header _ _ _ _ Hj).
    unfold st', assign.
    destruct (decide (Some d = prev_orig_num st)) as [He|He]; cbn;
      [rewrite <- He|]; reflexivity.
  - rewrite (IH (S j) st) by (intros k Hk; apply Hfree; lia).
    rewrite copy_cells_id; [reflexivity|left].
    rewrite fold_assign_lookup.
    + apply Hfree. lia.
    + intros h Hin. apply collect_keys_ge in Hin. lia.
Qed.

Lemma last_cons_default {A : Type} (x d : A) (l : list A) :
  List.last (x :: l) d = List.last l x.
Proof.
  revert x d. induction l as [|y l IH]; intros x d; [reflexivity|].
  change (List.last (x :: y :: l) d) with (List.last (y :: l) d).
  rewrite !IH. reflexivity.
Qed.

Lemma fold_assign_counter (ids : list (nat * string * string)) (st : numbering) :
  new_seq_counter (fold_left assign ids st)
  = List.last (run_numbers (prev_orig_num st) (new_seq_counter st)
                 (map (fun h => snd (fst h)) ids))
              (new_seq_counter st).
Proof.
  revert st. induction ids as [|[[idx d] name] ids IH]; intros st;
    [reflexivity|].
  cbn [fold_left map run_numbers fst snd]. rewrite IH.
  unfold assign.
  destruct (decide (Some d = prev_orig_num st)) as [He|He]; cbn [prev_orig_num new_seq_counter].
  - rewrite <- He. now rewrite last_cons_default.
  - now rewrite last_cons_default.
Qed.

(** *** The numbers of the runs *)

Lemma run_numbers_length (prev : option string) (n : nat) (tokens : list string) :
  length (run_numbers prev n tokens) = length tokens.
Proof.
  revert prev n. induction tokens as [|t rest IH]; intros prev n; cbn;
    [reflexivity|]. now rewrite IH.
Qed.




(** *** The zero-padded rendering is injective *)

Definition parse_nat (s : string) : option nat :=
  option_map Nat.of_uint (NilEmpty.uint_of_string s).

Lemma parse_unpadded (n : nat) :
  parse_nat (NilZero.string_of_uint (Nat.to_uint n)) = Some n.
Proof.
  unfold parse_nat, NilZero.string_of_uint.
  destruct (Nat.to_uint n) eqn:Hd;
    try (rewrite <- Hd, NilEmpty.usu; cbn; now rewrite DecimalNat.Unsigned.of_to).
  apply (f_equal Nat.of_uint) in Hd.
  rewrite DecimalNat.Unsigned.of_to in Hd. subst. reflexivity.
Qed.

Lemma parse_pad (s : string) (n : nat) :
  parse_nat s = Some n -> parse_nat (String "0" s) = Some n.
Proof.
  unfold parse_nat. cbn [NilEmpty.uint_of_string].
  destruct (NilEmpty.uint_of_string s) as [d|]; [|discriminate].
  cbn. intros [= <-]. reflexivity.
Qed.

Lemma parse_format_03d (n : nat) : parse_nat (format_03d n) = Some n.
Proof.
  unfold format_03d. pose proof (parse_unpadded n) as H.
  destruct (String.length (NilZero.string_of_uint (Nat.to_uint n)))
    as [|[|[|k]]]; auto using parse_pad.
Qed.

Lemma format_03d_inj (n m : nat) : format_03d n = format_03d m -> n = m.
Proof.
  intros H. apply (f_equal parse_nat) in H.
  rewrite !parse_format_03d in H. congruence.
Qed.

(** *** What the relabelling leaves alone *)

Lemma set_first_value_styles (v : cell_value) (r : row) :
  map fill_rgb (set_first_value v r) = map fill_rgb r
  /\ map font_rgb (set_first_value v r) = map font_rgb r
  /\ List.tl (set_first_value v r) = List.tl r.
Proof. destruct r; cbn; auto. Qed.

Lemma relabel_row (rows : sheet) (nums : list nat) (i : nat) (r : row) :
  nth_error rows i = Some r ->
  exists r', nth_error (relabel rows nums) i = Some r'
             /\ List.tl r' = List.tl r
             /\ map fill_rgb r' = map fill_rgb r
             /\ map font_rgb r' = map font_rgb r
             /\ (header_of r = None -> r' = r).
Proof.
  revert nums i. induction rows as [|r0 rest IH]; intros nums i;
    [destruct i; discriminate|].
  destruct i as [|i]; cbn [nth_error relabel].
  - intros [= ->].
    destruct (header_of r) as [[d name]|] eqn:Hh.
    + destruct nums as [|n nums']; cbn [nth_error].
      * exists r. repeat split; auto.
      * eexists. split; [reflexivity|].
        destruct (set_first_value_styles
                    (VStr (format_03d n +:+ "-ref" +:+ name)) r)
          as (Hf & Hc & Ht).
        repeat split; auto. discriminate.
    + exists r. repeat split; auto.
  - intros Hr.
    destruct (header_of r0) as [[d name]|]; [destruct nums as [|n nums']|];
      cbn [nth_error]; apply IH; exact Hr.
Qed.

Lemma run_numbers_first (t : string) (rest : list string) :
  run_numbers None 0 (t :: rest) = 1%nat :: run_numbers (Some t) 1 rest.
Proof. cbn. destruct (decide (Some t = None)); [discriminate|reflexivity]. Qed.






(** A sheet with a rich-text cell in column H: the run in red is part of
    the file and is not part of what the renumberer writes. *)
Lemma rich_text_runs_not_copied :
  map (map value)
      (ws_dst (sort_gene_editing_file RenumberExamples.sheet_rich_text))
  = [ [ VStr "001-refGmACC3HiTom" ];
      [ VNone; VStr "AAAAtACCCC" ] ]
  /\ map (map value) RenumberExamples.sheet_rich_text
     = [ [ VStr "007-refGmACC3HiTom" ];
         [ VNone; VRich [ PlainPart "AAAA";
                          TextBlock (Some "FFFF0000") "tAC";
                          PlainPart "CCC" ] ] ].
Proof. split; vm_compute; reflexivity. Qed.


End RenumberProps.

(** ** Mutation highlighter and verifier *)

Module VerifierProps.
Import MutationHighlighter PyStrProps.

(** The observed transitions of the verifier: one per position of the
    window at which the candidate has a lower-case character. *)
Definition window_transitions (wt mut : string) (target_pos : Z * Z)
  : list observed :=
  scan_window (PyStr.chars (PyStr.slice wt (fst target_pos) (snd target_pos)))
              (PyStr.chars (PyStr.slice mut (fst target_pos) (snd target_pos)))
              0.

Lemma scan_window_spec (wt mut : list ascii) (i : nat) (m : observed) :
  In m (scan_window wt mut i) <->
  exists k wc mc,
    nth_error wt k = Some wc /\ nth_error mut k = Some mc
    /\ PyStr.islower mc = true
    /\ m = mkObserved (i + k) (PyStr.upper_char wc) (PyStr.upper_char mc).
Proof.
  revert mut i. induction wt as [|w wt IH]; intros mut i.
  - cbn. split; [tauto|]. intros (k & wc & mc & H & _). destruct k; discriminate.
  - destruct mut as [|c mut]; cbn [scan_window].
    + split; [intros []|]. intros (k & wc & mc & _ & H & _).
      destruct k; discriminate.
    + assert (Hrest :
        In m (scan_window wt mut (S i)) <->
        exists k wc mc,
          nth_error (w :: wt) (S k) = Some wc
          /\ nth_error (c :: mut) (S k) = Some mc
          /\ PyStr.islower mc = true
          /\ m = mkObserved (i + S k) (PyStr.upper_char wc) (PyStr.upper_char mc)).
      { rewrite IH. split; intros (k & wc & mc & H1 & H2 & H3 & H4);
          exists k, wc, mc; cbn [nth_error] in *; repeat split; auto;
          rewrite H4; f_equal; lia. }
      destruct (PyStr.islower c) eqn:Hc.
      * cbn [In]. rewrite Hrest. split.
        -- intros [<-|(k & wc & mc & H)].
           ++ exists 0%nat, w, c. cbn. rewrite Nat.add_0_r. auto.
           ++ exists (S k), wc, mc. exact H.
        -- intros ([|k] & wc & mc & H1 & H2 & H3 & H4).
           ++ left. cbn in H1, H2. injection H1 as <-. injection H2 as <-.
              rewrite H4, Nat.add_0_r. reflexivity.
           ++ right. exists k, wc, mc. auto.
      * rewrite Hrest. split.
        -- intros (k & wc & mc & H). exists (S k), wc, mc. exact H.
        -- intros ([|k] & wc & mc & H1 & H2 & H3 & H4).
           ++ cbn in H2. injection H2 as <-. congruence.
           ++ exists k, wc, mc. auto.
Qed.

Definition status_of (res : string * string * detail) : string := fst (fst res).

(** Some observed transition is the claimed one. *)
Definition claimed_observed (obs : list observed) (from to : ascii) : Prop :=
  exists m, In m obs /\ wt_base m = from /\ mut_base m = to.

(** Some observed transition ends in the claimed base from another one. *)
Definition other_origin_observed (obs : list observed) (from to : ascii) : Prop :=
  exists m, In m obs /\ mut_base m = to /\ wt_base m <> from.

Section Classification.

Variables (wt mut claimed : string) (target_pos : Z * Z) (from to : ascii).
Hypothesis Hwt : wt <> "".
Hypothesis Hmut : mut <> "".
Hypothesis Hstart : (0 <= fst target_pos)%Z.
Hypothesis Hend_wt : (snd target_pos <= PyStr.len wt)%Z.
Hypothesis Hend_mut : (snd target_pos <= PyStr.len mut)%Z.
Hypothesis Hclaimed : match_mutation (PyStr.upper claimed) = Some (from, to).

Let obs := window_transitions wt mut target_pos.
Let res := _verify_mutation_with_wt wt mut claimed target_pos.

Lemma verify_unfold :
  res =
  match obs with
  | [] => ("unknown", "", NoLowercaseInWindow)
  | first_error :: _ =>
      if existsb (fun m => Ascii.eqb (wt_base m) from
                           && Ascii.eqb (mut_base m) to) obs
      then ("correct", mutation_code from to, Verified from to)
      else
        match map (fun m => WrongWtBase claimed (actual m) (position m)
                              (wt_base m) from)
                  (List.filter (fun m => Ascii.eqb (mut_base m) to) obs) with
        | d :: _ => ("error", actual first_error, d)
        | [] => ("error", join_comma (map actual obs),
                 OtherDetected claimed (join_comma (map actual obs)))
        end
  end.
Proof.
  unfold res, obs, window_transitions, _verify_mutation_with_wt.
  destruct target_pos as [start end_]. cbn [fst snd] in *.
  destruct (String.eqb_spec wt ""); [contradiction|].
  destruct (String.eqb_spec mut ""); [contradiction|].
  cbn [orb].
  destruct (Z.ltb_spec start 0); [lia|].
  destruct (Z.gtb_spec end_ (PyStr.len wt)); [lia|].
  destruct (Z.gtb_spec end_ (PyStr.len mut)); [lia|].
  cbn [orb]. rewrite Hclaimed. reflexivity.
Qed.

Lemma existsb_claimed :
  existsb (fun m => Ascii.eqb (wt_base m) from && Ascii.eqb (mut_base m) to) obs
  = true <-> claimed_observed obs from to.
Proof.
  rewrite existsb_exists. unfold claimed_observed.
  split; intros (m & Hin & H); exists m; split; auto.
  - apply andb_prop in H. destruct H as [H1 H2].
    apply Ascii.eqb_eq in H1, H2. auto.
  - destruct H as [-> ->]. now rewrite !Ascii.eqb_refl.
Qed.

Lemma status_correct_iff :
  status_of res = "correct" <-> claimed_observed obs from to.
Proof.
  rewrite verify_unfold, <- existsb_claimed.
  destruct obs as [|m0 rest]; [cbn; split; discriminate|].
  destruct (existsb _ (m0 :: rest)); [cbn; tauto|].
  destruct (map _ _); cbn; split; discriminate.
Qed.

Lemma status_unknown_iff : status_of res = "unknown" <-> obs = [].
Proof.
  rewrite verify_unfold.
  destruct obs as [|m0 rest]; [cbn; tauto|].
  destruct (existsb _ (m0 :: rest)); [cbn; split; discriminate|].
  destruct (map _ _); cbn; split; discriminate.
Qed.

Lemma status_error_iff :
  status_of res = "error" <-> obs <> [] /\ ~ claimed_observed obs from to.
Proof.
  rewrite <- existsb_claimed, verify_unfold.
  destruct obs as [|m0 rest]; [cbn; split; [discriminate|tauto]|].
  destruct (existsb _ (m0 :: rest)).
  - cbn. split; [discriminate|]. intros [_ H]. now contradiction H.
  - destruct (map _ _); cbn; split; auto; intros _; split; discriminate.
Qed.

Lemma other_origin_error :
  ~ claimed_observed obs from to ->
  other_origin_observed obs from to -> status_of res = "error".
Proof.
  intros Hno (m & Hin & _). apply status_error_iff. split; [|exact Hno].
  intros Hnil. rewrite Hnil in Hin. exact Hin.
Qed.

End Classification.

End VerifierProps.

Module ProcessProps.
Import MutationHighlighter PyStrProps VerifierProps.

(** The set whose enumeration [process_file] asks for on row [r]. *)
Definition row_codes (r : row) : gset string :=
  list_to_set (_parse_mutations_from_column (stripped_if_truthy (map value r) 5))
  ∩ list_to_set (_parse_mutations_from_column (stripped_if_truthy (map value r) 6)).

Ltac case_step :=
  match goal with
  | |- context [let '(_, _) := ?x in _] => destruct x eqn:?
  | |- context [if ?c then _ else _] => destruct c eqn:?
  | |- context [match ?x with _ => _ end] => destruct x eqn:?
  end.

Lemma process_row_ext (target : string)
    (it1 it2 : gset string -> list string) (st : state) (i : nat) (r : row) :
  it1 (row_codes r) = it2 (row_codes r) ->
  process_row target it1 st i r = process_row target it2 st i r.
Proof.
  intros H. unfold process_row, _get_mutation_intersection.
  unfold row_codes in H. cbv zeta. rewrite H. reflexivity.
Qed.

Lemma process_rows_ext (target : string)
    (it1 it2 : gset string -> list string) (rows : sheet) (i : nat) (st : state) :
  Forall (fun r => it1 (row_codes r) = it2 (row_codes r)) rows ->
  process_rows target it1 rows i st = process_rows target it2 rows i st.
Proof.
  intros H. revert i st. induction H as [|r rows Hr _ IH]; intros i st; cbn.
  - reflexivity.
  - rewrite (process_row_ext target it1 it2 st i r Hr). apply IH.
Qed.

Lemma process_file_ext (target : string)
    (it1 it2 : gset string -> list string) (input : sheet) :
  Forall (fun r => it1 (row_codes r) = it2 (row_codes r)) input ->
  process_file target it1 input = process_file target it2 input.
Proof.
  intros H. unfold process_file. now rewrite (process_rows_ext target it1 it2).
Qed.

(** An enumeration of a set with at most one element is the standard one. *)
Lemma enumeration_small (set_iter : gset string -> list string) (X : gset string) :
  set_iter X ≡ₚ elements X -> (length (elements X) <= 1)%nat ->
  set_iter X = elements X.
Proof.
  intros Hp Hlen. destruct (elements X) as [|a [|b l]]; cbn in Hlen; [| |lia].
  - now apply Permutation_nil_r.
  - now apply Permutation_singleton_r.
Qed.

(** *** Only verified rows are highlighted *)

Lemma find_target_ok (target h : string) :
  (fst (_find_target_sequence_position target h) >=? 0)%Z = true ->
  h <> ""
  /\ (0 <= fst (_find_target_sequence_position target h)
      /\ snd (_find_target_sequence_position target h) <= PyStr.len h
      /\ fst (_find_target_sequence_position target h)
         <= snd (_find_target_sequence_position target h))%Z.
Proof.
  unfold _find_target_sequence_position.
  destruct (String.eqb_spec h ""); [cbn; discriminate|].
  unfold PyStr.find.
  pose proof (find_from_bounds target (PyStr.upper h) 0 ltac:(lia)) as Hb.
  rewrite len_upper in Hb. pose proof (len_nonneg target).
  destruct (Z.eqb_spec (PyStr.find_from target (PyStr.upper h) 0) (-1));
    cbn [fst snd]; [discriminate|].
  intros _. split; [assumption|]. lia.
Qed.

Lemma pick_mutation_check (common : list string) (used : gset string)
    (h : string) (pos : Z * Z) (m color : string) :
  pick_mutation common used h pos = Some (m, color) ->
  _check_mutation_in_position h m pos = true
  /\ _get_highlight_color m = Some color
  /\ (m ∉ used) /\ In m common.
Proof.
  assert (Hweak : forall c rest,
             _check_mutation_in_position h m pos = true
             /\ _get_highlight_color m = Some color
             /\ (m ∉ used) /\ In m rest ->
             _check_mutation_in_position h m pos = true
             /\ _get_highlight_color m = Some color
             /\ (m ∉ used) /\ In m (c :: rest)).
  { intros c rest (H1 & H2 & H3 & H4). repeat split; auto. now right. }
  induction common as [|c rest IH]; cbn [pick_mutation]; [discriminate|].
  destruct (decide (c ∈ used)) as [Hin|Hnin].
  { intros H. apply Hweak, IH, H. }
  destruct (_get_highlight_color c) as [col|] eqn:Hcol.
  2:{ intros H. apply Hweak, IH, H. }
  destruct (negb (String.eqb col "") && _check_mutation_in_position h c pos)
    eqn:Hc.
  - intros [= <- <-]. apply andb_prop in Hc. destruct Hc as [_ Hc].
    repeat split; auto. now left.
  - intros H. apply Hweak, IH, H.
Qed.

Lemma check_position_true (h m : string) (pos : Z * Z) :
  _check_mutation_in_position h m pos = true ->
  h <> "" /\ (0 <= fst pos)%Z /\ (snd pos <= PyStr.len h)%Z
  /\ exists a to,
       match_mutation (PyStr.upper m) = Some (a, to)
       /\ PyStr.char_in (PyStr.lower_char to)
                        (PyStr.slice h (fst pos) (snd pos)) = true.
Proof.
  unfold _check_mutation_in_position. destruct pos as [s e]. cbn [fst snd].
  destruct (String.eqb_spec h ""); [cbn; discriminate|].
  destruct (String.eqb m ""); [cbn; discriminate|]. cbn [orb].
  destruct (Z.ltb_spec s 0); [cbn; discriminate|].
  destruct (Z.gtb_spec e (PyStr.len h)); [cbn; discriminate|]. cbn [orb].
  destruct (match_mutation (PyStr.upper m)) as [[a to]|]; [|discriminate].
  intros Hc. repeat split; auto; try lia. exists a, to. auto.
Qed.

Lemma match_mutation_bases (s : string) (a to : ascii) :
  match_mutation s = Some (a, to) ->
  is_upper_base a = true /\ is_upper_base to = true.
Proof.
  destruct s as [|a0 [|c1 [|c2 [|b0 rest]]]]; try discriminate;
    unfold match_mutation;
    destruct c1 as [[] [] [] [] [] [] [] []]; try discriminate;
    try (destruct c2 as [[] [] [] [] [] [] [] []]; try discriminate).
  destruct (is_upper_base a0) eqn:Ha; [|discriminate].
  destruct (is_upper_base b0) eqn:Hb; [|discriminate].
  cbn. intros [= <- <-]. auto.
Qed.

Lemma lower_of_base (to : ascii) :
  is_upper_base to = true -> PyStr.islower (PyStr.lower_char to) = true.
Proof.
  unfold is_upper_base, PyStr.char_in. cbn.
  destruct (Ascii.eqb_spec to "A"%char) as [->|_]; [intros _; reflexivity|].
  destruct (Ascii.eqb_spec to "T"%char) as [->|_]; [intros _; reflexivity|].
  destruct (Ascii.eqb_spec to "C"%char) as [->|_]; [intros _; reflexivity|].
  destruct (Ascii.eqb_spec to "G"%char) as [->|_]; [intros _; reflexivity|].
  discriminate.
Qed.

Lemma char_in_nth (c : ascii) (s : string) :
  PyStr.char_in c s = true -> exists k, nth_error (PyStr.chars s) k = Some c.
Proof.
  unfold PyStr.char_in. rewrite existsb_exists.
  intros (x & Hin & Heq). apply Ascii.eqb_eq in Heq. subst x.
  now apply In_nth_error.
Qed.

(** With the window inside both sequences and the target base of the code
    in lower case somewhere in the candidate's window, the verifier has an
    observed transition: it does not answer [unknown]. *)
Lemma verify_not_unknown (wt h m : string) (pos : Z * Z) :
  wt <> "" -> (0 <= fst pos)%Z -> (fst pos <= snd pos)%Z ->
  (snd pos <= PyStr.len wt)%Z ->
  _check_mutation_in_position h m pos = true ->
  status_of (_verify_mutation_with_wt wt h m pos) = "correct"
  \/ status_of (_verify_mutation_with_wt wt h m pos) = "error".
Proof.
  intros Hwt Hs Hse He Hcheck.
  destruct (check_position_true h m pos Hcheck)
    as (Hh & _ & Heh & a & to & Hm & Hin).
  pose proof (verify_unfold wt h m pos a to Hwt Hh Hs He Heh Hm) as Hv.
  destruct (window_transitions wt h pos) as [|m0 rest] eqn:Hobs.
  - exfalso.
    destruct (char_in_nth _ _ Hin) as (k & Hk).
    assert (Hklt : (k < Z.to_nat (snd pos - fst pos))%nat).
    { rewrite <- (length_slice h (fst pos) (snd pos)) by lia.
      rewrite string_length_chars. apply nth_error_Some. rewrite Hk. discriminate. }
    destruct (nth_error (PyStr.chars (PyStr.slice wt (fst pos) (snd pos))) k)
      as [wc|] eqn:Hwc.
    2:{ apply nth_error_None in Hwc.
        rewrite length_chars, length_slice in Hwc by lia. lia. }
    assert (Hmem : In (mkObserved (0 + k) (PyStr.upper_char wc)
                                  (PyStr.upper_char (PyStr.lower_char to)))
                      (window_transitions wt h pos)).
    { unfold window_transitions. apply scan_window_spec.
      exists k, wc, (PyStr.lower_char to). repeat split; auto.
      apply lower_of_base. eapply match_mutation_bases. exact Hm. }
    rewrite Hobs in Hmem. exact Hmem.
  - rewrite Hv. destruct (existsb _ _); [left; reflexivity|].
    destruct (map _ _); right; reflexivity.
Qed.

(** The window recorded for an anchored group lies inside the recorded
    wild-type sequence. *)
Definition anchored_ok (st : state) : Prop :=
  current_has_target st = true ->
  current_wt_sequence st <> ""
  /\ (0 <= fst (current_target_pos st)
      /\ snd (current_target_pos st) <= PyStr.len (current_wt_sequence st)
      /\ fst (current_target_pos st) <= snd (current_target_pos st))%Z.

Definition all_correct (st : state) : Prop :=
  Forall (fun res => HighlightResult.verification_status res = "correct")
         (highlight_results st).

Lemma process_row_inv (target : string) (set_iter : gset string -> list string)
    (st : state) (i : nat) (r : row) :
  anchored_ok st /\ all_correct st ->
  anchored_ok (process_row target set_iter st i r)
  /\ all_correct (process_row target set_iter st i r).
Proof.
  intros [Hanch Hall]. unfold process_row. cbv zeta.
  repeat case_step;
    try (split; [exact Hanch|exact Hall]);
    try (split; [intros Hf; cbn in Hf; discriminate Hf|exact Hall]).
  all: first
    [ (* a wild-type row that anchors the group *)
      split; [|exact Hall]; intros _;
      cbn [current_wt_sequence current_target_pos];
      match goal with
      | H : (fst (_find_target_sequence_position _ _) >=? 0)%Z = true |- _ =>
          apply find_target_ok in H; exact H
      end
    | (* a candidate that passed the verifier *)
      split; [exact Hanch|];
      unfold all_correct; cbn [highlight_results];
      apply Forall_app; split; [exact Hall|];
      constructor; [|constructor];
      cbn [HighlightResult.verification_status];
      match goal with
      | Hn : negb (current_has_target _) = false,
        Hp : pick_mutation _ _ _ _ = Some _,
        Hv : _verify_mutation_with_wt _ _ _ _ = _,
        He : String.eqb _ "error" = false |- _ =>
          apply negb_false_iff in Hn;
          destruct (Hanch Hn) as (Hwt & H0 & Hlen & Hle);
          apply pick_mutation_check in Hp; destruct Hp as (Hc & _);
          destruct (verify_not_unknown _ _ _ _ Hwt H0 Hle Hlen Hc) as [Hs|Hs];
          rewrite Hv in Hs; cbn in Hs; subst;
          [reflexivity|discriminate He]
      end ].
Qed.

Lemma process_rows_inv (target : string) (set_iter : gset string -> list string)
    (rows : sheet) (i : nat) (st : state) :
  anchored_ok st /\ all_correct st ->
  anchored_ok (process_rows target set_iter rows i st)
  /\ all_correct (process_rows target set_iter rows i st).
Proof.
  revert i st. induction rows as [|r rows IH]; intros i st H; cbn; [exact H|].
  apply IH. now apply process_row_inv.
Qed.

Lemma no_error_rows (results : list HighlightResult.t) (acc : stats) :
  Forall (fun res => HighlightResult.verification_status res = "correct") results ->
  error_rows (fold_left count_result results acc) = error_rows acc.
Proof.
  intros H. revert acc. induction H as [|res results Hres _ IH]; intros acc;
    cbn [fold_left]; [reflexivity|].
  rewrite IH. unfold count_result. cbn [error_rows]. rewrite Hres. reflexivity.
Qed.

Lemma highlighted_all_correct (target : string)
    (set_iter : gset string -> list string) (input : sheet) :
  Forall (fun res => HighlightResult.verification_status res = "correct")
         (highlighted_rows (process_file target set_iter input)).
Proof.
  unfold process_file. cbn [highlighted_rows].
  apply (process_rows_inv target set_iter input 1 initial_state).
  split; [intros H; discriminate H|constructor].
Qed.

Lemma error_mutations_empty (target : string)
    (set_iter : gset string -> list string) (input : sheet) :
  error_mutations (process_file target set_iter input) = [].
Proof.
  pose proof (highlighted_all_correct target set_iter input) as H.
  unfold process_file in *. cbn [error_mutations highlighted_rows] in *.
  now rewrite no_error_rows.
Qed.

End ProcessProps.

(** ** The claims on the highlighter *)

Module HighlighterClaims.
Import MutationHighlighter PyStrProps VerifierProps ProcessProps Examples.

(** The H cell written for the verified candidate of [sheet_correct]. *)
Definition rewritten_h_cell : cell :=
  mkCell (VRich [ TextBlock (Some "000000") "AAAA";
                  TextBlock (Some "FF0000") "TGGAGAtACTAGAGGGATGG";
                  TextBlock (Some "000000") "CCCC" ])
         (Some "FFFF00") None "General".

Lemma example_rows_enumerated (target : string)
    (set_iter : gset string -> list string) (ws : sheet) :
  (forall X, set_iter X ≡ₚ elements X) ->
  forallb (fun r => (length (elements (row_codes r)) <=? 1)%nat) ws = true ->
  process_file target set_iter ws = process_file target elements ws.
Proof.
  intros Hiter Hsmall. apply process_file_ext.
  apply Forall_forall. intros r Hr. apply list_elem_of_In in Hr.
  rewrite forallb_forall in Hsmall. specialize (Hsmall r Hr).
  apply Nat.leb_le in Hsmall. now apply enumeration_small.
Qed.

(** C1: no highlighted row has a status other than [correct], and a
    candidate the verifier rejects is skipped with a printed reason; but
    the list of error details of the report is built from the highlighted
    rows only, so it is empty for every input. In [sheet_wrong_origin] the
    candidate claims C->T where the wild type has G: the verifier answers
    [error] with G->T observed, the row is left as it was, the reason is
    printed, and the report holds no error detail and counts no error. *)
Theorem C1_rejected_candidate_missing_from_error_details
    (set_iter : gset string -> list string)
    (Hiter : forall X, set_iter X ≡ₚ elements X) :
  (forall target input,
      Forall (fun res => HighlightResult.verification_status res = "correct")
             (highlighted_rows (process_file target set_iter input)))
  /\ (forall target input,
         error_mutations (process_file target set_iter input) = [])
  /\ _verify_mutation_with_wt wt_sequence variant_at_1 "C->T" (4, 24)%Z
     = ("error", "G->T",
        WrongWtBase "C->T" "G->T" 1 "G"%char "C"%char)
  /\ (let rep := process_file default_target set_iter sheet_wrong_origin in
      highlighted_rows rep = []
      /\ output_sheet rep = sheet_wrong_origin
      /\ printed rep = [ (3%nat, WrongWtBase "C->T" "G->T" 1 "G"%char "C"%char) ]
      /\ error_mutations rep = []
      /\ verification_statistics rep !! "error" = Some 0%nat).
Proof.
  split; [intros; apply highlighted_all_correct|].
  split; [intros; apply error_mutations_empty|].
  split; [vm_compute; reflexivity|].
  cbv zeta.
  rewrite (example_rows_enumerated default_target set_iter sheet_wrong_origin Hiter)
    by (vm_compute; reflexivity).
  repeat split; vm_compute; reflexivity.
Qed.

(** C2: with the window inside both sequences and a parsable claimed code,
    the observed transitions are the pairs (wild-type base, candidate
    base), upper-cased, at the window positions where the candidate is in
    lower case; the status is [correct] when one of them is the claimed
    pair, else [error] when one of them ends in the claimed base, else
    [unknown] when there is none. In [sheet_correct] the candidate with a
    lower-case t at window index 6 and C->T in both detail columns is
    verified [correct], its cells get the yellow fill, and its H cell is
    rewritten with the window as a red run. *)
Theorem C2_verifier_classifies_by_observed_transitions
    (wt mut claimed : string) (target_pos : Z * Z) (from to : ascii)
    (set_iter : gset string -> list string)
    (Hwt : wt <> "") (Hmut : mut <> "")
    (Hstart : (0 <= fst target_pos)%Z)
    (Hend_wt : (snd target_pos <= PyStr.len wt)%Z)
    (Hend_mut : (snd target_pos <= PyStr.len mut)%Z)
    (Hclaimed : match_mutation (PyStr.upper claimed) = Some (from, to))
    (Hiter : forall X, set_iter X ≡ₚ elements X) :
  let obs := window_transitions wt mut target_pos in
  let status := status_of (_verify_mutation_with_wt wt mut claimed target_pos) in
  (forall m, In m obs <->
     exists k wc mc,
       nth_error (PyStr.chars (PyStr.slice wt (fst target_pos) (snd target_pos))) k
       = Some wc
       /\ nth_error (PyStr.chars (PyStr.slice mut (fst target_pos) (snd target_pos))) k
          = Some mc
       /\ PyStr.islower mc = true
       /\ m = mkObserved k (PyStr.upper_char wc) (PyStr.upper_char mc))
  /\ (claimed_observed obs from to -> status = "correct")
  /\ (~ claimed_observed obs from to ->
      other_origin_observed obs from to -> status = "error")
  /\ (~ claimed_observed obs from to ->
      ~ other_origin_observed obs from to -> obs = [] -> status = "unknown")
  /\ (status = "correct" <-> claimed_observed obs from to)
  /\ (status = "unknown" <-> obs = [])
  /\ (let rep := process_file default_target set_iter sheet_correct in
      map (fun res => (HighlightResult.row_index res,
                       HighlightResult.mutation_type res,
                       HighlightResult.highlight_color res,
                       HighlightResult.verification_status res))
          (highlighted_rows rep)
      = [ (3%nat, "C->T", "yellow", "correct") ]
      /\ nth_error (output_sheet rep) 2
         = Some (map (filled "FFFF00")
                     (data "SNP" "SNP" "C->T" "C->T" rewritten_h_cell
                           (txt (variant_at_6 "t"))))
      /\ GeneEditingProcessor._extract_red_from_cell_with_position
           rewritten_h_cell
         = ("TGGAGAtACTAGAGGGATGG", 4%Z)).
Proof.
  cbv zeta.
  split.
  { intros m. unfold window_transitions. rewrite scan_window_spec.
    split; intros (k & wc & mc & H); exists k, wc, mc; exact H. }
  split.
  { apply (status_correct_iff wt mut claimed target_pos from to); assumption. }
  split.
  { apply (other_origin_error wt mut claimed target_pos from to); assumption. }
  split.
  { intros _ _.
    apply (status_unknown_iff wt mut claimed target_pos from to); assumption. }
  split.
  { apply (status_correct_iff wt mut claimed target_pos from to); assumption. }
  split.
  { apply (status_unknown_iff wt mut claimed target_pos from to); assumption. }
  rewrite (example_rows_enumerated default_target set_iter sheet_correct Hiter)
    by (vm_compute; reflexivity).
  repeat split; vm_compute; reflexivity.
Qed.

(** The loop over the common codes matches none when the position check
    fails for each of them. *)
Lemma pick_mutation_none (common : list string) (used : gset string)
    (h : string) (pos : Z * Z) :
  (forall m, In m common -> _check_mutation_in_position h m pos = false) ->
  pick_mutation common used h pos = None.
Proof.
  induction common as [|m rest IH]; intros Hall; [reflexivity|].
  cbn [pick_mutation].
  assert (Hrest : pick_mutation rest used h pos = None)
    by (apply IH; intros m' Hin; apply Hall; now right).
  destruct (decide (m ∈ used)); [exact Hrest|].
  destruct (_get_highlight_color m) as [color|]; [|exact Hrest].
  rewrite (Hall m) by now left. now rewrite andb_false_r.
Qed.

(** A row that is neither a header nor a wild-type row, and none of whose
    common codes passes the position check, is written back as it is: no
    code is matched, so the verifier is not run for it, nothing is printed
    and no result is recorded. *)
Lemma unmatched_row_kept (target : string)
    (set_iter : gset string -> list string) (st : state) (i : nat) (r : row) :
  fst (_is_sequence_header (map value r)) = false ->
  String.eqb (stripped_if_truthy (map value r) 3) "WT"
  && String.eqb (stripped_if_truthy (map value r) 4) "WT" = false ->
  (forall m, In m (set_iter (row_codes r)) ->
             _check_mutation_in_position (stripped_if_truthy (map value r) 7) m
               (current_target_pos st) = false) ->
  process_row target set_iter st i r = keep_row st r.
Proof.
  intros Hhd Hwt Hall. unfold process_row, _get_mutation_intersection.
  fold (row_codes r).
  destruct (_is_sequence_header (map value r)) as [hd sid].
  cbn [fst] in Hhd. subst hd. rewrite Hwt.
  rewrite (pick_mutation_none _ _ _ _ Hall).
  repeat match goal with
         | |- context [if ?c then _ else _] => destruct c
         | |- context [match ?x with _ => _ end] => destruct x
         end; reflexivity.
Qed.

(** C3 (as stated): for the candidate with a lower-case a at window index
    6 and the claimed code C->T, [process_file] produces no verification
    status at all: no result, no printed rejection and no error detail
    names row 3. *)
Lemma C3_no_status_for_wrong_base :
  ~ (let rep := process_file default_target elements sheet_wrong_base in
     (exists res, In res (highlighted_rows rep)
                  /\ HighlightResult.row_index res = 3%nat)
     \/ (exists detail, In (3%nat, detail) (printed rep))
     \/ (exists e, In e (error_mutations rep) /\ err_row e = 3%nat)).
Proof.
  vm_compute. intros [(res & [] & _)|[(d & [])|(e & [] & _)]].
Qed.

(** C3 (amended): a candidate row none of whose common codes passes the
    position check is written back as it is without the verifier being
    run, so no verification status exists for it. For the candidate with a
    lower-case a at window index 6 and the claimed code C->T the check
    fails, because the window holds no lower-case t: the row is not
    highlighted, nothing is printed and no error is counted or reported.
    The same row with a lower-case t passes the check and is highlighted.
    The verifier, applied to the candidate on its own, observes C->A and
    answers [error]. *)
Theorem C3_wrong_base_rejected_before_verification
    (set_iter : gset string -> list string)
    (Hiter : forall X, set_iter X ≡ₚ elements X) :
  (forall target st i r,
      fst (_is_sequence_header (map value r)) = false ->
      String.eqb (stripped_if_truthy (map value r) 3) "WT"
      && String.eqb (stripped_if_truthy (map value r) 4) "WT" = false ->
      (forall m, In m (set_iter (row_codes r)) ->
                 _check_mutation_in_position
                   (stripped_if_truthy (map value r) 7) m
                   (current_target_pos st) = false) ->
      process_row target set_iter st i r = keep_row st r)
  /\ _find_target_sequence_position default_target wt_sequence = (4, 24)%Z
  /\ _check_mutation_in_position (variant_at_6 "a") "C->T" (4, 24)%Z = false
  /\ _check_mutation_in_position (variant_at_6 "t") "C->T" (4, 24)%Z = true
  /\ (let rep := process_file default_target set_iter sheet_wrong_base in
      highlighted_rows rep = []
      /\ total_highlighted rep = 0%nat
      /\ printed rep = []
      /\ error_mutations rep = []
      /\ verification_statistics rep !! "error" = Some 0%nat
      /\ output_sheet rep = sheet_wrong_base)
  /\ map (fun res => (HighlightResult.row_index res,
                      HighlightResult.mutation_type res,
                      HighlightResult.highlight_color res,
                      HighlightResult.verification_status res))
         (highlighted_rows (process_file default_target set_iter sheet_correct))
     = [ (3%nat, "C->T", "yellow", "correct") ]
  /\ window_transitions wt_sequence (variant_at_6 "a") (4, 24)%Z
     = [ mkObserved 6 "C"%char "A"%char ]
  /\ _verify_mutation_with_wt wt_sequence (variant_at_6 "a") "C->T" (4, 24)%Z
     = ("error", "C->A", OtherDetected "C->T" "C->A").
Proof.
  split; [intros target st i r; apply unmatched_row_kept|].
  split; [vm_compute; reflexivity|].
  split; [vm_compute; reflexivity|].
  split; [vm_compute; reflexivity|].
  cbv zeta.
  rewrite (example_rows_enumerated default_target set_iter sheet_wrong_base Hiter)
    by (vm_compute; reflexivity).
  rewrite (example_rows_enumerated default_target set_iter sheet_correct Hiter)
    by (vm_compute; reflexivity).
  repeat split; vm_compute; reflexivity.
Qed.

End HighlighterClaims.

(** ** Instances *)

Module Witnesses.
Import Examples.

(** The group of [sheet_mixed]: rows 2 (wild type) and 4 (highlighted) are
    emitted, row 3 is dropped, and the red run of row 4 is kept. *)
Lemma C5_mixed_group :
  SimplifierProps.highlighted_entries IngestExamples.group_mixed <> []
  /\ map GeneEditingProcessor.SimplifiedRow.original_row_num
         (GeneEditingProcessor.simplify_group [] IngestExamples.group_mixed)
     = [2%nat; 4%nat]
  /\ map GeneEditingProcessor.SimplifiedRow.red_20_bases
         (GeneEditingProcessor.simplify_group [] IngestExamples.group_mixed)
     = ["-"; "TGGAGAtACTAGAGGGATGG"].
Proof.
  assert (H : SimplifierProps.highlighted_entries IngestExamples.group_mixed <> [])
    by (vm_compute; discriminate).
  split; [exact H|].
  destruct (SimplifierProps.C5_highlighted_group_rows IngestExamples.group_mixed H)
    as (Heq & _ & Hnum & _).
  split; [rewrite Hnum|rewrite Heq]; vm_compute; reflexivity.
Defined.

(** The wild-type row with a yellow fill is emitted as WT and as SNP. *)
Lemma C10_yellow_wild_type :
  exists l1 l2 l3,
    GeneEditingProcessor.simplify_group [] SimplifierExamples.group_yellow_wt
    = l1 ++ GeneEditingProcessor.wt_row SimplifierExamples.group_yellow_wt false
              SimplifierExamples.entry_yellow_wt
         :: l2 ++ GeneEditingProcessor.snp_row SimplifierExamples.group_yellow_wt
                    SimplifierExamples.entry_yellow_wt
         :: l3.
Proof.
  refine (proj1 (SimplifierProps.C10_wt_and_highlighted_emitted_twice
                   SimplifierExamples.group_yellow_wt
                   SimplifierExamples.entry_yellow_wt _ _ _)).
  - vm_compute. left. reflexivity.
  - vm_compute. reflexivity.
  - vm_compute. reflexivity.
Defined.

(** Without red text the window starts 10 characters before the lower-case
    base at index 10. *)
Lemma C6_window_of_unmarked_row :
  GeneEditingProcessor._extract_red_bases_from_sequence
    (GeneEditingProcessor.SequenceEntry.full_sequence
       (GeneEditingProcessor.parsed_entry
          (map GeneEditingProcessor.row_value
               ExtractionExamples.cells_without_red) 2
          "001-refGmACC1HiTom" "GmACC1HiTom" true "yellow"
          ExtractionExamples.cells_without_red))
    ExtractionExamples.cells_without_red
  = ("AAAATGGAGAtACTAGAGGG", 0%Z, 20%Z).
Proof.
  destruct (ExtractionProps.C6_red_text_else_lowercase_window
              (map GeneEditingProcessor.row_value
                   ExtractionExamples.cells_without_red) 2
              "001-refGmACC1HiTom" "GmACC1HiTom" true "yellow"
              ExtractionExamples.cells_without_red)
    as (_ & _ & _ & _ & H).
  destruct H as [Heq _]; [vm_compute; reflexivity..|].
  rewrite Heq. vm_compute. reflexivity.
Defined.

(** [elements] is an enumeration of every set. *)
Lemma standard_enumeration (X : gset string) : elements X ≡ₚ elements X.
Proof. reflexivity. Defined.

(** With the standard enumeration: the rejected row of
    [sheet_wrong_origin] is printed and not reported. *)
Lemma C1_wrong_origin_unreported :
  MutationHighlighter.error_mutations
    (MutationHighlighter.process_file MutationHighlighter.default_target
       elements sheet_wrong_origin) = []
  /\ MutationHighlighter.printed
       (MutationHighlighter.process_file MutationHighlighter.default_target
          elements sheet_wrong_origin)
     = [ (3%nat, MutationHighlighter.WrongWtBase "C->T" "G->T" 1
                   "G"%char "C"%char) ].
Proof.
  destruct (HighlighterClaims.C1_rejected_candidate_missing_from_error_details
              elements standard_enumeration)
    as (_ & _ & _ & H).
  cbv zeta in H. destruct H as (_ & _ & Hp & He & _).
  split; assumption.
Defined.

(** The verifier on the candidate of [sheet_correct]. *)
Lemma C2_lowercase_t_verified :
  VerifierProps.status_of
    (MutationHighlighter._verify_mutation_with_wt wt_sequence
       (variant_at_6 "t") "C->T" (4, 24)%Z) = "correct".
Proof.
  destruct (HighlighterClaims.C2_verifier_classifies_by_observed_transitions
              wt_sequence (variant_at_6 "t") "C->T" (4, 24)%Z
              "C"%char "T"%char elements)
    as (_ & Hcorrect & _).
  - discriminate.
  - discriminate.
  - cbn. lia.
  - vm_compute. discriminate.
  - vm_compute. discriminate.
  - vm_compute. reflexivity.
  - exact standard_enumeration.
  - cbv zeta in Hcorrect. apply Hcorrect.
    exists (MutationHighlighter.mkObserved 6 "C"%char "T"%char).
    split; [vm_compute; left; reflexivity|split; reflexivity].
Defined.

(** With the standard enumeration: the candidate row of
    [sheet_wrong_base] fails the position check and is written back as it
    is, and nothing is printed for it. *)
Lemma C3_lowercase_a_left_alone :
  MutationHighlighter.output_sheet
    (MutationHighlighter.process_file MutationHighlighter.default_target
       elements sheet_wrong_base) = sheet_wrong_base
  /\ MutationHighlighter.printed
       (MutationHighlighter.process_file MutationHighlighter.default_target
          elements sheet_wrong_base) = [].
Proof.
  destruct (HighlighterClaims.C3_wrong_base_rejected_before_verification
              elements standard_enumeration)
    as (_ & _ & _ & _ & H & _).
  cbv zeta in H. destruct H as (_ & _ & Hp & _ & _ & Ho).
  split; assumption.
Defined.

End Witnesses.

(** * Further properties of the two modules *)

(** ** More on strings *)

Module PyStrFacts.
Import PyStr PyStrProps.

Lemma chars_inj (s t : string) : chars s = chars t -> s = t.
Proof.
  intros H. rewrite <- (string_of_list_ascii_of_string s),
    <- (string_of_list_ascii_of_string t). unfold chars in H. now rewrite H.
Qed.

Lemma chars_append (s t : string) : chars (s +:+ t) = chars s ++ chars t.
Proof.
  unfold chars. induction s as [|c s IH]; [reflexivity|].
  change (String c s +:+ t) with (String c (s +:+ t)). cbn. now rewrite IH.
Qed.

Lemma append_empty_r (s : string) : s +:+ "" = s.
Proof.
  induction s as [|c s IH]; [reflexivity|].
  change (String c s +:+ "") with (String c (s +:+ "")). now rewrite IH.
Qed.

Lemma len_append (s t : string) : len (s +:+ t) = (len s + len t)%Z.
Proof.
  unfold len.
  rewrite (string_length_chars (s +:+ t)), chars_append, length_app,
    !length_chars. lia.
Qed.

Lemma len_slice (s : string) (a b : Z) :
  (0 <= a)%Z -> (a <= b)%Z -> (b <= len s)%Z -> len (slice s a b) = (b - a)%Z.
Proof. intros. unfold len at 1. rewrite length_slice by assumption. lia. Qed.

(** A string is its three slices around a window. *)
Lemma slice_three (s : string) (a b : Z) :
  (0 <= a)%Z -> (a <= b)%Z -> (b <= len s)%Z ->
  slice_to s a +:+ slice s a b +:+ slice_from s b = s.
Proof.
  intros Ha Hab Hb. apply chars_inj. unfold slice_to, slice_from.
  pose proof (len_nonneg s).
  rewrite !chars_append, !chars_slice by lia.
  assert (Hl : length (chars s) = Z.to_nat (len s))
    by (rewrite length_chars; unfold len; lia).
  rewrite Z.sub_0_r. change (Z.to_nat 0) with 0%nat. rewrite drop_0.
  rewrite (take_ge (drop (Z.to_nat b) (chars s)))
    by (rewrite length_drop; lia).
  replace (Z.to_nat b) with (Z.to_nat a + Z.to_nat (b - a))%nat by lia.
  rewrite <- drop_drop, take_drop, take_drop. reflexivity.
Qed.

Lemma slice_empty_window (s : string) (a : Z) :
  (0 <= a)%Z -> (a <= len s)%Z -> slice s a a = "".
Proof.
  intros Ha Hb. apply chars_inj. rewrite chars_slice by lia.
  rewrite Z.sub_diag. reflexivity.
Qed.

Lemma nonempty_len (s : string) : s <> "" <-> (0 < len s)%Z.
Proof.
  unfold len. destruct s; cbn; split; intros; try lia; congruence.
Qed.

End PyStrFacts.

(** ** Writing the red window and reading it back *)

Module RoundTripProps.
Import PyStrProps PyStrFacts GeneEditingProcessor.

Lemma red_font_is_red : _is_red_color "FF0000" = true.
Proof. vm_compute. reflexivity. Qed.

Lemma black_font_is_not_red : _is_red_color "000000" = false.
Proof. vm_compute. reflexivity. Qed.

Lemma scan_black_part (st : red_scan) (t : string) :
  scan_part st (TextBlock (Some "000000") t)
  = mkScan (current_pos st + PyStr.len t) (red_start st) (red_text_parts st).
Proof.
  unfold scan_part, part_is_red. rewrite black_font_is_not_red.
  rewrite andb_false_r. cbn [andb part_text].
  destruct (String.eqb_spec t "") as [->|_]; cbn [negb].
  - unfold PyStr.len. cbn [String.length Z.of_nat]. reflexivity.
  - reflexivity.
Qed.

Lemma scan_red_part (st : red_scan) (t : string) :
  t <> "" ->
  scan_part st (TextBlock (Some "FF0000") t)
  = mkScan (current_pos st + PyStr.len t)
           (if (red_start st =? -1)%Z then current_pos st else red_start st)
           (red_text_parts st ++ [t]).
Proof.
  intros Ht. unfold scan_part, part_is_red. rewrite red_font_is_red.
  cbn [part_text]. destruct (String.eqb_spec t ""); [contradiction|].
  rewrite andb_true_r. reflexivity.
Qed.

(** The cell written by [_apply_red_font_to_20bp] for a non-empty window
    inside the sequence keeps the text of the sequence, and
    [_extract_red_from_cell_with_position] reads back exactly the window
    and its start offset. *)
Theorem red_window_round_trip (sequence : string) (start end_ : Z)
    (fill font : option string) (format : string)
    (Hstart : (0 <= start)%Z) (Hwin : (start < end_)%Z)
    (Hend : (end_ <= PyStr.len sequence)%Z) :
  exists parts,
    MutationHighlighter._apply_red_font_to_20bp sequence (start, end_)
    = Some parts
    /\ py_str (VRich parts) = sequence
    /\ _extract_red_from_cell_with_position
         (mkCell (VRich parts) fill font format)
       = (PyStr.slice sequence start end_, start).
Proof.
  assert (Hne : sequence <> "") by (apply nonempty_len; lia).
  assert (Hw : PyStr.slice sequence start end_ <> "").
  { apply nonempty_len. rewrite len_slice by lia. lia. }
  pose proof (slice_three sequence start end_ Hstart ltac:(lia) Hend) as H3.
  unfold MutationHighlighter._apply_red_font_to_20bp.
  destruct (String.eqb_spec sequence ""); [contradiction|].
  destruct (Z.ltb_spec start 0); [lia|].
  destruct (Z.gtb_spec end_ (PyStr.len sequence)); [lia|]. cbn [orb].
  eexists. split; [reflexivity|].
  unfold _extract_red_from_cell_with_position. cbn [value].
  assert (Hpre : PyStr.len (PyStr.slice_to sequence start) = start)
    by (unfold PyStr.slice_to; rewrite len_slice by lia; lia).
  destruct (Z.gtb_spec start 0) as [Hs|Hs];
    destruct (Z.ltb_spec end_ (PyStr.len sequence)) as [He|He];
    cbn [app py_str map part_text fold_left];
    rewrite ?scan_black_part, ?(scan_red_part _ _ Hw), ?scan_black_part;
    cbn [current_pos red_start red_text_parts app Z.eqb Pos.eqb];
    unfold PyStr.join; cbn [fold_right]; rewrite ?append_empty_r, ?Hpre.
  - split; [exact H3|]. reflexivity.
  - split; [|reflexivity].
    assert (PyStr.slice_from sequence end_ = "") as Hz
      by (unfold PyStr.slice_from;
          replace end_ with (PyStr.len sequence) by lia;
          apply slice_empty_window; lia).
    rewrite Hz, append_empty_r in H3. exact H3.
  - assert (start = 0%Z) as -> by lia. split; [|reflexivity].
    unfold PyStr.slice_to in H3. rewrite slice_empty_window in H3 by lia.
    exact H3.
  - assert (start = 0%Z) as -> by lia. split; [|reflexivity].
    assert (PyStr.slice_from sequence end_ = "") as Hz
      by (unfold PyStr.slice_from;
          replace end_ with (PyStr.len sequence) by lia;
          apply slice_empty_window; lia).
    unfold PyStr.slice_to in H3.
    rewrite slice_empty_window, Hz, append_empty_r in H3 by lia.
    exact H3.
Qed.

End RoundTripProps.

(** ** One row of the highlighter *)

Module StepProps.
Import MutationHighlighter PyStrProps VerifierProps ProcessProps.

(** The row is a wild-type row whose H text contains the target. *)
Definition anchors (target : string) (r : row) : bool :=
  String.eqb (stripped_if_truthy (map value r) 3) "WT"
  && String.eqb (stripped_if_truthy (map value r) 4) "WT"
  && (fst (_find_target_sequence_position target
             (stripped_if_truthy (map value r) 7)) >=? 0)%Z.

Definition is_header (r : row) : bool :=
  fst (_is_sequence_header (map value r)).

(** What one row does to the state: a header row resets the group, a
    highlighted row adds one result, one used code and one rewritten row,
    and every other row is written back as it is. *)
Lemma process_row_cases (target : string)
    (set_iter : gset string -> list string) (st : state) (i : nat) (r : row) :
  let st' := process_row target set_iter st i r in
  let h := stripped_if_truthy (map value r) 7 in
  (is_header r = true
   /\ highlight_results st' = highlight_results st
   /\ ws st' = ws st ++ [r]
   /\ current_highlighted_mutations st' = ∅
   /\ current_has_target st' = false)
  \/ (is_header r = false
      /\ highlight_results st' = highlight_results st
      /\ ws st' = ws st ++ [r]
      /\ current_highlighted_mutations st' = current_highlighted_mutations st
      /\ ((current_has_target st' = current_has_target st
           /\ current_target_pos st' = current_target_pos st
           /\ current_wt_sequence st' = current_wt_sequence st)
          \/ (anchors target r = true
              /\ current_has_target st' = true
              /\ current_wt_sequence st' = h
              /\ current_target_pos st'
                 = _find_target_sequence_position target h)))
  \/ (is_header r = false
      /\ current_has_target st = true
      /\ exists m color fill vs am vd,
           pick_mutation (set_iter (row_codes r))
             (current_highlighted_mutations st) h (current_target_pos st)
           = Some (m, color)
           /\ _verify_mutation_with_wt (current_wt_sequence st) h m
                (current_target_pos st) = (vs, am, vd)
           /\ assoc color HIGHLIGHT_COLORS = Some fill
           /\ highlight_results st'
              = highlight_results st
                ++ [HighlightResult.mk i
                      (match current_seq_id st with
                       | Some s => s
                       | None => ""
                       end)
                      m color (stripped_if_truthy (map value r) 5)
                      (stripped_if_truthy (map value r) 6) vs am vd]
           /\ ws st' = ws st ++ [highlight_row r fill h (current_target_pos st)]
           /\ current_highlighted_mutations st'
              = {[m]} ∪ current_highlighted_mutations st
           /\ current_has_target st' = true
           /\ current_target_pos st' = current_target_pos st
           /\ current_wt_sequence st' = current_wt_sequence st).
Proof.
  cbv zeta. unfold process_row, is_header, _get_mutation_intersection.
  fold (row_codes r). cbv zeta.
  destruct (_is_sequence_header (map value r)) as [hd sid] eqn:Hhd.
  cbn [fst]. destruct hd.
  { left. cbn. auto. }
  destruct (all_empty (map value r)).
  { right; left. cbn. auto 10. }
  destruct (String.eqb (stripped_if_truthy (map value r) 3) "WT"
            && String.eqb (stripped_if_truthy (map value r) 4) "WT") eqn:Hwt.
  { destruct (fst (_find_target_sequence_position target
                     (stripped_if_truthy (map value r) 7)) >=? 0)%Z eqn:Hpos.
    - right; left. cbn. repeat split; auto. right.
      unfold anchors. rewrite Hwt, Hpos. auto.
    - right; left. cbn. auto 10. }
  destruct (negb (current_has_target st)) eqn:Hn.
  { right; left. cbn. auto 10. }
  apply negb_false_iff in Hn.
  assert (Hplain :
    is_header r = false ->
    false = false
    /\ highlight_results (keep_row st r) = highlight_results st
    /\ ws (keep_row st r) = ws st ++ [r]
    /\ current_highlighted_mutations (keep_row st r)
       = current_highlighted_mutations st
    /\ ((current_has_target (keep_row st r) = current_has_target st
         /\ current_target_pos (keep_row st r) = current_target_pos st
         /\ current_wt_sequence (keep_row st r) = current_wt_sequence st)
        \/ (anchors target r = true
            /\ current_has_target (keep_row st r) = true
            /\ current_wt_sequence (keep_row st r)
               = stripped_if_truthy (map value r) 7
            /\ current_target_pos (keep_row st r)
               = _find_target_sequence_position target
                   (stripped_if_truthy (map value r) 7)))).
  { intros _. cbn. auto 10. }
  unfold is_header in Hplain. rewrite Hhd in Hplain. specialize (Hplain eq_refl).
  destruct ((String.eqb (stripped_if_truthy (map value r) 5) "-"
             || String.eqb (stripped_if_truthy (map value r) 5) "")
            && (String.eqb (stripped_if_truthy (map value r) 6) "-"
                || String.eqb (stripped_if_truthy (map value r) 6) "")).
  { right; left. exact Hplain. }
  assert (Hrest :
    forall X : state,
      X = match pick_mutation (set_iter (row_codes r))
                  (current_highlighted_mutations st)
                  (stripped_if_truthy (map value r) 7)
                  (current_target_pos st) with
          | None => keep_row st r
          | Some (matched_mutation, highlight_color) =>
              let '(verify_status, actual_mut, verify_detail) :=
                _verify_mutation_with_wt (current_wt_sequence st)
                  (stripped_if_truthy (map value r) 7)
                  matched_mutation (current_target_pos st) in
              if String.eqb verify_status "error" then
                mkState (current_seq_id st) (current_has_target st)
                        (current_target_pos st)
                        (current_highlighted_mutations st)
                        (current_wt_sequence st) (highlight_results st)
                        (ws st ++ [r])
                        (skipped st ++ [(i, verify_detail)])
              else
                match assoc highlight_color HIGHLIGHT_COLORS with
                | Some fill =>
                    mkState (current_seq_id st) (current_has_target st)
                      (current_target_pos st)
                      ({[matched_mutation]} ∪ current_highlighted_mutations st)
                      (current_wt_sequence st)
                      (highlight_results st ++
                         [HighlightResult.mk i
                            (match current_seq_id st with
                             | Some s => s
                             | None => ""
                             end)
                            matched_mutation highlight_color
                            (stripped_if_truthy (map value r) 5)
                            (stripped_if_truthy (map value r) 6)
                            verify_status actual_mut verify_detail])
                      (ws st ++ [highlight_row r fill
                                   (stripped_if_truthy (map value r) 7)
                                   (current_target_pos st)])
                      (skipped st)
                | None => keep_row st r
                end
          end ->
      (false = true /\ highlight_results X = highlight_results st
       /\ ws X = ws st ++ [r] /\ current_highlighted_mutations X = ∅
       /\ current_has_target X = false)
      \/ (false = false
          /\ highlight_results X = highlight_results st
          /\ ws X = ws st ++ [r]
          /\ current_highlighted_mutations X = current_highlighted_mutations st
          /\ ((current_has_target X = current_has_target st
               /\ current_target_pos X = current_target_pos st
               /\ current_wt_sequence X = current_wt_sequence st)
              \/ (anchors target r = true
                  /\ current_has_target X = true
                  /\ current_wt_sequence X
                     = stripped_if_truthy (map value r) 7
                  /\ current_target_pos X
                     = _find_target_sequence_position target
                         (stripped_if_truthy (map value r) 7))))
      \/ (false = false /\ current_has_target st = true
          /\ exists m color fill vs am vd,
               pick_mutation (set_iter (row_codes r))
                 (current_highlighted_mutations st)
                 (stripped_if_truthy (map value r) 7) (current_target_pos st)
               = Some (m, color)
               /\ _verify_mutation_with_wt (current_wt_sequence st)
                    (stripped_if_truthy (map value r) 7) m
                    (current_target_pos st) = (vs, am, vd)
               /\ assoc color HIGHLIGHT_COLORS = Some fill
               /\ highlight_results X
                  = highlight_results st
                    ++ [HighlightResult.mk i
                          (match current_seq_id st with
                           | Some s => s
                           | None => ""
                           end)
                          m color (stripped_if_truthy (map value r) 5)
                          (stripped_if_truthy (map value r) 6) vs am vd]
               /\ ws X = ws st ++ [highlight_row r fill
                                     (stripped_if_truthy (map value r) 7)
                                     (current_target_pos st)]
               /\ current_highlighted_mutations X
                  = {[m]} ∪ current_highlighted_mutations st
               /\ current_has_target X = true
               /\ current_target_pos X = current_target_pos st
               /\ current_wt_sequence X = current_wt_sequence st)).
  { intros X ->.
    destruct (pick_mutation _ _ _ _) as [[m color]|] eqn:Hpick;
      [|right; left; exact Hplain].
    destruct (_verify_mutation_with_wt _ _ _ _) as [[vs am] vd] eqn:Hver.
    destruct (String.eqb vs "error").
    { right; left. cbn. auto 10. }
    destruct (assoc color HIGHLIGHT_COLORS) as [fill|] eqn:Hfill;
      [|right; left; exact Hplain].
    right; right. split; [reflexivity|]. split; [exact Hn|].
    exists m, color, fill, vs, am, vd. cbn. repeat split; auto. }
  destruct (_parse_mutations_from_column (stripped_if_truthy (map value r) 5));
    destruct (_parse_mutations_from_column (stripped_if_truthy (map value r) 6));
    first [ right; left; exact Hplain | exact (Hrest _ eq_refl) ].
Qed.

End StepProps.

(** ** The whole worksheet through the highlighter *)

Module FileProps.
Import MutationHighlighter PyStrProps VerifierProps ProcessProps StepProps.

Lemma process_rows_app (target : string) (set_iter : gset string -> list string)
    (a b : sheet) (i : nat) (st : state) :
  process_rows target set_iter (a ++ b) i st
  = process_rows target set_iter b (i + length a)
      (process_rows target set_iter a i st).
Proof.
  revert i st. induction a as [|r a IH]; intros i st; cbn.
  - now rewrite Nat.add_0_r.
  - rewrite IH. f_equal. lia.
Qed.

Lemma unanchored_rows (target : string) (set_iter : gset string -> list string)
    (rows : sheet) (i : nat) (st : state) :
  current_has_target st = false ->
  Forall (fun r => anchors target r = false) rows ->
  highlight_results (process_rows target set_iter rows i st)
  = highlight_results st
  /\ ws (process_rows target set_iter rows i st) = ws st ++ rows
  /\ current_has_target (process_rows target set_iter rows i st) = false.
Proof.
  intros Hst Hall. revert i st Hst.
  induction Hall as [|r rows Hr _ IH]; intros i st Hst; cbn.
  - now rewrite app_nil_r.
  - pose proof (process_row_cases target set_iter st i r) as Hc.
    cbv zeta in Hc.
    assert (Hstep :
      highlight_results (process_row target set_iter st i r)
      = highlight_results st
      /\ ws (process_row target set_iter st i r) = ws st ++ [r]
      /\ current_has_target (process_row target set_iter st i r) = false).
    { destruct Hc as [(_ & H1 & H2 & _ & H4)
                     |[(_ & H1 & H2 & _ & H4)|(_ & Hx & _)]].
      - auto.
      - repeat split; auto.
        destruct H4 as [(H4 & _)|(H4 & _)]; congruence.
      - congruence. }
    destruct Hstep as (H1 & H2 & H3).
    destruct (IH (S i) _ H3) as (I1 & I2 & I3).
    rewrite I1, I2, H1, H2, <- app_assoc. auto.
Qed.

(** Without a wild-type row that contains the target, nothing is
    highlighted: no result is reported and the worksheet is written back
    as it was read. *)
Theorem no_anchor_no_highlight (target : string)
    (set_iter : gset string -> list string) (input : sheet)
    (Hnone : Forall (fun r => anchors target r = false) input) :
  highlighted_rows (process_file target set_iter input) = []
  /\ total_highlighted (process_file target set_iter input) = 0%nat
  /\ output_sheet (process_file target set_iter input) = input.
Proof.
  unfold process_file. cbn [highlighted_rows total_highlighted output_sheet].
  destruct (unanchored_rows target set_iter input 1 initial_state eq_refl Hnone)
    as (H1 & H2 & _).
  rewrite H1, H2. cbn. auto.
Qed.

(** *** The statistics of the report *)

Definition count_by (f : HighlightResult.t -> string) (k : string)
    (results : list HighlightResult.t) : nat :=
  length (List.filter (fun res => String.eqb (f res) k) results).

Lemma bump_lookup (k c : string) (m : gmap string nat) :
  default 0%nat (bump k m !! c)
  = (default 0%nat (m !! c) + (if String.eqb k c then 1 else 0))%nat.
Proof.
  unfold bump. destruct (String.eqb_spec k c) as [->|Hne].
  - rewrite lookup_insert_eq. cbn. lia.
  - rewrite lookup_insert_ne by assumption. lia.
Qed.

Lemma fold_counts (results : list HighlightResult.t) (acc : stats) (c : string) :
  default 0%nat (color_stats (fold_left count_result results acc) !! c)
  = (default 0%nat (color_stats acc !! c)
     + count_by HighlightResult.highlight_color c results)%nat
  /\ default 0%nat (mutation_stats (fold_left count_result results acc) !! c)
     = (default 0%nat (mutation_stats acc !! c)
        + count_by HighlightResult.mutation_type c results)%nat.
Proof.
  revert acc. induction results as [|res results IH]; intros acc;
    cbn [fold_left].
  - unfold count_by. cbn. split; lia.
  - destruct (IH (count_result acc res)) as [-> ->].
    unfold count_result. cbn [color_stats mutation_stats].
    rewrite !bump_lookup. unfold count_by. cbn [List.filter].
    split.
    + destruct (String.eqb (HighlightResult.highlight_color res) c);
        cbn [length]; lia.
    + destruct (String.eqb (HighlightResult.mutation_type res) c);
        cbn [length]; lia.
Qed.

Lemma fold_verification (results : list HighlightResult.t) (acc : stats) (n : nat) :
  Forall (fun res => HighlightResult.verification_status res = "correct") results ->
  verification_stats acc
  = <["correct" := n]> (<["error" := 0%nat]> (<["unknown" := 0%nat]> ∅)) ->
  verification_stats (fold_left count_result results acc)
  = <["correct" := (n + length results)%nat]>
      (<["error" := 0%nat]> (<["unknown" := 0%nat]> ∅)).
Proof.
  intros Hall. revert acc n.
  induction Hall as [|res results Hres _ IH]; intros acc n Hacc;
    cbn [fold_left length].
  - now rewrite Nat.add_0_r.
  - rewrite (IH (count_result acc res) (S n)).
    + f_equal. lia.
    + unfold count_result. cbn [verification_stats]. rewrite Hres, Hacc.
      rewrite lookup_insert_eq. now rewrite insert_insert_eq.
Qed.

(** The report counts what it lists: per colour and per code the number of
    highlighted rows with it, and in the verification statistics every
    highlighted row under [correct], none under [error] or [unknown]. *)
Theorem report_statistics (target : string)
    (set_iter : gset string -> list string) (input : sheet) :
  let rep := process_file target set_iter input in
  total_highlighted rep = length (highlighted_rows rep)
  /\ (forall c, default 0%nat (color_statistics rep !! c)
                = count_by HighlightResult.highlight_color c (highlighted_rows rep))
  /\ (forall c, default 0%nat (mutation_statistics rep !! c)
                = count_by HighlightResult.mutation_type c (highlighted_rows rep))
  /\ verification_statistics rep !! "correct" = Some (total_highlighted rep)
  /\ verification_statistics rep !! "error" = Some 0%nat
  /\ verification_statistics rep !! "unknown" = Some 0%nat
  /\ (forall k, k <> "correct" -> k <> "error" -> k <> "unknown" ->
                verification_statistics rep !! k = None).
Proof.
  cbv zeta.
  pose proof (highlighted_all_correct target set_iter input) as Hall.
  unfold process_file in *.
  cbn [total_highlighted highlighted_rows color_statistics mutation_statistics
       verification_statistics] in *.
  set (results := highlight_results _) in *.
  split; [reflexivity|].
  split.
  { intros c. destruct (fold_counts results initial_stats c) as [-> _].
    cbn. reflexivity. }
  split.
  { intros c. destruct (fold_counts results initial_stats c) as [_ ->].
    cbn. reflexivity. }
  rewrite (fold_verification results initial_stats 0 Hall eq_refl).
  cbn [Nat.add].
  split; [apply lookup_insert_eq|].
  split; [rewrite lookup_insert_ne by discriminate; apply lookup_insert_eq|].
  split.
  { rewrite !lookup_insert_ne by discriminate. apply lookup_insert_eq. }
  intros k H1 H2 H3. rewrite !lookup_insert_ne by congruence.
  apply lookup_empty.
Qed.

(** *** The rows written back *)

Lemma nth_error_insert_ne {A : Type} (l : list A) (i j : nat) (x : A) :
  i <> j -> nth_error (<[i:=x]> l) j = nth_error l j.
Proof.
  revert i j. induction l as [|a l IH]; intros [|i] [|j] H; cbn;
    try reflexivity; try congruence.
  apply IH. congruence.
Qed.

Lemma map_list_insert {A B : Type} (f : A -> B) (l : list A) (i : nat) (x : A) :
  map f (<[i:=x]> l) = <[i:=f x]> (map f l).
Proof.
  revert i. induction l as [|a l IH]; intros [|i]; cbn; try reflexivity.
  now rewrite IH.
Qed.

Lemma list_insert_same {A : Type} (l : list A) (i : nat) (x : A) :
  nth_error l i = Some x -> <[i:=x]> l = l.
Proof.
  revert i. induction l as [|a l IH]; intros [|i]; cbn; try discriminate.
  - now intros [= ->].
  - intros H. now rewrite IH.
Qed.

Definition run (target : string) (set_iter : gset string -> list string)
    (rows : sheet) : state :=
  process_rows target set_iter rows 1 initial_state.

Lemma run_snoc (target : string) (set_iter : gset string -> list string)
    (pre : sheet) (r : row) :
  run target set_iter (pre ++ [r])
  = process_row target set_iter (run target set_iter pre) (S (length pre)) r.
Proof. unfold run. rewrite process_rows_app. reflexivity. Qed.

Lemma highlight_row_facts (r : row) (fill h : string) (pos : Z * Z) :
  length (highlight_row r fill h pos) = length r
  /\ Forall (fun c => fill_rgb c = Some fill) (highlight_row r fill h pos)
  /\ map font_rgb (highlight_row r fill h pos) = map font_rgb r
  /\ (forall c, c <> 7%nat ->
                nth_error (map value (highlight_row r fill h pos)) c
                = nth_error (map value r) c).
Proof.
  unfold highlight_row.
  set (filled := map (fun c => mkCell (value c) (Some fill) (font_rgb c)
                                      (number_format c)) r).
  assert (Hlen : length filled = length r) by apply length_map.
  assert (Hfill : Forall (fun c => fill_rgb c = Some fill) filled).
  { unfold filled. apply List.Forall_forall. intros c Hc.
    apply in_map_iff in Hc. destruct Hc as (c0 & <- & _). reflexivity. }
  assert (Hfont : map font_rgb filled = map font_rgb r).
  { unfold filled. rewrite map_map. reflexivity. }
  assert (Hval : map value filled = map value r).
  { unfold filled. rewrite map_map. reflexivity. }
  destruct (_apply_red_font_to_20bp h pos) as [parts|];
    [|rewrite Hval; auto].
  destruct (nth_error filled 7) as [c7|] eqn:H7; [|rewrite Hval; auto].
  split; [rewrite length_insert; exact Hlen|].
  split.
  { apply Forall_insert; [exact Hfill|]. cbn.
    rewrite List.Forall_forall in Hfill. apply Hfill.
    eapply nth_error_In. exact H7. }
  split.
  { rewrite <- Hfont, map_list_insert. cbn [font_rgb].
    apply list_insert_same. rewrite nth_error_map, H7. reflexivity. }
  intros c Hc. rewrite <- Hval, map_list_insert.
  apply nth_error_insert_ne. congruence.
Qed.

(** A result is reported for the row with number [S k]. *)
Definition reported (results : list HighlightResult.t) (k : nat) : Prop :=
  exists res, In res results /\ HighlightResult.row_index res = S k.

Definition rows_written (pre : sheet) (st : state) : Prop :=
  length (ws st) = length pre
  /\ (forall res, In res (highlight_results st) ->
                  (1 <= HighlightResult.row_index res <= length pre)%nat)
  /\ (forall k r, nth_error pre k = Some r ->
        (nth_error (ws st) k = Some r /\ ~ reported (highlight_results st) k)
        \/ (exists res fill pos,
              In res (highlight_results st)
              /\ HighlightResult.row_index res = S k
              /\ assoc (HighlightResult.highlight_color res) HIGHLIGHT_COLORS
                 = Some fill
              /\ nth_error (ws st) k
                 = Some (highlight_row r fill
                           (stripped_if_truthy (map value r) 7) pos))).

Lemma rows_written_run (target : string)
    (set_iter : gset string -> list string) (input : sheet) :
  rows_written input (run target set_iter input).
Proof.
  induction input as [|r pre IH] using rev_ind.
  - unfold run, rows_written. cbn. split; [reflexivity|].
    split; [intros res []|]. intros k r Hk. destruct k; discriminate.
  - rewrite run_snoc. set (st := run target set_iter pre) in *.
    destruct IH as (Hlen & Hidx & Hrows).
    pose proof (process_row_cases target set_iter st (S (length pre)) r) as Hc.
    cbv zeta in Hc.
    set (st' := process_row target set_iter st (S (length pre)) r) in *.
    assert (Hold : forall k r0, nth_error (pre ++ [r]) k = Some r0 ->
                     (k < length pre)%nat /\ nth_error pre k = Some r0
                     \/ k = length pre /\ r0 = r).
    { intros k r0 Hk. destruct (Nat.lt_ge_cases k (length pre)) as [Hlt|Hge].
      - left. rewrite nth_error_app1 in Hk by assumption. auto.
      - right. rewrite nth_error_app2 in Hk by assumption.
        destruct (k - length pre)%nat as [|d] eqn:Hd; cbn in Hk.
        + injection Hk as <-. split; [lia|reflexivity].
        + destruct d; discriminate. }
    assert (Hsame :
      highlight_results st' = highlight_results st ->
      ws st' = ws st ++ [r] -> rows_written (pre ++ [r]) st').
    { intros Hres Hws. unfold rows_written. rewrite Hres, Hws, !length_app, Hlen.
      cbn [length]. split; [reflexivity|].
      split; [intros res Hin; specialize (Hidx res Hin); lia|].
      intros k r0 Hk. destruct (Hold k r0 Hk) as [[Hlt Hk']|[-> ->]].
      - rewrite nth_error_app1 by lia. exact (Hrows k r0 Hk').
      - left. split.
        + rewrite nth_error_app2 by lia. rewrite Hlen, Nat.sub_diag. reflexivity.
        + intros (res & Hin & Hi). specialize (Hidx res Hin). lia. }
    destruct Hc as [(_ & H1 & H2 & _)|[(_ & H1 & H2 & _)|(_ & _ & Hex)]];
      [exact (Hsame H1 H2)|exact (Hsame H1 H2)|].
    destruct Hex as (m & color & fill & vs & am & vd & _ & _ & Hfill & Hres & Hws & _).
    unfold rows_written. rewrite Hres, Hws, !length_app, Hlen. cbn [length].
    split; [reflexivity|].
    split.
    { intros res Hin. apply in_app_or in Hin. destruct Hin as [Hin|[<-|[]]].
      - specialize (Hidx res Hin). lia.
      - cbn. lia. }
    intros k r0 Hk. destruct (Hold k r0 Hk) as [[Hlt Hk']|[-> ->]].
    + rewrite nth_error_app1 by lia.
      destruct (Hrows k r0 Hk') as [[Hn Hno]|(res & fl & pos & Hin & Hi & Hf & Hn)].
      * left. split; [exact Hn|]. intros (res & Hin & Hi).
        apply in_app_or in Hin. destruct Hin as [Hin|[<-|[]]].
        -- apply Hno. exists res. auto.
        -- cbn in Hi. lia.
      * right. exists res, fl, pos. repeat split; auto. apply in_or_app. now left.
    + right. eexists _, fill, _. split; [apply in_or_app; right; left; reflexivity|].
      cbn [HighlightResult.row_index HighlightResult.highlight_color].
      repeat split; auto.
      rewrite nth_error_app2 by lia. rewrite Hlen, Nat.sub_diag. reflexivity.
Qed.

(** The worksheet written has the rows of the input, in order: a row for
    which no result is reported is written back unchanged, and a reported
    row keeps its length, its fonts and all its values outside column H,
    and has the fill of its result's colour on every cell. *)
Theorem output_rows_unchanged_or_filled (target : string)
    (set_iter : gset string -> list string) (input : sheet) :
  let rep := process_file target set_iter input in
  length (output_sheet rep) = length input
  /\ (forall res, In res (highlighted_rows rep) ->
                  (1 <= HighlightResult.row_index res <= length input)%nat)
  /\ (forall k r, nth_error input k = Some r ->
        (nth_error (output_sheet rep) k = Some r
         /\ ~ reported (highlighted_rows rep) k)
        \/ (exists res fill r',
              In res (highlighted_rows rep)
              /\ HighlightResult.row_index res = S k
              /\ assoc (HighlightResult.highlight_color res) HIGHLIGHT_COLORS
                 = Some fill
              /\ nth_error (output_sheet rep) k = Some r'
              /\ length r' = length r
              /\ Forall (fun c => fill_rgb c = Some fill) r'
              /\ map font_rgb r' = map font_rgb r
              /\ (forall c, c <> 7%nat ->
                            nth_error (map value r') c
                            = nth_error (map value r) c))).
Proof.
  cbv zeta. destruct (rows_written_run target set_iter input) as (H1 & H2 & H3).
  unfold process_file, run in *. cbn [output_sheet highlighted_rows].
  split; [exact H1|]. split; [exact H2|].
  intros k r Hk. destruct (H3 k r Hk) as [H|(res & fill & pos & Hin & Hi & Hf & Hn)].
  - left. exact H.
  - right.
    exists res, fill,
      (highlight_row r fill (stripped_if_truthy (map value r) 7) pos).
    split; [exact Hin|].
    split; [exact Hi|]. split; [exact Hf|]. split; [exact Hn|].
    apply highlight_row_facts.
Qed.

(** *** No code twice in a group *)

(** Row number [S n] of the worksheet is a header row. *)
Definition header_row (input : sheet) (n : nat) : Prop :=
  exists r, nth_error input n = Some r /\ is_header r = true.

Lemma header_row_snoc (pre : sheet) (r : row) (n : nat) :
  header_row pre n -> header_row (pre ++ [r]) n.
Proof.
  intros (r0 & Hn & Hh). exists r0. split; [|exact Hh].
  rewrite nth_error_app1; [exact Hn|]. apply nth_error_Some. congruence.
Qed.

Lemma header_row_last (pre : sheet) (r : row) :
  is_header r = true -> header_row (pre ++ [r]) (length pre).
Proof.
  intros Hh. exists r. split; [|exact Hh].
  rewrite nth_error_app2 by lia. now rewrite Nat.sub_diag.
Qed.

Definition codes_once (pre : sheet) (st : state) : Prop :=
  (forall res, In res (highlight_results st) ->
      (HighlightResult.row_index res <= length pre)%nat)
  /\ (forall res, In res (highlight_results st) ->
        HighlightResult.mutation_type res ∈ current_highlighted_mutations st
        \/ exists n, (HighlightResult.row_index res <= n)%nat /\ header_row pre n)
  /\ (forall a b res1 res2,
        (a < b)%nat ->
        nth_error (highlight_results st) a = Some res1 ->
        nth_error (highlight_results st) b = Some res2 ->
        (HighlightResult.row_index res1 < HighlightResult.row_index res2)%nat
        /\ (HighlightResult.mutation_type res1 = HighlightResult.mutation_type res2 ->
            exists n, (HighlightResult.row_index res1 <= n)%nat
                      /\ (S n < HighlightResult.row_index res2)%nat
                      /\ header_row pre n)).

Lemma codes_once_run (target : string)
    (set_iter : gset string -> list string) (input : sheet) :
  codes_once input (run target set_iter input).
Proof.
  induction input as [|r pre IH] using rev_ind.
  - unfold run, codes_once. cbn. split; [intros res []|].
    split; [intros res []|]. intros a b res1 res2 _ H. destruct a; discriminate.
  - rewrite run_snoc. set (st := run target set_iter pre) in *.
    destruct IH as (Hidx & Hused & Hpair).
    pose proof (process_row_cases target set_iter st (S (length pre)) r) as Hc.
    cbv zeta in Hc.
    set (st' := process_row target set_iter st (S (length pre)) r) in *.
    assert (Hpair' : forall a b res1 res2,
      (a < b)%nat ->
      nth_error (highlight_results st) a = Some res1 ->
      nth_error (highlight_results st) b = Some res2 ->
      (HighlightResult.row_index res1 < HighlightResult.row_index res2)%nat
      /\ (HighlightResult.mutation_type res1 = HighlightResult.mutation_type res2 ->
          exists n, (HighlightResult.row_index res1 <= n)%nat
                    /\ (S n < HighlightResult.row_index res2)%nat
                    /\ header_row (pre ++ [r]) n)).
    { intros a b res1 res2 Hab Ha Hb.
      destruct (Hpair a b res1 res2 Hab Ha Hb) as [Hlt Hsame].
      split; [exact Hlt|]. intros He. destruct (Hsame He) as (n & H1 & H2 & H3).
      exists n. repeat split; auto. now apply header_row_snoc. }
    assert (Hlen : length (pre ++ [r]) = S (length pre))
      by (rewrite length_app; cbn; lia).
    destruct Hc as [(Hh & H1 & _ & H3 & _)
                   |[(_ & H1 & _ & H3 & _)|(_ & _ & Hex)]].
    + (* header row *)
      unfold codes_once. rewrite H1, H3, Hlen.
      split; [intros res Hin; specialize (Hidx res Hin); lia|].
      split; [|exact Hpair'].
      intros res Hin. right. exists (length pre).
      split; [exact (Hidx res Hin)|]. now apply header_row_last.
    + (* a row written back as it is *)
      unfold codes_once. rewrite H1, H3, Hlen.
      split; [intros res Hin; specialize (Hidx res Hin); lia|].
      split; [|exact Hpair'].
      intros res Hin. destruct (Hused res Hin) as [Hu|(n & Hn & Hh)];
        [now left|]. right. exists n. split; [exact Hn|].
      now apply header_row_snoc.
    + (* a highlighted row *)
      destruct Hex as (m & color & fill & vs & am & vd & Hpick & _ & _ & Hres
                       & _ & Hset & _).
      apply pick_mutation_check in Hpick. destruct Hpick as (_ & _ & Hfresh & _).
      unfold codes_once. rewrite Hres, Hset, Hlen.
      split.
      { intros res Hin. apply in_app_or in Hin. destruct Hin as [Hin|[<-|[]]].
        - specialize (Hidx res Hin). lia.
        - cbn. lia. }
      split.
      { intros res Hin. apply in_app_or in Hin. destruct Hin as [Hin|[<-|[]]].
        - destruct (Hused res Hin) as [Hu|(n & Hn & Hh)].
          + left. apply elem_of_union. now right.
          + right. exists n. split; [exact Hn|]. now apply header_row_snoc.
        - left. cbn. apply elem_of_union. left. now apply elem_of_singleton. }
      intros a b res1 res2 Hab Ha Hb.
      assert (Hb' : (b < length (highlight_results st ++ [HighlightResult.mk
                 (S (length pre))
                 (match current_seq_id st with Some s => s | None => "" end)
                 m color (stripped_if_truthy (map value r) 5)
                 (stripped_if_truthy (map value r) 6) vs am vd]))%nat)
        by (apply nth_error_Some; congruence).
      rewrite length_app in Hb'. cbn [length] in Hb'.
      rewrite nth_error_app1 in Ha by lia.
      destruct (Nat.lt_ge_cases b (length (highlight_results st))) as [Hlt|Hge].
      * rewrite nth_error_app1 in Hb by lia. exact (Hpair' a b res1 res2 Hab Ha Hb).
      * rewrite nth_error_app2 in Hb by lia.
        replace (b - length (highlight_results st))%nat with 0%nat in Hb by lia.
        cbn in Hb. injection Hb as <-. cbn [HighlightResult.row_index
                                              HighlightResult.mutation_type].
        assert (Hin1 : In res1 (highlight_results st))
          by (eapply nth_error_In; exact Ha).
        pose proof (Hidx res1 Hin1) as Hi1.
        split; [lia|]. intros He.
        destruct (Hused res1 Hin1) as [Hu|(n & Hn & Hh)].
        -- rewrite He in Hu. contradiction.
        -- exists n. split; [exact Hn|]. split.
           ++ destruct Hh as (r0 & Hr0 & _).
              assert (n < length pre)%nat by (apply nth_error_Some; congruence).
              lia.
           ++ now apply header_row_snoc.
Qed.

(** The results are reported in increasing row order, and two results with
    the same mutation code are separated by a header row: within one group
    a code is highlighted at most once. *)
Theorem same_code_needs_header_between (target : string)
    (set_iter : gset string -> list string) (input : sheet)
    (a b : nat) (res1 res2 : HighlightResult.t)
    (Hab : (a < b)%nat)
    (Ha : nth_error (highlighted_rows (process_file target set_iter input)) a
          = Some res1)
    (Hb : nth_error (highlighted_rows (process_file target set_iter input)) b
          = Some res2) :
  (HighlightResult.row_index res1 < HighlightResult.row_index res2)%nat
  /\ (HighlightResult.mutation_type res1 = HighlightResult.mutation_type res2 ->
      exists n, (HighlightResult.row_index res1 <= n)%nat
                /\ (S n < HighlightResult.row_index res2)%nat
                /\ header_row input n).
Proof.
  destruct (codes_once_run target set_iter input) as (_ & _ & H).
  unfold process_file in Ha, Hb. cbn [highlighted_rows] in Ha, Hb.
  exact (H a b res1 res2 Hab Ha Hb).
Qed.

(** *** What a highlighted row shows *)

Lemma verify_correct_result (wt mut claimed : string) (pos : Z * Z)
    (from to : ascii) (vs am : string) (vd : detail) :
  wt <> "" -> mut <> "" -> (0 <= fst pos)%Z ->
  (snd pos <= PyStr.len wt)%Z -> (snd pos <= PyStr.len mut)%Z ->
  match_mutation (PyStr.upper claimed) = Some (from, to) ->
  _verify_mutation_with_wt wt mut claimed pos = (vs, am, vd) ->
  vs = "correct" ->
  am = mutation_code from to
  /\ claimed_observed (window_transitions wt mut pos) from to.
Proof.
  intros Hwt Hmut Hs He1 He2 Hm Hv Hvs.
  pose proof (status_correct_iff wt mut claimed pos from to
                Hwt Hmut Hs He1 He2 Hm) as Hiff.
  pose proof (verify_unfold wt mut claimed pos from to
                Hwt Hmut Hs He1 He2 Hm) as Hu.
  rewrite Hv in Hiff, Hu. unfold status_of in Hiff. cbn [fst] in Hiff.
  split; [|apply Hiff; exact Hvs].
  destruct (window_transitions wt mut pos) as [|m0 rest];
    [inversion Hu; congruence|].
  destruct (existsb _ _); [inversion Hu; reflexivity|].
  destruct (map _ _); inversion Hu; congruence.
Qed.

(** The result [res] stands for row [S k] of [input]: that row comes after
    an anchoring wild-type row of the same group, and differs from it, at
    some position of the window found there, by the substitution the
    result names. *)
Definition substitution_shown (target : string)
    (set_iter : gset string -> list string) (input : sheet)
    (res : HighlightResult.t) : Prop :=
  exists k r j rj from to,
    HighlightResult.row_index res = S k
    /\ nth_error input k = Some r
    /\ (j < k)%nat /\ nth_error input j = Some rj
    /\ anchors target rj = true
    /\ (forall n, (j < n)%nat -> (n <= k)%nat -> ~ header_row input n)
    /\ In (HighlightResult.mutation_type res) (set_iter (row_codes r))
    /\ _get_highlight_color (HighlightResult.mutation_type res)
       = Some (HighlightResult.highlight_color res)
    /\ match_mutation (PyStr.upper (HighlightResult.mutation_type res))
       = Some (from, to)
    /\ claimed_observed
         (window_transitions (stripped_if_truthy (map value rj) 7)
            (stripped_if_truthy (map value r) 7)
            (_find_target_sequence_position target
               (stripped_if_truthy (map value rj) 7)))
         from to
    /\ HighlightResult.verification_status res = "correct"
    /\ HighlightResult.actual_mutation res = mutation_code from to
    /\ HighlightResult.f_value res = stripped_if_truthy (map value r) 5
    /\ HighlightResult.g_value res = stripped_if_truthy (map value r) 6.

Lemma substitution_shown_snoc (target : string)
    (set_iter : gset string -> list string) (pre : sheet) (x : row)
    (res : HighlightResult.t) :
  substitution_shown target set_iter pre res ->
  substitution_shown target set_iter (pre ++ [x]) res.
Proof.
  intros (k & r & j & rj & from & to & H1 & H2 & H3 & H4 & H5 & H6 & H).
  assert (Hk : (k < length pre)%nat) by (apply nth_error_Some; congruence).
  exists k, r, j, rj, from, to.
  split; [exact H1|]. split; [rewrite nth_error_app1 by lia; exact H2|].
  split; [exact H3|]. split; [rewrite nth_error_app1 by lia; exact H4|].
  split; [exact H5|]. split; [|exact H].
  intros n Hjn Hnk (r0 & Hr0 & Hh). apply (H6 n Hjn Hnk).
  exists r0. split; [|exact Hh]. rewrite nth_error_app1 in Hr0 by lia. exact Hr0.
Qed.

(** The anchor in force: the last anchoring wild-type row, with no header
    row after it. *)
Definition anchor_known (target : string) (pre : sheet) (st : state) : Prop :=
  current_has_target st = true ->
  exists j rj,
    nth_error pre j = Some rj /\ anchors target rj = true
    /\ current_wt_sequence st = stripped_if_truthy (map value rj) 7
    /\ current_target_pos st
       = _find_target_sequence_position target
           (stripped_if_truthy (map value rj) 7)
    /\ forall n, (j < n)%nat -> ~ header_row pre n.

Lemma anchor_known_keep (target : string) (pre : sheet) (r : row)
    (st st' : state) :
  anchor_known target pre st -> is_header r = false ->
  current_has_target st' = current_has_target st ->
  current_target_pos st' = current_target_pos st ->
  current_wt_sequence st' = current_wt_sequence st ->
  anchor_known target (pre ++ [r]) st'.
Proof.
  intros Hk Hnh H1 H2 H3 Ht. rewrite H1 in Ht.
  destruct (Hk Ht) as (j & rj & Hj & Ha & Hw & Hp & Hno).
  assert (Hjl : (j < length pre)%nat) by (apply nth_error_Some; congruence).
  exists j, rj. rewrite nth_error_app1 by lia.
  split; [exact Hj|]. split; [exact Ha|].
  split; [congruence|]. split; [congruence|].
  intros n Hjn (r0 & Hr0 & Hh).
  destruct (Nat.lt_ge_cases n (length pre)) as [Hlt|Hge].
  - rewrite nth_error_app1 in Hr0 by lia. apply (Hno n Hjn). exists r0. auto.
  - rewrite nth_error_app2 in Hr0 by lia.
    destruct (n - length pre)%nat as [|d]; cbn in Hr0.
    + injection Hr0 as <-. congruence.
    + destruct d; discriminate.
Qed.

Lemma sound_run (target : string)
    (set_iter : gset string -> list string) (input : sheet) :
  anchor_known target input (run target set_iter input)
  /\ Forall (substitution_shown target set_iter input)
            (highlight_results (run target set_iter input)).
Proof.
  induction input as [|r pre IH] using rev_ind.
  - unfold run, anchor_known. cbn. split; [discriminate|constructor].
  - pose proof (process_rows_inv target set_iter (pre ++ [r]) 1 initial_state)
      as Hinv'.
    pose proof (process_rows_inv target set_iter pre 1 initial_state) as Hinv.
    fold (run target set_iter (pre ++ [r])) in Hinv'.
    fold (run target set_iter pre) in Hinv.
    assert (Hinit : anchored_ok initial_state /\ all_correct initial_state)
      by (split; [intros H; discriminate H|constructor]).
    specialize (Hinv Hinit). specialize (Hinv' Hinit).
    destruct Hinv as (Hok & _). destruct Hinv' as (_ & Hcorrect').
    rewrite run_snoc in *. set (st := run target set_iter pre) in *.
    destruct IH as (Hanchor & Hsound).
    assert (Hsound' : Forall (substitution_shown target set_iter (pre ++ [r]))
                             (highlight_results st)).
    { eapply Forall_impl; [exact Hsound|].
      intros res. apply substitution_shown_snoc. }
    pose proof (process_row_cases target set_iter st (S (length pre)) r) as Hc.
    cbv zeta in Hc.
    set (st' := process_row target set_iter st (S (length pre)) r) in *.
    destruct Hc as [(Hh & H1 & _ & _ & H4)
                   |[(Hh & H1 & _ & _ & H4)|(Hh & Hst & Hex)]].
    + split; [intros Ht; congruence|]. rewrite H1. exact Hsound'.
    + split; [|rewrite H1; exact Hsound'].
      destruct H4 as [(E1 & E2 & E3)|(Ha & _ & E3 & E2)].
      * exact (anchor_known_keep target pre r st st' Hanchor Hh E1 E2 E3).
      * intros _. exists (length pre), r.
        rewrite nth_error_app2 by lia. rewrite Nat.sub_diag.
        split; [reflexivity|]. split; [exact Ha|].
        split; [exact E3|]. split; [exact E2|].
        intros n Hn (r0 & Hr0 & _).
        assert (n < length (pre ++ [r]))%nat by (apply nth_error_Some; congruence).
        rewrite length_app in H. cbn in H. lia.
    + destruct Hex as (m & color & fill & vs & am & vd & Hpick & Hver & _ & Hres
                       & _ & _ & E1 & E2 & E3).
      split.
      { apply (anchor_known_keep target pre r st st' Hanchor Hh); congruence. }
      rewrite Hres. apply Forall_app. split; [exact Hsound'|].
      constructor; [|constructor].
      unfold all_correct in Hcorrect'. rewrite Hres in Hcorrect'.
      apply Forall_app in Hcorrect'. destruct Hcorrect' as [_ Hnew].
      apply Forall_inv in Hnew. cbn in Hnew.
      destruct (Hanchor Hst) as (j & rj & Hj & Ha & Hw & Hp & Hno).
      destruct (Hok Hst) as (Hwt & Hs0 & Hlen & Hle).
      apply pick_mutation_check in Hpick.
      destruct Hpick as (Hcheck & Hcol & _ & Hin).
      destruct (check_position_true _ _ _ Hcheck)
        as (Hh7 & _ & Hlen7 & from & to & Hm & _).
      destruct (verify_correct_result _ _ _ _ from to _ _ _
                  Hwt Hh7 Hs0 Hlen Hlen7 Hm Hver Hnew) as (Ham & Hobs).
      assert (Hjl : (j < length pre)%nat) by (apply nth_error_Some; congruence).
      exists (length pre), r, j, rj, from, to.
      cbn [HighlightResult.row_index HighlightResult.mutation_type
           HighlightResult.highlight_color HighlightResult.verification_status
           HighlightResult.actual_mutation HighlightResult.f_value
           HighlightResult.g_value].
      split; [reflexivity|].
      split; [rewrite nth_error_app2 by lia; now rewrite Nat.sub_diag|].
      split; [exact Hjl|].
      split; [rewrite nth_error_app1 by lia; exact Hj|].
      split; [exact Ha|].
      split.
      { intros n Hjn Hnk (r0 & Hr0 & Hh0).
        destruct (Nat.lt_ge_cases n (length pre)) as [Hlt|Hge].
        - rewrite nth_error_app1 in Hr0 by lia. apply (Hno n Hjn). exists r0. auto.
        - assert (n = length pre) as -> by lia.
          rewrite nth_error_app2, Nat.sub_diag in Hr0 by lia.
          cbn in Hr0. injection Hr0 as <-. congruence. }
      split; [exact Hin|]. split; [exact Hcol|]. split; [exact Hm|].
      split; [rewrite <- Hp, <- Hw; exact Hobs|].
      auto.
Qed.

(** Every highlighted row really shows the substitution reported for it:
    it follows an anchoring wild-type row of its group, its code is in the
    colour table and was enumerated for the row, and at some window
    position the wild type has the code's first base where the row has its
    second base in lower case. *)
Theorem highlighted_rows_show_their_code (target : string)
    (set_iter : gset string -> list string) (input : sheet) :
  Forall (substitution_shown target set_iter input)
         (highlighted_rows (process_file target set_iter input)).
Proof.
  unfold process_file. cbn [highlighted_rows].
  apply (sound_run target set_iter input).
Qed.

End FileProps.

(** ** Codes, colours and the verifier's edge cases *)

Module CodeProps.
Import MutationHighlighter PyStrProps PyStrFacts VerifierProps ProcessProps.

Lemma upper_base_cases (c : ascii) :
  is_upper_base c = true ->
  c = "A"%char \/ c = "T"%char \/ c = "C"%char \/ c = "G"%char.
Proof.
  unfold is_upper_base, PyStr.char_in. cbn.
  destruct (Ascii.eqb_spec c "A"%char); [auto|].
  destruct (Ascii.eqb_spec c "T"%char); [auto|].
  destruct (Ascii.eqb_spec c "C"%char); [auto|].
  destruct (Ascii.eqb_spec c "G"%char); [auto|].
  discriminate.
Qed.

Lemma code_reparsed (a b : ascii) :
  is_upper_base a = true -> is_upper_base b = true ->
  match_mutation (PyStr.upper (mutation_code a b)) = Some (a, b)
  /\ normalize_code (mutation_code a b) = mutation_code a b.
Proof.
  intros Ha Hb.
  destruct (upper_base_cases a Ha) as [-> | [-> | [-> | ->]]];
    destruct (upper_base_cases b Hb) as [-> | [-> | [-> | ->]]];
    split; vm_compute; reflexivity.
Qed.

Definition well_formed_code (m : string) : Prop :=
  exists a b, is_upper_base a = true /\ is_upper_base b = true
              /\ m = mutation_code a b
              /\ match_mutation (PyStr.upper m) = Some (a, b)
              /\ normalize_code m = m.

Lemma match_loose_bases (part : string) (a b : ascii) :
  match_loose_mutation part = Some (a, b) ->
  is_upper_base a = true /\ is_upper_base b = true.
Proof.
  unfold match_loose_mutation. destruct part as [|a0 rest]; [discriminate|].
  destruct (span is_arrow_char rest) as [arrows tail].
  destruct tail as [|b0 tail']; [discriminate|].
  destruct (is_upper_base a0) eqn:Ha; [|discriminate].
  destruct (negb (String.eqb arrows "")); [|discriminate].
  destruct (is_upper_base b0) eqn:Hb; [|discriminate].
  cbn. intros [= <- <-]. auto.
Qed.

Lemma parse_parts_well_formed (parts acc : list string) :
  Forall well_formed_code acc ->
  Forall well_formed_code (fold_left parse_part parts acc).
Proof.
  revert acc. induction parts as [|p parts IH]; intros acc Hacc; cbn [fold_left];
    [exact Hacc|].
  apply IH. unfold parse_part.
  destruct (String.eqb _ "" || String.eqb _ "-"); [exact Hacc|].
  destruct (match_loose_mutation _) as [[a b]|] eqn:Hm; [|exact Hacc].
  apply Forall_app. split; [exact Hacc|]. constructor; [|constructor].
  destruct (match_loose_bases _ _ _ Hm) as [Ha Hb].
  destruct (code_reparsed a b Ha Hb) as [H1 H2].
  exists a, b. auto.
Qed.

(** Whatever a detail cell holds, every code parsed from it has the form
    [X->Y] with both bases among A, T, C, G, is left as it is by the
    normalisation of the colour lookup, and is read back by the pattern of
    the position check and of the verifier; an empty cell and a cell that
    is a dash give no code. *)
Theorem parsed_codes_well_formed (value : string) :
  Forall well_formed_code (_parse_mutations_from_column value)
  /\ (value = "" \/ PyStr.strip value = "-" ->
      _parse_mutations_from_column value = []).
Proof.
  unfold _parse_mutations_from_column. split.
  - destruct (String.eqb value "" || String.eqb (PyStr.strip value) "-");
      [constructor|]. apply parse_parts_well_formed. constructor.
  - intros [->|H]; [reflexivity|]. rewrite H. cbn.
    now rewrite orb_true_r.
Qed.

Lemma color_lookup_cases (m color : string) :
  _get_highlight_color m = Some color ->
  (normalize_code m = "C->T" /\ color = "yellow")
  \/ (normalize_code m = "A->G" /\ color = "green")
  \/ (normalize_code m = "G->A" /\ color = "orange")
  \/ (normalize_code m = "T->C" /\ color = "orange").
Proof.
  unfold _get_highlight_color. destruct (String.eqb m ""); [discriminate|].
  unfold MUTATION_COLOR_MAP. cbn [List.find fst].
  change (PyStr.upper "C->T") with "C->T".
  change (PyStr.upper "A->G") with "A->G".
  change (PyStr.upper "G->A") with "G->A".
  change (PyStr.upper "T->C") with "T->C".
  destruct (String.eqb_spec "C->T" (normalize_code m)) as [<-|_];
    [intros [= <-]; auto|].
  destruct (String.eqb_spec "A->G" (normalize_code m)) as [<-|_];
    [intros [= <-]; auto|].
  destruct (String.eqb_spec "G->A" (normalize_code m)) as [<-|_];
    [intros [= <-]; auto 6|].
  destruct (String.eqb_spec "T->C" (normalize_code m)) as [<-|_];
    [intros [= <-]; auto 6|].
  discriminate.
Qed.

(** The colour lookup answers only for the four codes of the table, read
    without regard to case and blanks, and every colour it answers has a
    fill: yellow FFFF00, green 92D050, orange FFC000. The simplifier's
    classifier reads these fills, as written or with an alpha prefix, as
    yellow, green and other. *)
Theorem colour_table_closed (m color : string) :
  (_get_highlight_color m = Some color ->
   ((normalize_code m = "C->T" /\ color = "yellow"
     /\ assoc color HIGHLIGHT_COLORS = Some "FFFF00")
    \/ (normalize_code m = "A->G" /\ color = "green"
        /\ assoc color HIGHLIGHT_COLORS = Some "92D050")
    \/ ((normalize_code m = "G->A" \/ normalize_code m = "T->C")
        /\ color = "orange"
        /\ assoc color HIGHLIGHT_COLORS = Some "FFC000")))
  /\ (_get_highlight_color m = None <->
      m = "" \/ (normalize_code m <> "C->T" /\ normalize_code m <> "A->G"
                 /\ normalize_code m <> "G->A" /\ normalize_code m <> "T->C"))
  /\ map (fun rgb => GeneEditingProcessor.cell_bucket
                        (mkCell VNone (Some rgb) None "General"))
         [ "FFFF00"; "92D050"; "FFC000"; "00FFFF00"; "0092D050"; "00FFC000" ]
     = [ Some GeneEditingProcessor.Yellow; Some GeneEditingProcessor.Green;
         Some GeneEditingProcessor.Other; Some GeneEditingProcessor.Yellow;
         Some GeneEditingProcessor.Green; Some GeneEditingProcessor.Other ].
Proof.
  split.
  { intros H. apply color_lookup_cases in H.
    destruct H as [[H ->]|[[H ->]|[[H ->]|[H ->]]]]; auto 8. }
  split; [|vm_compute; reflexivity].
  unfold _get_highlight_color.
  destruct (String.eqb_spec m "") as [->|Hm]; [split; auto|].
  unfold MUTATION_COLOR_MAP. cbn [List.find fst].
  change (PyStr.upper "C->T") with "C->T".
  change (PyStr.upper "A->G") with "A->G".
  change (PyStr.upper "G->A") with "G->A".
  change (PyStr.upper "T->C") with "T->C".
  destruct (String.eqb_spec "C->T" (normalize_code m)) as [E|E];
    [split; [discriminate|intros [?|(N & _)]; congruence]|].
  destruct (String.eqb_spec "A->G" (normalize_code m)) as [E2|E2];
    [split; [discriminate|intros [?|(_ & N & _)]; congruence]|].
  destruct (String.eqb_spec "G->A" (normalize_code m)) as [E3|E3];
    [split; [discriminate|intros [?|(_ & _ & N & _)]; congruence]|].
  destruct (String.eqb_spec "T->C" (normalize_code m)) as [E4|E4];
    [split; [discriminate|intros [?|(_ & _ & _ & N)]; congruence]|].
  split; [|reflexivity]. intros _. right. repeat split; congruence.
Qed.

(** The verifier without any assumption on its arguments: it answers one of
    the three statuses; [unknown] exactly when a sequence is empty, the
    window does not fit, the code cannot be read or the window has no
    lower-case character; and with [correct] it reports the claimed pair. *)
Theorem verifier_unknown_exactly (wt mut claimed : string) (pos : Z * Z) :
  let res := _verify_mutation_with_wt wt mut claimed pos in
  (status_of res = "correct" \/ status_of res = "error"
   \/ status_of res = "unknown")
  /\ (status_of res = "unknown" <->
      wt = "" \/ mut = "" \/ (fst pos < 0)%Z
      \/ (PyStr.len wt < snd pos)%Z \/ (PyStr.len mut < snd pos)%Z
      \/ match_mutation (PyStr.upper claimed) = None
      \/ window_transitions wt mut pos = [])
  /\ (status_of res = "correct" ->
      exists from to,
        match_mutation (PyStr.upper claimed) = Some (from, to)
        /\ snd (fst res) = mutation_code from to
        /\ claimed_observed (window_transitions wt mut pos) from to).
Proof.
  cbv zeta.
  destruct (String.eqb_spec wt "") as [Hwt|Hwt].
  { unfold _verify_mutation_with_wt. rewrite Hwt. cbn.
    split; [auto|]. split; [split; auto|discriminate]. }
  destruct (String.eqb_spec mut "") as [Hmut|Hmut].
  { unfold _verify_mutation_with_wt. rewrite Hmut.
    destruct (String.eqb wt ""); cbn;
      (split; [auto|]; split; [split; auto|discriminate]). }
  destruct pos as [s e]. cbn [fst snd].
  destruct (Z.ltb_spec s 0) as [Hs|Hs].
  { unfold _verify_mutation_with_wt.
    destruct (String.eqb_spec wt ""); [contradiction|].
    destruct (String.eqb_spec mut ""); [contradiction|]. cbn [orb].
    destruct (Z.ltb_spec s 0); [|lia]. cbn.
    split; [auto|]. split; [split; auto|discriminate]. }
  destruct (Z.gtb_spec e (PyStr.len wt)) as [He|He].
  { unfold _verify_mutation_with_wt.
    destruct (String.eqb_spec wt ""); [contradiction|].
    destruct (String.eqb_spec mut ""); [contradiction|]. cbn [orb].
    destruct (Z.ltb_spec s 0); [lia|].
    destruct (Z.gtb_spec e (PyStr.len wt)); [|lia]. cbn.
    split; [auto|]. split; [split; auto 6|discriminate]. }
  destruct (Z.gtb_spec e (PyStr.len mut)) as [He2|He2].
  { unfold _verify_mutation_with_wt.
    destruct (String.eqb_spec wt ""); [contradiction|].
    destruct (String.eqb_spec mut ""); [contradiction|]. cbn [orb].
    destruct (Z.ltb_spec s 0); [lia|].
    destruct (Z.gtb_spec e (PyStr.len wt)); [lia|].
    destruct (Z.gtb_spec e (PyStr.len mut)); [|lia]. cbn.
    split; [auto|]. split; [split; auto 8|discriminate]. }
  destruct (match_mutation (PyStr.upper claimed)) as [[from to]|] eqn:Hm.
  2:{ unfold _verify_mutation_with_wt.
      destruct (String.eqb_spec wt ""); [contradiction|].
      destruct (String.eqb_spec mut ""); [contradiction|]. cbn [orb].
      destruct (Z.ltb_spec s 0); [lia|].
      destruct (Z.gtb_spec e (PyStr.len wt)); [lia|].
      destruct (Z.gtb_spec e (PyStr.len mut)); [lia|]. cbn [orb].
      rewrite Hm. cbn.
      split; [auto|]. split; [split; auto 10|discriminate]. }
  pose proof (status_unknown_iff wt mut claimed (s, e) from to
                Hwt Hmut Hs He He2 Hm) as Hunk.
  pose proof (status_correct_iff wt mut claimed (s, e) from to
                Hwt Hmut Hs He He2 Hm) as Hcor.
  pose proof (verify_unfold wt mut claimed (s, e) from to
                Hwt Hmut Hs He He2 Hm) as Hu.
  split.
  { rewrite Hu. destruct (window_transitions wt mut (s, e)); [cbn; auto|].
    destruct (existsb _ _); [cbn; auto|]. destruct (map _ _); cbn; auto. }
  split.
  { rewrite Hunk. split; [auto 10|].
    intros [?|[?|[?|[?|[?|[?|?]]]]]]; try contradiction; try lia;
      try discriminate; assumption. }
  intros Hc. exists from, to. split; [reflexivity|].
  split; [|apply Hcor; exact Hc].
  rewrite Hu in Hc |- *.
  destruct (window_transitions wt mut (s, e)); [discriminate Hc|].
  destruct (existsb _ _); [reflexivity|].
  destruct (map _ _); discriminate Hc.
Qed.

End CodeProps.

(** ** More on ingestion and simplification *)

Module GridProps.
Import GeneEditingProcessor PyStrProps PyStrFacts IngestProps SimplifierProps
  ExtractionProps.

(** *** The simplified rows *)

Definition simplified_row_ok (groups : list group) (row : SimplifiedRow.t)
  : Prop :=
  (SimplifiedRow.row_type row = "WT" \/ SimplifiedRow.row_type row = "SNP")
  /\ (SimplifiedRow.row_type row = "SNP" <->
      SimplifiedRow.is_highlighted row = true)
  /\ (SimplifiedRow.row_type row = "WT" ->
      SimplifiedRow.red_20_bases row = "-"
      /\ SimplifiedRow.highlight_color row = "")
  /\ (SimplifiedRow.is_simplified row = true ->
      SimplifiedRow.row_type row = "WT")
  /\ SimplifiedRow.red_20_bases row <> ""
  /\ exists g e,
       In g groups /\ In e (all_entries g)
       /\ SimplifiedRow.sequence_id row = seq_id g
       /\ SimplifiedRow.reference_name row = ref_name g
       /\ SimplifiedRow.original_row_values row = SequenceEntry.original_row e
       /\ SimplifiedRow.original_row_num row = SequenceEntry.row_number e
       /\ (SimplifiedRow.is_simplified row = true <->
           highlighted_entries g = [] /\ SequenceEntry.is_wt e = true).

Lemma wt_row_ok (groups : list group) (g : group) (e : SequenceEntry.t) :
  In g groups -> In e (wt_entries g) ->
  simplified_row_ok groups
    (wt_row g (match highlighted_entries g with [] => true | _ => false end) e).
Proof.
  intros Hg He. apply filter_In in He. destruct He as [He Hwt].
  unfold simplified_row_ok. cbn.
  split; [auto|]. split; [split; discriminate|]. split; [auto|].
  split; [auto|]. split; [discriminate|].
  exists g, e. repeat split; auto.
  - destruct (highlighted_entries g); [reflexivity|discriminate].
  - intros [-> _]. reflexivity.
Qed.

Lemma snp_row_ok (groups : list group) (g : group) (e : SequenceEntry.t) :
  In g groups -> In e (highlighted_entries g) ->
  simplified_row_ok groups (snp_row g e).
Proof.
  intros Hg He. pose proof He as He'. apply filter_In in He.
  destruct He as [He Hhl].
  unfold simplified_row_ok. cbn.
  split; [auto|]. split; [split; reflexivity|]. split; [discriminate|].
  split; [discriminate|].
  split.
  { destruct (String.eqb_spec (hl_red_bases e) ""); cbn; [discriminate|assumption]. }
  exists g, e. repeat split; auto; try discriminate.
  intros [Hnil _]. rewrite Hnil in He'. destruct He'.
Qed.

(** Every row the simplifier emits is a WT or an SNP row of one entry of
    one group, carrying that group's identifier and the entry's complete
    original row and row number; SNP rows are exactly the rows flagged
    highlighted; WT rows have the sentinel and no colour; the red bases
    are never empty; and a row is marked simplified exactly when it is a
    wild-type row of a group without highlighted entries. The number of
    rows is the sum over the groups of their wild-type and highlighted
    entries. *)
Theorem simplified_rows_well_formed (groups : list group) :
  Forall (simplified_row_ok groups) (simplify_data groups)
  /\ length (simplify_data groups)
     = list_sum (map (fun g => (length (wt_entries g)
                                + length (highlighted_entries g))%nat) groups).
Proof.
  rewrite simplify_data_concat. split.
  - apply List.Forall_forall. intros row Hrow. apply in_concat in Hrow.
    destruct Hrow as (rows & Hrows & Hrow). apply in_map_iff in Hrows.
    destruct Hrows as (g & <- & Hg). rewrite simplify_group_rows in Hrow.
    apply in_app_or in Hrow. destruct Hrow as [Hrow|Hrow];
      apply in_map_iff in Hrow; destruct Hrow as (e & <- & He).
    + now apply wt_row_ok.
    + now apply snp_row_ok.
  - induction groups as [|g gs IH]; [reflexivity|].
    cbn [map concat list_sum]. rewrite length_app, IH, simplify_group_rows.
    rewrite length_app, !length_map. reflexivity.
Qed.

(** *** The entries of the groups *)











End GridProps.

(** ** Header rows across the three transforms, and renumbering twice *)

Module HeaderProps.
Import PyStrProps PyStrFacts Renumberer RenumberProps.

Lemma digit_not_space (c : ascii) :
  PyStr.is_digit c = true -> PyStr.isspace c = false.
Proof. destruct c as [[] [] [] [] [] [] [] []]; vm_compute; congruence. Qed.

Lemma word_not_space (c : ascii) :
  PyStr.is_word c = true -> PyStr.isspace c = false.
Proof. destruct c as [[] [] [] [] [] [] [] []]; vm_compute; congruence. Qed.

Definition all_chars (p : ascii -> bool) (s : string) : bool :=
  forallb p (PyStr.chars s).

Lemma all_chars_append (p : ascii -> bool) (s t : string) :
  all_chars p (s +:+ t) = all_chars p s && all_chars p t.
Proof. unfold all_chars. now rewrite chars_append, forallb_app. Qed.

Lemma lstrip_id (s : string) :
  all_chars (fun c => negb (PyStr.isspace c)) s = true -> PyStr.lstrip s = s.
Proof.
  destruct s as [|c s]; [reflexivity|]. unfold all_chars. cbn.
  intros H. apply andb_prop in H. destruct H as [H _].
  apply negb_true_iff in H. now rewrite H.
Qed.

Lemma rstrip_id (s : string) :
  all_chars (fun c => negb (PyStr.isspace c)) s = true -> PyStr.rstrip s = s.
Proof.
  unfold all_chars. induction s as [|c s IH]; [reflexivity|].
  cbn [PyStr.chars list_ascii_of_string forallb]. intros H.
  apply andb_prop in H. destruct H as [Hc Hs].
  cbn [PyStr.rstrip]. rewrite (IH Hs). apply negb_true_iff in Hc. rewrite Hc.
  destruct s; reflexivity.
Qed.

Lemma strip_id (s : string) :
  all_chars (fun c => negb (PyStr.isspace c)) s = true -> PyStr.strip s = s.
Proof. intros H. unfold PyStr.strip. now rewrite (lstrip_id s H), rstrip_id. Qed.

Lemma all_chars_weaken (p q : ascii -> bool) (s : string) :
  (forall c, p c = true -> q c = true) ->
  all_chars p s = true -> all_chars q s = true.
Proof.
  intros Hpq. unfold all_chars. rewrite !forallb_forall. intros H c Hc. auto.
Qed.

Lemma span_fst_all (p : ascii -> bool) (s : string) :
  all_chars p (fst (span p s)) = true.
Proof.
  induction s as [|c s IH]; [reflexivity|]. cbn [span].
  destruct (p c) eqn:Hc; [|reflexivity].
  destruct (span p s) as [a b]. unfold all_chars in *. cbn. now rewrite Hc.
Qed.

Lemma span_all (p : ascii -> bool) (a b : string) :
  all_chars p a = true ->
  (b = "" \/ exists c b', b = String c b' /\ p c = false) ->
  span p (a +:+ b) = (a, b).
Proof.
  intros Ha Hb. induction a as [|c a IH].
  - change ("" +:+ b) with b.
    destruct Hb as [->|(c & b' & -> & Hc)]; [reflexivity|].
    cbn [span]. now rewrite Hc.
  - unfold all_chars in Ha. cbn in Ha. apply andb_prop in Ha.
    destruct Ha as [Hc Ha].
    change (String c a +:+ b) with (String c (a +:+ b)). cbn [span].
    rewrite Hc, (IH Ha). reflexivity.
Qed.

Lemma slice_from_append (a b : string) :
  PyStr.slice_from (a +:+ b) (PyStr.len a) = b.
Proof.
  apply chars_inj. unfold PyStr.slice_from.
  pose proof (len_nonneg a). pose proof (len_nonneg b).
  rewrite chars_slice by (rewrite ?len_append; lia).
  rewrite chars_append, len_append.
  replace (Z.to_nat (PyStr.len a)) with (length (PyStr.chars a))
    by (rewrite length_chars; unfold PyStr.len; lia).
  rewrite drop_app_length. apply take_ge.
  rewrite length_chars. unfold PyStr.len. lia.
Qed.

(** A string made of digits, [-ref] and word characters is an identifier
    whose parts are read back. *)
Lemma pattern_matches (digits name : string) :
  digits <> "" -> name <> "" ->
  all_chars PyStr.is_digit digits = true ->
  all_chars PyStr.is_word name = true ->
  match_sequence_pattern (digits +:+ "-ref" +:+ name) = Some (digits, name)
  /\ PyStr.strip (digits +:+ "-ref" +:+ name) = digits +:+ "-ref" +:+ name
  /\ digits +:+ "-ref" +:+ name <> "".
Proof.
  intros Hd Hn Had Han. split; [|split].
  - unfold match_sequence_pattern.
    rewrite (span_all PyStr.is_digit digits ("-ref" +:+ name) Had)
      by (right; eexists _, _; split; [reflexivity|reflexivity]).
    destruct (String.eqb_spec digits ""); [contradiction|].
    change (String.prefix "-ref" ("-ref" +:+ name)) with (String.prefix "" name).
    assert (Hp : String.prefix "" name = true) by (destruct name; reflexivity).
    rewrite Hp.
    change 4%Z with (PyStr.len "-ref"). rewrite slice_from_append.
    rewrite <- (append_empty_r name) at 1.
    rewrite (span_all PyStr.is_word name "" Han) by (left; reflexivity).
    destruct (String.eqb_spec name ""); [contradiction|]. reflexivity.
  - apply strip_id. rewrite !all_chars_append.
    rewrite (all_chars_weaken PyStr.is_digit _ digits) by
      first [exact Had | intros c Hc; now rewrite digit_not_space].
    rewrite (all_chars_weaken PyStr.is_word _ name) by
      first [exact Han | intros c Hc; now rewrite word_not_space].
    reflexivity.
  - destruct digits; [contradiction|discriminate].
Qed.

Lemma pattern_parts (s digits name : string) :
  match_sequence_pattern s = Some (digits, name) ->
  name <> "" /\ all_chars PyStr.is_word name = true
  /\ digits <> "" /\ all_chars PyStr.is_digit digits = true.
Proof.
  unfold match_sequence_pattern.
  pose proof (span_fst_all PyStr.is_digit s) as Hd.
  destruct (span PyStr.is_digit s) as [d rest]. cbn [fst] in Hd.
  destruct (String.eqb_spec d ""); [discriminate|].
  destruct (String.prefix "-ref" rest); [|discriminate].
  pose proof (span_fst_all PyStr.is_word (PyStr.slice_from rest 4)) as Hn.
  destruct (span PyStr.is_word (PyStr.slice_from rest 4)) as [nm tail].
  cbn [fst] in Hn.
  destruct (String.eqb_spec nm ""); [discriminate|].
  destruct (_ || _); [|discriminate].
  intros [= <- <-]. auto.
Qed.

Lemma uint_digits (d : Decimal.uint) :
  all_chars PyStr.is_digit (NilEmpty.string_of_uint d) = true.
Proof. unfold all_chars. induction d; cbn; auto. Qed.

Lemma format_03d_digits (n : nat) :
  format_03d n <> "" /\ all_chars PyStr.is_digit (format_03d n) = true.
Proof.
  unfold format_03d.
  assert (H : NilZero.string_of_uint (Nat.to_uint n) <> ""
              /\ all_chars PyStr.is_digit
                   (NilZero.string_of_uint (Nat.to_uint n)) = true).
  { unfold NilZero.string_of_uint.
    destruct (Nat.to_uint n) as [|d|d|d|d|d|d|d|d|d|d];
      (split; [cbn; discriminate|]); first [reflexivity | apply uint_digits]. }
  destruct H as [Hne Hd].
  destruct (String.length _) as [|[|[|k]]]; split; try discriminate; auto.
Qed.

(** The first cell of a relabelled header row is again an identifier, with
    the new number and the old reference name. *)
Lemma header_of_relabelled (r : row) (digits name : string) (n : nat) :
  header_of r = Some (digits, name) ->
  header_of (set_first_value (VStr (format_03d n +:+ "-ref" +:+ name)) r)
  = Some (format_03d n, name).
Proof.
  intros H. pose proof H as Hp. unfold header_of in Hp.
  apply pattern_parts in Hp. destruct Hp as (Hn & Han & _ & _).
  destruct (format_03d_digits n) as [Hd Had].
  destruct (pattern_matches _ _ Hd Hn Had Han) as (Hm & Hs & Hne).
  destruct r as [|c r]; [discriminate H|].
  unfold header_of, stripped_if_truthy. cbn [set_first_value map nth_error value].
  cbn [truthy py_str].
  destruct (String.eqb_spec (format_03d n +:+ "-ref" +:+ name) "");
    [contradiction|].
  cbn [negb]. now rewrite Hs.
Qed.

Lemma set_first_value_twice (v w : cell_value) (r : row) :
  set_first_value w (set_first_value v r) = set_first_value w r.
Proof. destruct r; reflexivity. Qed.

Fixpoint headers (ws : sheet) : nat :=
  match ws with
  | [] => 0
  | r :: rest =>
      match header_of r with
      | Some _ => S (headers rest)
      | None => headers rest
      end
  end.

Lemma collect_length (ws : sheet) (j : nat) :
  length (collect_sequence_id_rows ws j) = headers ws.
Proof.
  revert j. induction ws as [|r rest IH]; intros j; [reflexivity|].
  cbn [collect_sequence_id_rows headers]. unfold header_of.
  destruct (match_sequence_pattern _) as [[d nm]|]; cbn; now rewrite IH.
Qed.

Lemma collect_relabel (ws : sheet) (nums : list nat) (j : nat) :
  length nums = headers ws ->
  map (fun h => snd (fst h)) (collect_sequence_id_rows (relabel ws nums) j)
  = map format_03d nums.
Proof.
  revert nums j. induction ws as [|r rest IH]; intros nums j Hlen.
  - destruct nums; [reflexivity|discriminate].
  - cbn [relabel headers] in *.
    destruct (header_of r) as [[d nm]|] eqn:Hr.
    + destruct nums as [|n nums]; [discriminate|].
      cbn [collect_sequence_id_rows].
      pose proof (header_of_relabelled r d nm n Hr) as Hh.
      unfold header_of in Hh. rewrite Hh. cbn [map fst snd].
      rewrite IH by (cbn in Hlen; lia). reflexivity.
    + cbn [collect_sequence_id_rows].
      unfold header_of in Hr. rewrite Hr. now apply IH.
Qed.

Lemma relabel_relabel (ws : sheet) (nums nums2 : list nat) :
  length nums = headers ws -> length nums2 = headers ws ->
  relabel (relabel ws nums) nums2 = relabel ws nums2.
Proof.
  revert nums nums2. induction ws as [|r rest IH]; intros nums nums2 Hlen Hlen2.
  - reflexivity.
  - cbn [relabel headers] in *.
    destruct (header_of r) as [[d nm]|] eqn:Hr.
    + destruct nums as [|n nums]; [discriminate|].
      destruct nums2 as [|m nums2]; [discriminate|].
      cbn [relabel]. rewrite (header_of_relabelled r d nm n Hr).
      rewrite set_first_value_twice.
      rewrite IH by (cbn in Hlen, Hlen2; lia). reflexivity.
    + cbn [relabel]. rewrite Hr. now rewrite IH.
Qed.

(** Numbering tokens that are themselves the numbers of a numbering gives
    the same numbers. *)
Lemma run_numbers_fixed (ds : list string) (prev : option string) (n : nat) :
  run_numbers (option_map (fun _ => format_03d n) prev) n
    (map format_03d (run_numbers prev n ds))
  = run_numbers prev n ds.
Proof.
  revert prev n. induction ds as [|t ds IH]; intros prev n; [reflexivity|].
  cbn [run_numbers map].
  destruct (decide (Some t = prev)) as [E|E].
  - subst prev. cbn [option_map].
    destruct (decide (Some (format_03d n) = Some (format_03d n)));
      [|congruence].
    f_equal. exact (IH (Some t) n).
  - destruct (decide (Some (format_03d (S n))
                      = option_map (fun _ => format_03d n) prev)) as [E'|E'].
    + destruct prev; [|discriminate]. cbn in E'. injection E' as E'.
      apply format_03d_inj in E'. lia.
    + f_equal. exact (IH (Some t) (S n)).
Qed.

Lemma sort_as_relabel (ws : sheet) :
  sort_gene_editing_file ws
  = let nums := run_numbers None 0 (header_digits ws) in
    mkRenumbered (relabel (copied ws) nums) (List.last nums 0%nat)
                 (length nums).
Proof.
  unfold sort_gene_editing_file, assign_all. cbn zeta.
  rewrite (copy_rows_relabel (load_workbook_plain ws) 1 (mkNumbering ∅ 0 None))
    by (intros k _; apply lookup_empty).
  rewrite fold_assign_counter. cbn [prev_orig_num new_seq_counter].
  rewrite copied_as_loaded, collect_plain.
  unfold header_digits. rewrite run_numbers_length, length_map. reflexivity.
Qed.

Lemma headers_copied (ws : sheet) : headers (copied ws) = headers ws.
Proof.
  induction ws as [|r rest IH]; [reflexivity|].
  cbn [copied map headers]. rewrite header_of_copied.
  fold (copied rest). now rewrite IH.
Qed.

Lemma copied_cell_twice (c : cell) : copied_cell (copied_cell c) = copied_cell c.
Proof.
  destruct c as [v fill font nf].
  unfold copied_cell, normal_format, plain_cell, copied_format.
  cbn [value fill_rgb font_rgb number_format].
  destruct v; destruct (String.eqb nf "") eqn:E; cbn [negb plain_value];
    rewrite ?E; reflexivity.
Qed.

Lemma copied_twice (ws : sheet) : copied (copied ws) = copied ws.
Proof.
  unfold copied. rewrite map_map. apply List.map_ext. intros r.
  rewrite map_map. apply List.map_ext. exact copied_cell_twice.
Qed.

Lemma copied_set_first_value (s : string) (r : row) :
  map copied_cell (set_first_value (VStr s) r)
  = set_first_value (VStr s) (map copied_cell r).
Proof. destruct r as [|c r]; reflexivity. Qed.

Lemma copied_relabel (ws : sheet) (nums : list nat) :
  copied (relabel ws nums) = relabel (copied ws) nums.
Proof.
  revert nums. induction ws as [|r rest IH]; intros nums; [reflexivity|].
  cbn [relabel copied map]. rewrite header_of_copied.
  destruct (header_of r) as [[d nm]|].
  - destruct nums as [|n nums]; cbn [map].
    + f_equal. exact (IH []).
    + rewrite copied_set_first_value. f_equal. exact (IH nums).
  - cbn [map]. f_equal. exact (IH nums).
Qed.

(** Renumbering an already renumbered worksheet changes nothing: the second
    pass writes the same identifiers and reports the same two counts. *)
Theorem renumbering_is_idempotent (ws : sheet) :
  sort_gene_editing_file (ws_dst (sort_gene_editing_file ws))
  = sort_gene_editing_file ws.
Proof.
  rewrite (sort_as_relabel ws). cbn zeta. cbn [ws_dst].
  set (nums := run_numbers None 0 (header_digits ws)).
  assert (Hlen : length nums = headers (copied ws)).
  { unfold nums, header_digits.
    now rewrite run_numbers_length, length_map, collect_length, headers_copied. }
  rewrite sort_as_relabel. cbn zeta.
  assert (Hd : header_digits (relabel (copied ws) nums) = map format_03d nums)
    by (apply collect_relabel; exact Hlen).
  rewrite Hd.
  assert (Hn : run_numbers None 0 (map format_03d nums) = nums)
    by (exact (run_numbers_fixed (header_digits ws) None 0)).
  rewrite Hn. rewrite copied_relabel, copied_twice.
  now rewrite relabel_relabel.
Qed.

Lemma run_numbers_last_bounds (ds : list string) (prev : option string) (n : nat) :
  (n <= List.last (run_numbers prev n ds) n <= n + length ds)%nat.
Proof.
  revert prev n. induction ds as [|t ds IH]; intros prev n; [cbn; lia|].
  cbn [run_numbers]. rewrite last_cons_default. cbn [length].
  destruct (decide (Some t = prev)).
  - specialize (IH (Some t) n). lia.
  - specialize (IH (Some t) (S n)). lia.
Qed.

Lemma relabel_length (ws : sheet) (nums : list nat) :
  length (relabel ws nums) = length ws.
Proof.
  revert nums. induction ws as [|r rest IH]; intros nums; [reflexivity|].
  cbn [relabel]. destruct (header_of r) as [[d nm]|]; [destruct nums|];
    cbn [length]; now rewrite IH.
Qed.

(** The renumberer writes as many rows as it read; it reports as many rows
    as the worksheet has header rows, never more groups than header rows,
    and no group only when there is no header row. *)
Theorem groups_at_most_header_rows (ws : sheet) :
  let r := sort_gene_editing_file ws in
  length (ws_dst r) = length ws
  /\ total_rows r = headers ws
  /\ (total_groups r <= total_rows r)%nat
  /\ (total_groups r = 0%nat <-> total_rows r = 0%nat).
Proof.
  rewrite sort_as_relabel. cbn zeta. cbn [ws_dst total_rows total_groups].
  unfold header_digits.
  rewrite relabel_length. unfold copied. rewrite length_map.
  rewrite run_numbers_length, length_map, collect_length.
  pose proof (collect_length ws 1) as Hc.
  destruct (collect_sequence_id_rows ws 1) as [|[[i d] nm] ids].
  - cbn in *. rewrite <- Hc. repeat split; auto.
  - cbn [map fst snd]. rewrite run_numbers_first, last_cons_default.
    pose proof (run_numbers_last_bounds
                  (map (fun h => snd (fst h)) ids) (Some d) 1) as Hb.
    rewrite length_map in Hb. cbn [length] in Hc.
    repeat split; try lia.
Qed.

(** *** Stripping twice *)

Lemma lstrip_head (s : string) :
  PyStr.lstrip s = ""
  \/ exists c t, PyStr.lstrip s = String c t /\ PyStr.isspace c = false.
Proof.
  induction s as [|c s IH]; [now left|]. cbn [PyStr.lstrip].
  destruct (PyStr.isspace c) eqn:Hc; [exact IH|]. right. eauto.
Qed.

Lemma rstrip_rstrip (s : string) : PyStr.rstrip (PyStr.rstrip s) = PyStr.rstrip s.
Proof.
  induction s as [|c s IH]; [reflexivity|]. cbn [PyStr.rstrip].
  destruct (PyStr.rstrip s) as [|c' r'] eqn:Hr.
  - destruct (PyStr.isspace c) eqn:Hc; [reflexivity|].
    cbn [PyStr.rstrip]. now rewrite Hc.
  - cbn [PyStr.rstrip] in *. now rewrite IH.
Qed.

Lemma rstrip_head (c : ascii) (t : string) :
  PyStr.isspace c = false ->
  exists t', PyStr.rstrip (String c t) = String c t'.
Proof.
  intros Hc. cbn [PyStr.rstrip]. destruct (PyStr.rstrip t); [|eauto].
  rewrite Hc. eauto.
Qed.

Lemma strip_strip (s : string) : PyStr.strip (PyStr.strip s) = PyStr.strip s.
Proof.
  unfold PyStr.strip.
  destruct (lstrip_head s) as [->|(c & t & -> & Hc)]; [reflexivity|].
  destruct (rstrip_head c t Hc) as [t' Ht]. rewrite Ht.
  cbn [PyStr.lstrip]. rewrite Hc, <- Ht. apply rstrip_rstrip.
Qed.

Lemma prefix_ref_dash (s : string) :
  String.prefix "-ref" s = true -> String.prefix "-" s = true.
Proof.
  destruct s as [|c s]; [discriminate|]. cbn [String.prefix].
  destruct (ascii_dec "-" c); [|discriminate]. now destruct s.
Qed.

(** *** The text of a float is never an identifier *)

(** The characters of [repr(x)] and of a formatted percentage. *)
Definition float_char (c : ascii) : bool :=
  PyStr.is_digit c || PyStr.char_in c ".-+einfa%".

Lemma float_char_digit (c : ascii) :
  PyStr.is_digit c = true -> float_char c = true.
Proof. unfold float_char. now intros ->. Qed.

Lemma all_chars_substring (p : ascii -> bool) (a b : nat) (s : string) :
  all_chars p s = true -> all_chars p (String.substring a b s) = true.
Proof.
  unfold all_chars. revert a b. induction s as [|c s IH]; intros a b H.
  - now destruct a, b.
  - cbn in H. apply andb_prop in H. destruct H as [Hc Hs].
    destruct a as [|a]; cbn [String.substring].
    + destruct b as [|b]; [reflexivity|]. cbn. rewrite Hc. now apply IH.
    + now apply IH.
Qed.

Lemma digits_chars (n : Z) : all_chars float_char (PyFloat.digits n) = true.
Proof.
  apply (all_chars_weaken PyStr.is_digit); [exact float_char_digit|].
  unfold PyFloat.digits, NilZero.string_of_uint.
  destruct (N.to_uint (Z.to_N n)); first [reflexivity | apply uint_digits].
Qed.

Lemma zeros_chars (k : nat) : all_chars float_char (PyFloat.zeros k) = true.
Proof. induction k as [|k IH]; [reflexivity|]. exact IH. Qed.

Lemma sign_chars (b : bool) : all_chars float_char (PyFloat.sign b) = true.
Proof. now destruct b. Qed.

Ltac float_chars :=
  repeat first
    [ reflexivity
    | assumption
    | apply digits_chars
    | apply zeros_chars
    | apply sign_chars
    | apply all_chars_substring
    | rewrite all_chars_append; apply andb_true_intro; split
    | match goal with
      | |- all_chars _ (if ?b then _ else _) = true => destruct b
      end ].

Lemma fixed_point_chars (n : Z) (d : nat) :
  all_chars float_char (PyFloat.fixed_point n d) = true.
Proof. unfold PyFloat.fixed_point. destruct d; float_chars. Qed.

Lemma format_fixed_chars (x : float) (d : nat) :
  all_chars float_char (PyFloat.format_fixed x d) = true.
Proof.
  unfold PyFloat.format_fixed.
  destruct (Prim2SF x) as [b|b| |b m e]; float_chars;
    apply fixed_point_chars.
Qed.

Lemma repr_chars (x : float) : all_chars float_char (PyFloat.repr x) = true.
Proof.
  unfold PyFloat.repr.
  destruct (Prim2SF x) as [b|b| |b m e]; float_chars.
  unfold PyFloat.shortest.
  destruct (PyFloat.search m e 17 _) as [d q].
  pose proof (digits_chars (PyFloat.strip_zeros 18 d)) as Hds.
  float_chars.
Qed.

Lemma span_append (p : ascii -> bool) (s : string) :
  fst (span p s) +:+ snd (span p s) = s.
Proof.
  induction s as [|c s IH]; [reflexivity|]. cbn [span].
  destruct (p c); [|reflexivity].
  destruct (span p s) as [a b]. cbn [fst snd] in *.
  change (String c a +:+ b) with (String c (a +:+ b)). now rewrite IH.
Qed.

Lemma all_chars_lstrip (p : ascii -> bool) (s : string) :
  all_chars p s = true -> all_chars p (PyStr.lstrip s) = true.
Proof.
  unfold all_chars. induction s as [|c s IH]; [reflexivity|].
  intros H. cbn [PyStr.lstrip]. destruct (PyStr.isspace c); [|exact H].
  cbn in H. apply andb_prop in H. now apply IH.
Qed.

Lemma all_chars_rstrip (p : ascii -> bool) (s : string) :
  all_chars p s = true -> all_chars p (PyStr.rstrip s) = true.
Proof.
  unfold all_chars. induction s as [|c s IH]; [reflexivity|].
  intros H. cbn in H. apply andb_prop in H. destruct H as [Hc Hs].
  cbn [PyStr.rstrip]. specialize (IH Hs).
  destruct (PyStr.rstrip s) as [|c' r'].
  - destruct (PyStr.isspace c); [reflexivity|]. cbn. now rewrite Hc.
  - cbn in *. now rewrite Hc.
Qed.

Lemma float_text_not_header (s : string) :
  all_chars float_char s = true ->
  match_sequence_pattern (PyStr.strip s) = None.
Proof.
  intros H.
  assert (Hs : all_chars float_char (PyStr.strip s) = true)
    by (unfold PyStr.strip; now apply all_chars_rstrip, all_chars_lstrip).
  clear H. revert Hs. generalize (PyStr.strip s). clear s. intros s Hs.
  unfold match_sequence_pattern.
  pose proof (span_append PyStr.is_digit s) as Happ.
  destruct (span PyStr.is_digit s) as [d rest]. cbn [fst snd] in Happ.
  destruct (String.eqb d ""); [reflexivity|].
  destruct (String.prefix "-ref" rest) eqn:Hp; [|reflexivity].
  exfalso. rewrite <- Happ, all_chars_append in Hs.
  apply andb_prop in Hs. destruct Hs as [_ Hs].
  destruct rest as [|c1 rest]; [discriminate Hp|].
  cbn [String.prefix] in Hp.
  destruct (ascii_dec "-" c1); [|discriminate Hp].
  destruct rest as [|c2 rest]; [discriminate Hp|].
  cbn [String.prefix] in Hp.
  destruct (ascii_dec "r" c2) as [<-|]; [|discriminate Hp].
  unfold all_chars in Hs. cbn [PyStr.chars list_ascii_of_string forallb] in Hs.
  apply andb_prop in Hs. destruct Hs as [_ Hs].
  apply andb_prop in Hs. destruct Hs as [Hr _]. discriminate Hr.
Qed.

Lemma float_not_header (x : float) :
  match_sequence_pattern
    (if truthy (VFloat x) then PyStr.strip (py_str (VFloat x)) else "")
  = None.
Proof.
  destruct (truthy (VFloat x)); [|reflexivity].
  apply float_text_not_header, repr_chars.
Qed.

(** The ingestor, which reads a percentage as its text, and the
    renumberer, which reads the cell value, find the same identifier in
    the first cell of a row. *)
Lemma ingest_pattern (r : row) :
  match_sequence_pattern
    (GeneEditingProcessor.first_cell (map GeneEditingProcessor.row_value r))
  = header_of r.
Proof.
  unfold header_of, GeneEditingProcessor.first_cell, stripped_if_truthy.
  destruct r as [|c rest]; [reflexivity|]. cbn [map nth_error].
  unfold GeneEditingProcessor.row_value.
  destruct (value c) as [|s|z|x|parts] eqn:Hv; try reflexivity.
  rewrite (float_not_header x).
  destruct (_ && _); [|apply float_not_header].
  cbn [truthy py_str].
  destruct (negb _); [|reflexivity].
  apply float_text_not_header. rewrite all_chars_append.
  now rewrite format_fixed_chars.
Qed.

(** A row that the renumberer takes for a header row (the first cell is
    truthy and its stripped text matches the whole identifier pattern) is a
    header row for the ingestor and for the highlighter as well, and the
    highlighter reads the same digits from it. *)
Theorem header_rows_agree (r : row) :
  IngestProps.is_header_row r
  = match header_of r with Some _ => true | None => false end
  /\ (forall digits name, header_of r = Some (digits, name) ->
        MutationHighlighter._is_sequence_header (map value r)
        = (true, Some digits)).
Proof.
  unfold IngestProps.is_header_row. rewrite ingest_pattern.
  unfold header_of.
  destruct (match_sequence_pattern (stripped_if_truthy (map value r) 0))
    as [[d nm]|] eqn:Hm.
  - assert (Hcell : exists c rest, r = c :: rest /\ truthy (value c) = true
                /\ match_sequence_pattern (PyStr.strip (py_str (value c)))
                   = Some (d, nm)).
    { destruct r as [|c rest]; [discriminate Hm|].
      unfold stripped_if_truthy in Hm. cbn [map nth_error] in Hm.
      destruct (truthy (value c)) eqn:Ht; [|discriminate Hm]. eauto. }
    destruct Hcell as (c & rest & -> & Ht & Hp).
    assert (Hnone : is_none (value c) = false)
      by (destruct (value c); [discriminate Ht|reflexivity..]).
    assert (Hrow : GeneEditingProcessor.row_value c = value c).
    { unfold GeneEditingProcessor.row_value.
      destruct (value c) as [|s|z|x|parts] eqn:Hv; try reflexivity.
      pose proof (float_not_header x) as Hx. rewrite Ht in Hx.
      rewrite Hx in Hp. discriminate Hp. }
    split.
    + unfold all_empty. cbn [map forallb]. rewrite Hrow, Hnone.
      destruct (String.eqb_spec (PyStr.strip (py_str (value c))) "") as [E|E];
        [rewrite E in Hp; discriminate Hp|]. reflexivity.
    + intros digits name [= <- <-].
      unfold MutationHighlighter._is_sequence_header. cbn [map].
      rewrite Hnone.
      unfold MutationHighlighter.header_prefix,
        MutationHighlighter._get_sequence_id.
      rewrite strip_strip.
      unfold match_sequence_pattern in Hp.
      destruct (span PyStr.is_digit (PyStr.strip (py_str (value c))))
        as [dg rest'].
      destruct (String.eqb_spec dg ""); [discriminate Hp|].
      destruct (String.prefix "-ref" rest') eqn:Hpre; [|discriminate Hp].
      rewrite (prefix_ref_dash _ Hpre). cbn [negb andb].
      destruct (span PyStr.is_word (PyStr.slice_from rest' 4)) as [n' tl].
      destruct (String.eqb n' ""); [discriminate Hp|].
      destruct (_ || _); [|discriminate Hp].
      now injection Hp as -> _.
  - split; [now rewrite andb_false_r|]. intros ? ? [=].
Qed.

End HeaderProps.

(** ** Locating the target sequence *)

Module TargetProps.
Import PyStrProps PyStrFacts MutationHighlighter.

Lemma prefix_chars (sub s : string) :
  String.prefix sub s = true
  <-> take (length (PyStr.chars sub)) (PyStr.chars s) = PyStr.chars sub.
Proof.
  revert s. induction sub as [|a sub IH]; intros s.
  - cbn. now destruct s.
  - destruct s as [|c s]; cbn [String.prefix]; [cbn; split; discriminate|].
    change (PyStr.chars (String a sub)) with (a :: PyStr.chars sub).
    change (PyStr.chars (String c s)) with (c :: PyStr.chars s).
    cbn [length take]. destruct (ascii_dec a c) as [->|Hne].
    + rewrite IH. split; [now intros ->|now intros [= ->]].
    + split; [discriminate|]. intros [= E _]. congruence.
Qed.

Lemma prefix_false_chars (sub s : string) :
  String.prefix sub s = false
  <-> take (length (PyStr.chars sub)) (PyStr.chars s) <> PyStr.chars sub.
Proof.
  rewrite <- prefix_chars. destruct (String.prefix sub s); split; congruence.
Qed.

(** [find_from] returns the least offset at which [sub] occurs. *)
Lemma find_from_spec (sub s : string) (i : Z) :
  (0 <= i)%Z ->
  let n := length (PyStr.chars sub) in
  (PyStr.find_from sub s i = (-1)%Z
   /\ forall k, take n (drop k (PyStr.chars s)) <> PyStr.chars sub)
  \/ (exists k,
        PyStr.find_from sub s i = (i + Z.of_nat k)%Z
        /\ take n (drop k (PyStr.chars s)) = PyStr.chars sub
        /\ forall j, (j < k)%nat ->
             take n (drop j (PyStr.chars s)) <> PyStr.chars sub).
Proof.
  intros Hi n. revert i Hi. induction s as [|c s IH]; intros i Hi.
  - cbn [PyStr.find_from]. destruct (String.prefix sub "") eqn:Hp.
    + right. exists 0%nat. apply prefix_chars in Hp.
      split; [lia|]. split; [exact Hp|]. intros j Hj. lia.
    + left. split; [reflexivity|]. intros k. apply prefix_false_chars in Hp.
      cbn in Hp |- *. now rewrite drop_nil.
  - cbn [PyStr.find_from]. destruct (String.prefix sub (String c s)) eqn:Hp.
    + right. exists 0%nat. apply prefix_chars in Hp.
      split; [lia|]. split; [exact Hp|]. intros j Hj. lia.
    + apply prefix_false_chars in Hp.
      destruct (IH (i + 1)%Z ltac:(lia)) as [[Hf Hall]|(k & Hf & Hk & Hlt)].
      * left. split; [exact Hf|]. intros [|k]; [exact Hp|]. apply Hall.
      * right. exists (S k). split; [lia|]. split; [exact Hk|].
        intros [|j] Hj; [exact Hp|]. apply Hlt. lia.
Qed.

Lemma contains_find (sub s : string) (i : Z) :
  (0 <= i)%Z ->
  PyStr.contains sub s = negb (PyStr.find_from sub s i =? -1)%Z.
Proof.
  revert i. induction s as [|c s IH]; intros i Hi;
    cbn [PyStr.contains PyStr.find_from].
  - destruct (String.prefix sub ""); [|reflexivity].
    destruct (Z.eqb_spec i (-1)); [lia|reflexivity].
  - destruct (String.prefix sub (String c s)).
    + destruct (Z.eqb_spec i (-1)); [lia|reflexivity].
    + apply IH. lia.
Qed.

(** The window returned by the search is where the target first occurs in
    the upper-cased sequence, it has the length of the target, and the
    membership test agrees with the search. *)
Theorem target_window_is_first_occurrence (target sequence : string) :
  let '(start, end_) := _find_target_sequence_position target sequence in
  _contains_target_sequence target sequence = (start >=? 0)%Z
  /\ ((start >=? 0)%Z = false -> (start, end_) = ((-1)%Z, (-1)%Z))
  /\ ((start >=? 0)%Z = true ->
        end_ = (start + PyStr.len target)%Z
        /\ (end_ <= PyStr.len sequence)%Z
        /\ PyStr.slice (PyStr.upper sequence) start end_ = target
        /\ forall k, (0 <= k < start)%Z ->
             PyStr.slice (PyStr.upper sequence) k (k + PyStr.len target)
             <> target).
Proof.
  unfold _find_target_sequence_position, _contains_target_sequence.
  destruct (String.eqb_spec sequence "") as [->|Hne].
  { cbn. split; [reflexivity|]. split; [reflexivity|discriminate]. }
  unfold PyStr.find.
  rewrite (contains_find target (PyStr.upper sequence) 0) by lia.
  pose proof (find_from_bounds target (PyStr.upper sequence) 0 ltac:(lia)) as Hb.
  rewrite len_upper in Hb.
  destruct (find_from_spec target (PyStr.upper sequence) 0 ltac:(lia))
    as [[Hf Hall]|(k & Hf & Hk & Hlt)].
  - rewrite Hf. cbn. split; [reflexivity|]. split; [reflexivity|discriminate].
  - rewrite Hf. rewrite Hf in Hb.
    pose proof (len_nonneg target) as Hlt0.
    destruct (Z.eqb_spec (0 + Z.of_nat k) (-1)); [lia|].
    destruct Hb as [Hb|Hb]; [lia|].
    assert (Hn : Z.of_nat (length (PyStr.chars target)) = PyStr.len target)
      by (rewrite length_chars; reflexivity).
    split; [cbn [negb]; symmetry; apply Z.geb_le; lia|].
    split; [intros Hge; rewrite Z.geb_leb in Hge; apply Z.leb_gt in Hge; lia|].
    intros _. split; [reflexivity|]. split; [lia|]. split.
    + apply chars_inj. rewrite chars_slice by (rewrite ?len_upper; lia).
      replace (Z.to_nat (0 + Z.of_nat k + PyStr.len target - (0 + Z.of_nat k)))
        with (length (PyStr.chars target)) by lia.
      replace (Z.to_nat (0 + Z.of_nat k)) with k by lia. exact Hk.
    + intros j Hj E. apply (Hlt (Z.to_nat j) ltac:(lia)).
      rewrite <- E at 2.
      rewrite chars_slice by (rewrite ?len_upper; lia).
      replace (Z.to_nat (j + PyStr.len target - j))
        with (length (PyStr.chars target)) by lia. reflexivity.
Qed.

End TargetProps.

(** ** Validation and summary of the simplified rows *)

Module ReportProps.
Import GeneEditingProcessor SimplifierProps GeneEditingReports.

Lemma filter_map_all {A B : Type} (f : B -> bool) (h : A -> B) (l : list A) :
  (forall x, f (h x) = true) -> List.filter f (map h l) = map h l.
Proof.
  intros H. induction l as [|x l IH]; [reflexivity|].
  cbn. now rewrite H, IH.
Qed.

Lemma filter_map_none {A B : Type} (f : B -> bool) (h : A -> B) (l : list A) :
  (forall x, f (h x) = false) -> List.filter f (map h l) = [].
Proof.
  intros H. induction l as [|x l IH]; [reflexivity|].
  cbn. now rewrite H, IH.
Qed.

Lemma count_simplified (f : SimplifiedRow.t -> bool) (groups : list group) :
  length (List.filter f (simplify_data groups))
  = list_sum (map (fun g => length (List.filter f (simplify_group [] g)))
                  groups).
Proof.
  rewrite simplify_data_concat.
  induction groups as [|g groups IH]; [reflexivity|].
  cbn [map concat list_sum]. rewrite List.filter_app, length_app, IH.
  reflexivity.
Qed.

Lemma list_sum_ext {A : Type} (f g : A -> nat) (l : list A) :
  (forall x, f x = g x) -> list_sum (map f l) = list_sum (map g l).
Proof. intros H. f_equal. apply List.map_ext. exact H. Qed.

Lemma list_sum_plus {A : Type} (f g : A -> nat) (l : list A) :
  list_sum (map (fun x => (f x + g x)%nat) l)
  = (list_sum (map f l) + list_sum (map g l))%nat.
Proof. unfold list_sum. induction l; cbn in *; lia. Qed.

Definition is_snp (r : SimplifiedRow.t) : bool :=
  String.eqb (SimplifiedRow.row_type r) "SNP".

Definition is_wt_row (r : SimplifiedRow.t) : bool :=
  String.eqb (SimplifiedRow.row_type r) "WT".

(** A group without highlighted entries. *)
Definition plain_group (g : group) : bool :=
  match highlighted_entries g with [] => true | _ => false end.

Lemma group_counts (g : group) :
  length (List.filter is_snp (simplify_group [] g))
  = length (highlighted_entries g)
  /\ length (List.filter is_wt_row (simplify_group [] g))
     = length (wt_entries g)
  /\ length (List.filter SimplifiedRow.is_simplified (simplify_group [] g))
     = (if plain_group g then length (wt_entries g) else 0%nat)
  /\ length (simplify_group [] g)
     = (length (wt_entries g) + length (highlighted_entries g))%nat.
Proof.
  rewrite simplify_group_rows. fold (plain_group g).
  rewrite !List.filter_app, !length_app.
  rewrite (filter_map_none is_snp (wt_row g (plain_group g)))
    by reflexivity.
  rewrite (filter_map_all is_snp (snp_row g)) by reflexivity.
  rewrite (filter_map_all is_wt_row (wt_row g (plain_group g)))
    by reflexivity.
  rewrite (filter_map_none is_wt_row (snp_row g)) by reflexivity.
  rewrite (filter_map_none SimplifiedRow.is_simplified (snp_row g))
    by reflexivity.
  rewrite !length_map. cbn [length]. repeat split; try lia.
  destruct (plain_group g).
  - rewrite filter_map_all by reflexivity. rewrite length_map. lia.
  - rewrite filter_map_none by reflexivity. reflexivity.
Qed.

Lemma row_warnings_short (r : SimplifiedRow.t) :
  (length (row_warnings r) <= 1)%nat.
Proof.
  unfold row_warnings. destruct (_ || _); [cbn; lia|].
  destruct (_ <? _)%nat; cbn; lia.
Qed.

Lemma flat_map_short {A B : Type} (f : A -> list B) (l : list A) :
  (forall x, (length (f x) <= 1)%nat) ->
  (length (flat_map f l) <= length l)%nat.
Proof.
  intros H. induction l as [|x l IH]; [cbn; lia|].
  cbn [flat_map]. rewrite length_app. specialize (H x). cbn [length]. lia.
Qed.

(** On the rows of the simplifier the validation never fails and has at
    most one warning per SNP row; every row is counted once, as a WT or as
    an SNP row; the SNP rows are the highlighted entries and the WT rows
    the wild-type entries of the groups; and [simplified_groups], like
    [groups_without_highlights] of the summary, is the number of wild-type
    rows of the groups without highlighted entries: rows, not groups. *)
Theorem validation_counts_of_simplified (groups : list group) :
  let v := validate_results (simplify_data groups) in
  let s := get_summary (simplify_data groups) in
  Validation.valid v = true
  /\ Validation.issues v = []
  /\ (length (Validation.warnings v) <= Validation.snp_rows v)%nat
  /\ Validation.total_rows v
     = (Validation.wt_rows v + Validation.snp_rows v)%nat
  /\ Validation.wt_rows v
     = list_sum (map (fun g => length (wt_entries g)) groups)
  /\ Validation.snp_rows v
     = list_sum (map (fun g => length (highlighted_entries g)) groups)
  /\ Validation.simplified_groups v
     = list_sum (map (fun g => if plain_group g
                               then length (wt_entries g) else 0%nat) groups)
  /\ Summary.groups_without_highlights s = Validation.simplified_groups v
  /\ Summary.groups_with_highlights s
     = (Z.of_nat (Validation.total_sequence_groups v)
        - Z.of_nat (Validation.simplified_groups v))%Z.
Proof.
  cbn zeta. unfold validate_results, get_summary.
  cbn [Validation.valid Validation.issues Validation.warnings
       Validation.total_rows Validation.wt_rows Validation.snp_rows
       Validation.simplified_groups Validation.total_sequence_groups
       Summary.groups_without_highlights Summary.groups_with_highlights].
  fold is_snp is_wt_row.
  assert (Hsnp : length (List.filter is_snp (simplify_data groups))
                 = list_sum (map (fun g => length (highlighted_entries g)) groups)).
  { rewrite count_simplified. apply list_sum_ext. intros g.
    apply (group_counts g). }
  assert (Hwt : length (List.filter is_wt_row (simplify_data groups))
                = list_sum (map (fun g => length (wt_entries g)) groups)).
  { rewrite count_simplified. apply list_sum_ext. intros g.
    apply (group_counts g). }
  assert (Hall : length (simplify_data groups)
                 = list_sum (map (fun g => (length (wt_entries g)
                                            + length (highlighted_entries g))%nat)
                                 groups)).
  { rewrite simplify_data_concat, List.length_concat, map_map.
    apply list_sum_ext. intros g. apply (group_counts g). }
  split; [reflexivity|]. split; [reflexivity|].
  split; [apply flat_map_short, row_warnings_short|].
  split; [rewrite Hall, Hwt, Hsnp; apply list_sum_plus|].
  split; [exact Hwt|]. split; [exact Hsnp|].
  split; [|split; reflexivity].
  rewrite count_simplified. apply list_sum_ext. intros g.
  apply (group_counts g).
Qed.

(** *** The two distributions of the summary *)

Lemma tally_lookup (k c : string) (d : gmap string nat) :
  default 0%nat (tally k d !! c)
  = (default 0%nat (d !! c) + (if String.eqb k c then 1 else 0))%nat.
Proof.
  unfold tally. destruct (String.eqb_spec k c) as [->|Hne].
  - rewrite lookup_insert_eq. cbn. lia.
  - rewrite lookup_insert_ne by assumption. lia.
Qed.

Lemma fold_tally {A : Type} (f : gmap string nat -> A -> gmap string nat)
    (p : A -> string -> bool) :
  (forall d r c, default 0%nat (f d r !! c)
                 = (default 0%nat (d !! c) + (if p r c then 1 else 0))%nat) ->
  forall l d c,
    default 0%nat (fold_left f l d !! c)
    = (default 0%nat (d !! c)
       + length (List.filter (fun r => p r c) l))%nat.
Proof.
  intros Hf l. induction l as [|r l IH]; intros d c; cbn [fold_left List.filter].
  - cbn. lia.
  - rewrite IH, Hf. destruct (p r c); cbn [length]; lia.
Qed.

Definition is_missing (w : warning) : bool :=
  match w with MissingRedBases _ => true | ShortRedBases _ _ => false end.

Lemma missing_warnings (l : list SimplifiedRow.t) :
  (length (List.filter
             (fun r => negb (String.eqb (SimplifiedRow.red_20_bases r) "")
                       && negb (String.eqb (SimplifiedRow.red_20_bases r) "-"))
             l)
   + length (List.filter is_missing (flat_map row_warnings l)))%nat
  = length l.
Proof.
  induction l as [|r l IH]; [reflexivity|].
  cbn [List.filter flat_map]. rewrite List.filter_app, length_app.
  unfold row_warnings at 1.
  destruct (String.eqb (SimplifiedRow.red_20_bases r) "-");
    destruct (String.eqb (SimplifiedRow.red_20_bases r) "");
    cbn [negb andb orb List.filter is_missing length]; try lia.
  destruct (_ <? _)%nat; cbn [List.filter is_missing length]; lia.
Qed.

(** For any list of rows: the reference distribution of the summary counts
    the rows of each reference name, and the colour distribution the SNP
    rows of each colour, rows without a colour left out; and an SNP row is
    either counted as having red bases by the summary or warned about as
    missing them by the validation, never both. *)
Theorem summary_distributions (results : list SimplifiedRow.t) :
  let s := get_summary results in
  let v := validate_results results in
  (forall name,
      default 0%nat (Summary.reference_distribution s !! name)
      = length (List.filter
                  (fun r => String.eqb (SimplifiedRow.reference_name r) name)
                  results))
  /\ (forall color,
        default 0%nat (Summary.highlight_color_distribution s !! color)
        = if String.eqb color "" then 0%nat
          else length (List.filter
                         (fun r => String.eqb (SimplifiedRow.highlight_color r)
                                              color)
                         (List.filter is_snp results)))
  /\ (Summary.snp_with_red_bases s
      + length (List.filter is_missing (Validation.warnings v)))%nat
     = Summary.snp_rows s
  /\ Summary.total_rows s = Validation.total_rows v
  /\ Summary.total_sequence_groups s = Validation.total_sequence_groups v
  /\ (Summary.total_sequence_groups s <= Summary.total_rows s)%nat.
Proof.
  cbn zeta. unfold get_summary, validate_results.
  cbn [Summary.reference_distribution Summary.highlight_color_distribution
       Summary.snp_with_red_bases Summary.snp_rows Summary.total_rows
       Summary.total_sequence_groups Validation.warnings
       Validation.total_rows Validation.total_sequence_groups].
  fold is_snp. split; [|split; [|split; [|split; [|split]]]].
  - intros name.
    rewrite (fold_tally _ (fun r c => String.eqb (SimplifiedRow.reference_name r) c))
      by (intros d r c; apply tally_lookup).
    rewrite lookup_empty. reflexivity.
  - intros color.
    rewrite (fold_tally _
               (fun r c => negb (String.eqb (SimplifiedRow.highlight_color r) "")
                           && String.eqb (SimplifiedRow.highlight_color r) c)).
    + rewrite lookup_empty. cbn [default Nat.add].
      destruct (String.eqb_spec color "") as [->|Hc].
      * rewrite (List.filter_ext _ (fun _ => false))
          by (intros r; apply andb_negb_l).
        generalize (List.filter is_snp results). intros l.
        induction l; [reflexivity|assumption].
      * f_equal. apply List.filter_ext. intros r.
        destruct (String.eqb_spec (SimplifiedRow.highlight_color r) "") as [E|E];
          [|reflexivity].
        cbn [negb andb]. rewrite E. symmetry. apply String.eqb_neq. congruence.
    + intros d r c.
      destruct (String.eqb (SimplifiedRow.highlight_color r) ""); cbn [negb andb].
      * lia.
      * apply tally_lookup.
  - apply missing_warnings.
  - reflexivity.
  - reflexivity.
  - rewrite <- (length_map SimplifiedRow.sequence_id results).
    generalize (map SimplifiedRow.sequence_id results). intros l.
    induction l as [|x l IH]; [rewrite list_to_set_nil, size_empty; lia|].
    rewrite list_to_set_cons. cbn [length].
    pose proof (size_union_alt ({[x]} : gset string) (list_to_set l)) as Hu.
    rewrite Hu, size_singleton.
    assert (Hsub : (list_to_set l ∖ {[x]} : gset string) ⊆ list_to_set l)
      by (intros y Hy; apply elem_of_difference in Hy; tauto).
    apply subseteq_size in Hsub. lia.
Qed.

End ReportProps.

(** ** The theorems above on the example worksheets *)

Module ExampleRuns.
Import Examples HighlightExamples MutationHighlighter.

(** The window of the example wild type, written in red and read back. *)
Lemma red_window_of_wild_type :
  exists parts,
    _apply_red_font_to_20bp wt_sequence (4, 24)%Z = Some parts
    /\ py_str (VRich parts) = wt_sequence
    /\ GeneEditingProcessor._extract_red_from_cell_with_position
         (mkCell (VRich parts) None None "General")
       = (PyStr.slice wt_sequence 4 24, 4%Z).
Proof.
  apply (RoundTripProps.red_window_round_trip wt_sequence 4 24 None None
           "General").
  - lia.
  - lia.
  - vm_compute. discriminate.
Defined.

(** A group without a wild-type row is written back as it was read. *)
Lemma candidate_without_wild_type :
  highlighted_rows (process_file default_target elements sheet_no_wild_type) = []
  /\ total_highlighted (process_file default_target elements sheet_no_wild_type)
     = 0%nat
  /\ output_sheet (process_file default_target elements sheet_no_wild_type)
     = sheet_no_wild_type.
Proof.
  apply (FileProps.no_anchor_no_highlight default_target elements
           sheet_no_wild_type).
  repeat constructor.
Defined.

(** In [sheet_two_groups] rows 3 and 7 are reported with the code [C->T];
    the header row at index 4 lies between them. *)
Lemma same_code_in_two_groups :
  map HighlightResult.row_index
      (highlighted_rows (process_file default_target elements sheet_two_groups))
  = [3%nat; 7%nat]
  /\ exists n, (3 <= n)%nat /\ (S n < 7)%nat
               /\ FileProps.header_row sheet_two_groups n.
Proof.
  pose proof (FileProps.same_code_needs_header_between default_target elements
                sheet_two_groups 0 1) as H.
  remember (highlighted_rows
              (process_file default_target elements sheet_two_groups))
    as l eqn:E.
  vm_compute in E. subst l. split; [reflexivity|].
  specialize (H _ _ ltac:(lia) eq_refl eq_refl).
  destruct H as [_ H]. exact (H eq_refl).
Defined.

End ExampleRuns.
